(** * sunlight-meter: the TSL2591 driver and the sampling service

    A shallow embedding of [tsl2591/tsl2591.go], [tsl2591/constants.go] and
    [internal/sunlightmeter/sunlightmeter.go], and the properties of the lux
    calculation, the register operations, the gain calibration, the recorder
    and the job lifecycle.

    - bytes and [uint16] channel counts are [Z], bit operations are [Z.lor]
      and [Z.shiftl];
    - [float64] is the kernel's binary64 ([PrimFloat.float]), so that the lux
      arithmetic is the IEEE arithmetic that Go performs, NaN and infinities
      included;
    - the I2C device is an oracle ([I2C]) that says, for the n-th register
      write, whether it is acknowledged and, for the n-th register read, what
      bytes come back; the handle ([Bus]) counts the accesses and keeps their
      trace;
    - a Go [error] is an inductive with one constructor per error site, and a
      method [func (tsl *TSL2591) M(..) (.., error)] is a function from the
      receiver to the updated receiver and the results;
    - [fmt.Sprintf] with the verbs [%.5f] and [%.5e] is [strconv.FormatFloat]:
      the exact value of the float, correctly rounded to the digits asked
      for;
    - the service is a transition system: the handlers, the sampling
      goroutines and the recorder move one at a time, in the order a list of
      events gives;
    - the mutex of the handle is not modelled, every operation of the driver
      being one atomic function of the state; [time.Sleep], the ticker and the
      log have no effect on the state and are left out. *)

From Stdlib Require Import String Ascii ZArith List Bool Lia.
From Stdlib Require Import Floats Uint63.
Import ListNotations.
Open Scope Z_scope.

#[local] Set Warnings "-inexact-float".


(** ** Package tsl2591 *)

Module tsl2591.

(** *** constants.go *)

Definition TSL2591_VISIBLE : Z := 2.
Definition TSL2591_INFRARED : Z := 1.
Definition TSL2591_FULLSPECTRUM : Z := 0.

Definition TSL2591_ADDR : Z := 0x29.
Definition TSL2591_COMMAND_BIT : Z := 0xA0.

Definition TSL2591_ENABLE_POWEROFF : Z := 0x00.
Definition TSL2591_ENABLE_POWERON : Z := 0x01.
Definition TSL2591_ENABLE_AEN : Z := 0x02.
Definition TSL2591_ENABLE_AIEN : Z := 0x10.
Definition TSL2591_ENABLE_NPIEN : Z := 0x80.

Definition TSL2591_LUX_DF : float := 408.0%float.

Definition TSL2591_REGISTER_ENABLE : Z := 0x00.
Definition TSL2591_REGISTER_CONTROL : Z := 0x01.
Definition TSL2591_REGISTER_DEVICE_ID : Z := 0x12.
Definition TSL2591_REGISTER_CHAN0_LOW : Z := 0x14.
Definition TSL2591_REGISTER_CHAN1_LOW : Z := 0x16.

Definition TSL2591_INTEGRATIONTIME_100MS : Z := 0x00.
Definition TSL2591_INTEGRATIONTIME_200MS : Z := 0x01.
Definition TSL2591_INTEGRATIONTIME_300MS : Z := 0x02.
Definition TSL2591_INTEGRATIONTIME_400MS : Z := 0x03.
Definition TSL2591_INTEGRATIONTIME_500MS : Z := 0x04.
Definition TSL2591_INTEGRATIONTIME_600MS : Z := 0x05.

Definition TSL2591_GAIN_LOW : Z := 0x00.
Definition TSL2591_GAIN_MED : Z := 0x10.
Definition TSL2591_GAIN_HIGH : Z := 0x20.
Definition TSL2591_GAIN_MAX : Z := 0x30.

Definition IntegrationTimeToString (value : Z) : string :=
  if value =? TSL2591_INTEGRATIONTIME_100MS then "100ms"
  else if value =? TSL2591_INTEGRATIONTIME_200MS then "200ms"
  else if value =? TSL2591_INTEGRATIONTIME_300MS then "300ms"
  else if value =? TSL2591_INTEGRATIONTIME_400MS then "400ms"
  else if value =? TSL2591_INTEGRATIONTIME_500MS then "500ms"
  else if value =? TSL2591_INTEGRATIONTIME_600MS then "600ms"
  else "Unknown".

Definition GainToString (value : Z) : string :=
  if value =? TSL2591_GAIN_LOW then "Low gain (1x)"
  else if value =? TSL2591_GAIN_MED then "Medium gain (25x)"
  else if value =? TSL2591_GAIN_HIGH then "High gain (428x)"
  else if value =? TSL2591_GAIN_MAX then "Max gain (9876x)"
  else "Unknown".

(** *** Go values *)

(** The values of a [byte] and of a [uint16]. *)
Definition is_byte (b : Z) : Prop := 0 <= b < 256.
Definition is_uint16 (c : Z) : Prop := 0 <= c < 65536.

(** The conversion [float64(c)] of a [uint16]: exact. *)
Definition float64 (c : Z) : float := PrimFloat.of_uint63 (Uint63.of_Z c).

(** The errors of the package, one constructor per site:
    [fmt.Errorf("Overflow: Channel 0: %v, Channel 1: %v\n", ch0, ch1)],
    [errors.New("sensor must be enabled")], an error returned by a register
    access of the I2C device, [errors.New("All gain options are saturated")],
    and the three errors of [NewTSL2591]: "Failed to open", "Failed to read
    ref" and "Can't find a TSL2591 on I2C bus". *)
Inductive error : Type :=
| ErrOverflow (ch0 ch1 : Z)
| ErrNotEnabled
| ErrI2C
| ErrAllGainsSaturated
| ErrFailedToOpen
| ErrFailedToReadRef
| ErrNotFound.

(** *** The I2C device *)

(** What the hardware answers: [write_ok n] tells whether the n-th
    [WriteReg] of the run is acknowledged, [read_reply n] is the block the
    n-th [ReadReg] returns, or [None] when it fails; [open_ok] tells whether
    [i2c.Open] finds the bus. *)
Record I2C : Type := {
  open_ok : bool;
  write_ok : nat -> bool;
  read_reply : nat -> option (list Z)
}.

Inductive BusOp : Type :=
| OpWriteReg (reg : Z) (data : list Z)
| OpReadReg (reg : Z) (len : nat).

(** The handle [*i2c.Device]: how many writes and reads were issued, and the
    trace of all register accesses, oldest first. *)
Record Bus : Type := {
  nwrites : nat;
  nreads : nat;
  trace : list BusOp
}.

Definition WriteReg (hw : I2C) (d : Bus) (reg : Z) (data : list Z)
  : Bus * option error :=
  ({| nwrites := S (nwrites d); nreads := nreads d;
      trace := trace d ++ [OpWriteReg reg data] |},
   if write_ok hw (nwrites d) then None else Some ErrI2C).

(** [ReadReg(reg, buf)] fills a buffer of [len] bytes. *)
Definition ReadReg (hw : I2C) (d : Bus) (reg : Z) (len : nat)
  : Bus * (list Z) * option error :=
  let d' := {| nwrites := nwrites d; nreads := S (nreads d);
               trace := trace d ++ [OpReadReg reg len] |} in
  match read_reply hw (nreads d) with
  | Some bytes => (d', firstn len (bytes ++ repeat 0 len), None)
  | None => (d', repeat 0 len, Some ErrI2C)
  end.

(** *** tsl2591.go *)

Record TSL2591 : Type := {
  Enabled : bool;
  Timing : Z;
  Gain : Z;
  Device : Bus
}.

Definition set_Enabled (tsl : TSL2591) (b : bool) : TSL2591 :=
  {| Enabled := b; Timing := Timing tsl; Gain := Gain tsl; Device := Device tsl |}.
Definition set_Timing (tsl : TSL2591) (t : Z) : TSL2591 :=
  {| Enabled := Enabled tsl; Timing := t; Gain := Gain tsl; Device := Device tsl |}.
Definition set_Gain (tsl : TSL2591) (g : Z) : TSL2591 :=
  {| Enabled := Enabled tsl; Timing := Timing tsl; Gain := g; Device := Device tsl |}.
Definition set_Device (tsl : TSL2591) (d : Bus) : TSL2591 :=
  {| Enabled := Enabled tsl; Timing := Timing tsl; Gain := Gain tsl; Device := d |}.

(** [binary.LittleEndian.Uint16(b)]: the first two bytes of [b]. *)
Definition LittleEndian_Uint16 (b : list Z) : Z :=
  Z.lor (nth 0 b 0) (Z.shiftl (nth 1 b 0) 8).

(** The [switch tsl.Timing] of [CalculateLux]. *)
Definition int_time (timing : Z) : float :=
  if timing =? TSL2591_INTEGRATIONTIME_100MS then 100.0%float
  else if timing =? TSL2591_INTEGRATIONTIME_200MS then 200.0%float
  else if timing =? TSL2591_INTEGRATIONTIME_300MS then 300.0%float
  else if timing =? TSL2591_INTEGRATIONTIME_400MS then 400.0%float
  else if timing =? TSL2591_INTEGRATIONTIME_500MS then 500.0%float
  else if timing =? TSL2591_INTEGRATIONTIME_600MS then 600.0%float
  else 100.0%float.

(** The [switch tsl.Gain] of [CalculateLux]. *)
Definition adj_gain (gain : Z) : float :=
  if gain =? TSL2591_GAIN_LOW then 1.0%float
  else if gain =? TSL2591_GAIN_MED then 25.0%float
  else if gain =? TSL2591_GAIN_HIGH then 428.0%float
  else if gain =? TSL2591_GAIN_MAX then 9876.0%float
  else 1.0%float.

Definition CalculateLux (tsl : TSL2591) (ch0 ch1 : Z) : float * option error :=
  if (ch0 =? 0xFFFF) || (ch1 =? 0xFFFF) then
    (0%float, Some (ErrOverflow ch0 ch1))
  else
    let cpl := (int_time (Timing tsl) * adj_gain (Gain tsl) / TSL2591_LUX_DF)%float in
    let lux :=
      ((float64 ch0 - float64 ch1)
       * (1.0 - (float64 ch1 / float64 ch0)) / cpl)%float in
    (lux, None).

Section Driver.

Variable hw : I2C.

(** Read from the light sensor's channels. *)
Definition GetFullLuminosity (tsl : TSL2591) : TSL2591 * Z * Z * option error :=
  if negb (Enabled tsl) then (tsl, 0, 0, Some ErrNotEnabled)
  else
    let '(d, bytes, err) :=
      ReadReg hw (Device tsl)
        (Z.lor TSL2591_COMMAND_BIT TSL2591_REGISTER_CHAN0_LOW) 4 in
    match err with
    | Some e => (set_Device tsl d, 0, 0, Some e)
    | None =>
        let channel0 := LittleEndian_Uint16 bytes in
        let channel1 := LittleEndian_Uint16 (skipn 2 bytes) in
        (set_Device tsl d, channel0, channel1, None)
    end.

(** Enable the sensor. *)
Definition Enable (tsl : TSL2591) : TSL2591 * option error :=
  if Enabled tsl then (tsl, None)
  else
    let write :=
      [Z.lor (Z.lor (Z.lor TSL2591_ENABLE_POWERON TSL2591_ENABLE_AEN)
                TSL2591_ENABLE_AIEN) TSL2591_ENABLE_NPIEN] in
    let (d, err) :=
      WriteReg hw (Device tsl)
        (Z.lor TSL2591_COMMAND_BIT TSL2591_REGISTER_ENABLE) write in
    match err with
    | Some e => (set_Device tsl d, Some e)
    | None => (set_Enabled (set_Device tsl d) true, None)
    end.

(** Disable the sensor. *)
Definition Disable (tsl : TSL2591) : TSL2591 * option error :=
  if negb (Enabled tsl) then (tsl, None)
  else
    let write := [TSL2591_ENABLE_POWEROFF] in
    let (d, err) :=
      WriteReg hw (Device tsl)
        (Z.lor TSL2591_COMMAND_BIT TSL2591_REGISTER_ENABLE) write in
    match err with
    | Some e => (set_Device tsl d, Some e)
    | None => (set_Enabled (set_Device tsl d) false, None)
    end.

(** Set the gain for the sensor. *)
Definition SetGain (tsl : TSL2591) (gain : Z) : TSL2591 * option error :=
  if negb (Enabled tsl) then (tsl, Some ErrNotEnabled)
  else
    let write := [Z.lor (Timing tsl) gain] in
    let (d, err) :=
      WriteReg hw (Device tsl)
        (Z.lor TSL2591_COMMAND_BIT TSL2591_REGISTER_CONTROL) write in
    match err with
    | Some e => (set_Device tsl d, Some e)
    | None => (set_Gain (set_Device tsl d) gain, None)
    end.

(** Set the integration timing for the sensor. *)
Definition SetTiming (tsl : TSL2591) (timing : Z) : TSL2591 * option error :=
  if negb (Enabled tsl) then (tsl, Some ErrNotEnabled)
  else
    let write := [Z.lor timing (Gain tsl)] in
    let (d, err) :=
      WriteReg hw (Device tsl)
        (Z.lor TSL2591_COMMAND_BIT TSL2591_REGISTER_CONTROL) write in
    match err with
    | Some e => (set_Device tsl d, Some e)
    | None => (set_Timing (set_Device tsl d) timing, None)
    end.

Definition gainOptions : list Z :=
  [TSL2591_GAIN_LOW; TSL2591_GAIN_MED; TSL2591_GAIN_HIGH; TSL2591_GAIN_MAX].

Definition integrationOptions : list Z :=
  [TSL2591_INTEGRATIONTIME_600MS; TSL2591_INTEGRATIONTIME_500MS;
   TSL2591_INTEGRATIONTIME_400MS; TSL2591_INTEGRATIONTIME_300MS;
   TSL2591_INTEGRATIONTIME_200MS; TSL2591_INTEGRATIONTIME_100MS].

(** The inner loop of [SetOptimalGain], [for _, time := range
    integrationOptions]: the boolean tells that the loop reached
    [return nil]; each [continue] goes on with the rest of the list. The
    results of [SetTiming] are dropped, as in the source. *)
Fixpoint SetOptimalGain_times (times : list Z) (tsl : TSL2591)
  : TSL2591 * bool :=
  match times with
  | [] => (tsl, false)
  | time :: rest =>
      let (tsl1, _) := SetTiming tsl time in
      let '(tsl2, ch0, ch1, err) := GetFullLuminosity tsl1 in
      match err with
      | Some _ => SetOptimalGain_times rest tsl2
      | None =>
          if (ch0 =? 0xFFFF) || (ch1 =? 0xFFFF) then
            SetOptimalGain_times rest tsl2
          else
            match CalculateLux tsl2 ch0 ch1 with
            | (_, Some _) => SetOptimalGain_times rest tsl2
            | (lux, None) =>
                if (lux =? 0)%float then SetOptimalGain_times rest tsl2
                else (tsl2, true)
            end
      end
  end.

(** The outer loop, [for _, gain := range gainOptions]. *)
Fixpoint SetOptimalGain_gains (gains : list Z) (tsl : TSL2591)
  : TSL2591 * bool :=
  match gains with
  | [] => (tsl, false)
  | gain :: rest =>
      let (tsl1, _) := SetGain tsl gain in
      let (tsl2, found) := SetOptimalGain_times integrationOptions tsl1 in
      if found then (tsl2, true) else SetOptimalGain_gains rest tsl2
  end.

Definition SetOptimalGain (tsl : TSL2591) : TSL2591 * option error :=
  let (tsl1, found) := SetOptimalGain_gains gainOptions tsl in
  if found then (tsl1, None)
  else
    (* Use default options *)
    let (tsl2, _) := SetGain tsl1 TSL2591_GAIN_LOW in
    let (tsl3, _) := SetTiming tsl2 TSL2591_INTEGRATIONTIME_600MS in
    (tsl3, Some ErrAllGainsSaturated).

(** Connect to a TSL2591 via I2C protocol and set gain and timing: [None]
    is the [nil] handle. The results of [SetTiming], [SetGain] and [Disable]
    are dropped, as in the source. *)
Definition NewTSL2591 (gain timing : Z) : option TSL2591 * option error :=
  if negb (open_ok hw) then (None, Some ErrFailedToOpen)
  else
    let tsl := {| Enabled := true; Timing := 0; Gain := 0;
                  Device := {| nwrites := 0; nreads := 0; trace := [] |} |} in
    let '(d, buf, err) :=
      ReadReg hw (Device tsl)
        (Z.lor TSL2591_COMMAND_BIT TSL2591_REGISTER_DEVICE_ID) 1 in
    match err with
    | Some _ => (None, Some ErrFailedToReadRef)
    | None =>
        if negb (nth 0 buf 0 =? 0x50) then (None, Some ErrNotFound)
        else
          let tsl0 := set_Device tsl d in
          let (tsl1, _) := SetTiming tsl0 timing in
          let (tsl2, _) := SetGain tsl1 gain in
          let (tsl3, _) := Disable tsl2 in
          (Some tsl3, None)
    end.

End Driver.

(** Returns the normalized output for a given spectrum type. *)
Definition GetNormalizedOutput (spectrumType : Z) (ch0 ch1 : Z) : float :=
  if spectrumType =? TSL2591_VISIBLE then
    let visible := (float64 ch0 - float64 ch1)%float in
    let visible := if (visible <? 0)%float then 0%float else visible in
    (visible / 65535.0)%float
  else if spectrumType =? TSL2591_INFRARED then
    (float64 ch1 / 65535.0)%float
  else if spectrumType =? TSL2591_FULLSPECTRUM then
    (float64 ch0 / 65535.0)%float
  else 0%float.

End tsl2591.

(** ** Package strconv: the float formats of [fmt.Sprintf] *)

Module strconv.

(** The character of a decimal digit. *)
Definition digit (d : Z) : ascii := ascii_of_nat (48 + Z.to_nat d).

(** The last [p] decimal digits of [n], most significant first. *)
Fixpoint fixed_digits (p : nat) (n : Z) : list ascii :=
  match p with
  | O => []
  | S p' => fixed_digits p' (n / 10) ++ [digit (n mod 10)]
  end.

(** The decimal digits of [n >= 0], without leading zeros, ["0"] for zero. *)
Fixpoint all_digits (fuel : nat) (n : Z) (acc : list ascii) : list ascii :=
  let acc' := digit (n mod 10) :: acc in
  match fuel with
  | O => acc'
  | S fuel' => if n / 10 =? 0 then acc' else all_digits fuel' (n / 10) acc'
  end.

Definition itoa (n : Z) : list ascii :=
  all_digits (Z.to_nat (Z.log2 n)) n [].

(** [num / den] rounded to the nearest integer, ties to even. *)
Definition round_half_even (num den : Z) : Z :=
  let q := num / den in
  match 2 * (num mod den) ?= den with
  | Lt => q
  | Gt => q + 1
  | Eq => if Z.even q then q else q + 1
  end.

(** The magnitude [m * 2^e] of a finite non-zero float, as a fraction. *)
Definition fraction (m : positive) (e : Z) : Z * Z :=
  if 0 <=? e then (Z.pos m * 2 ^ e, 1) else (Z.pos m, 2 ^ (- e)).

(** Powers of ten are compared with [num / den] after both are multiplied by
    [10 ^ shift num den], which makes every exponent below non-negative. *)
Definition shift (den : Z) : Z := Z.log2 den + 1.

(** [10 ^ k <= num / den], for [k >= - shift den]. *)
Definition pow10_le (num den k : Z) : bool :=
  den * 10 ^ (k + shift den) <=? num * 10 ^ shift den.

(** The decimal exponent of [num / den]: the largest [k] with
    [10 ^ k <= num / den], searched upwards from [- shift den]. *)
Fixpoint exponent_from (fuel : nat) (num den k : Z) : Z :=
  match fuel with
  | O => k
  | S fuel' =>
      if pow10_le num den (k + 1) then exponent_from fuel' num den (k + 1)
      else k
  end.

Definition exponent10 (num den : Z) : Z :=
  exponent_from (Z.to_nat (Z.log2 num + shift den + 1)) num den (- shift den).

(** [num / den / 10 ^ (k - p)] rounded to an integer: the first [p + 1]
    significant digits when [k] is the decimal exponent. *)
Definition mantissa (p : nat) (num den k : Z) : Z :=
  let s := shift den + Z.of_nat p in
  round_half_even (num * 10 ^ s) (den * 10 ^ (k + shift den)).

Definition sign_chars (neg : bool) : list ascii :=
  if neg then ["-"%char] else [].

(** The exponent part of the 'e' format: a sign and at least two digits. *)
Definition exponent_chars (k : Z) : list ascii :=
  (if k <? 0 then "-"%char else "+"%char)
    :: (if Z.abs k <? 10 then ["0"%char] else []) ++ itoa (Z.abs k).

(** [%e] of a finite non-zero value with [p] digits after the point. *)
Definition fmtE (p : nat) (neg : bool) (num den : Z) : list ascii :=
  let k := exponent10 num den in
  let n := mantissa p num den k in
  let '(n, k) := if n =? 10 ^ Z.of_nat (S p) then (10 ^ Z.of_nat p, k + 1) else (n, k) in
  sign_chars neg
    ++ digit (n / 10 ^ Z.of_nat p)
    :: (match p with O => [] | _ => "."%char :: fixed_digits p n end)
    ++ "e"%char :: exponent_chars k.

(** [%f] of a finite non-zero value with [p] digits after the point. *)
Definition fmtF (p : nat) (neg : bool) (num den : Z) : list ascii :=
  let n := round_half_even (num * 10 ^ Z.of_nat p) den in
  sign_chars neg
    ++ itoa (n / 10 ^ Z.of_nat p)
    ++ (match p with O => [] | _ => "."%char :: fixed_digits p n end).

(** [strconv.FormatFloat(x, fmt, prec, 64)] for [fmt] one of 'e' and 'f',
    with the sign handling of [fmt.Sprintf]: the shortest decimal that is
    the exact value of [x] correctly rounded, ties to even, to [prec] digits
    after the point. *)
Definition FormatFloat_e (prec : nat) (x : float) : string :=
  match Prim2SF x with
  | S754_nan => "NaN"
  | S754_infinity false => "+Inf"
  | S754_infinity true => "-Inf"
  | S754_zero neg =>
      string_of_list_ascii
        (sign_chars neg ++ "0"%char
           :: (match prec with O => [] | _ => "."%char :: fixed_digits prec 0 end)
           ++ "e"%char :: exponent_chars 0)
  | S754_finite neg m e =>
      let (num, den) := fraction m e in
      string_of_list_ascii (fmtE prec neg num den)
  end.

Definition FormatFloat_f (prec : nat) (x : float) : string :=
  match Prim2SF x with
  | S754_nan => "NaN"
  | S754_infinity false => "+Inf"
  | S754_infinity true => "-Inf"
  | S754_zero neg =>
      string_of_list_ascii
        (sign_chars neg ++ "0"%char
           :: (match prec with O => [] | _ => "."%char :: fixed_digits prec 0 end))
  | S754_finite neg m e =>
      let (num, den) := fraction m e in
      string_of_list_ascii (fmtF prec neg num den)
  end.


(** *** Shapes of formatted numbers *)

Definition is_digit (c : ascii) : bool :=
  let n := nat_of_ascii c in ((48 <=? n)%nat && (n <=? 57)%nat)%bool.

Definition drop_minus (l : list ascii) : list ascii :=
  match l with
  | "-"%char :: r => r
  | _ => l
  end.

(** The longest prefix of digits, and the rest. *)
Fixpoint span_digits (l : list ascii) : list ascii * list ascii :=
  match l with
  | [] => ([], [])
  | c :: r =>
      if is_digit c then let (ds, rest) := span_digits r in (c :: ds, rest)
      else ([], l)
  end.

(** A decimal string with exactly [frac] fractional digits:
    an optional minus sign, one digit or more, a point, [frac] digits. *)
Definition is_fixed_point (frac : nat) (s : string) : bool :=
  let (int, rest) := span_digits (drop_minus (list_ascii_of_string s)) in
  match int, rest with
  | _ :: _, "."%char :: f => ((List.length f =? frac)%nat && forallb is_digit f)%bool
  | _, _ => false
  end.

(** A scientific-notation string with exactly [sig] significant digits:
    an optional minus sign, one digit, a point, [sig - 1] digits, the letter
    e, a sign and two exponent digits or more. *)
Definition is_scientific (sig : nat) (s : string) : bool :=
  match drop_minus (list_ascii_of_string s) with
  | d0 :: "."%char :: r =>
      let (f, rest) := span_digits r in
      (is_digit d0 && (S (List.length f) =? sig)%nat
       && match rest with
          | "e"%char :: sg :: ex =>
              ((sg =? "+")%char || (sg =? "-")%char)
              && (2 <=? List.length ex)%nat && forallb is_digit ex
          | _ => false
          end)%bool
  | _ => false
  end.

(** [strconv.Itoa(n)], which is also [fmt.Sprintf("%d", n)]. *)
Definition Itoa (n : Z) : string :=
  string_of_list_ascii (sign_chars (n <? 0) ++ itoa (Z.abs n)).

(** The number a string of decimal digits denotes. *)
Definition digit_value (c : ascii) : Z := Z.of_nat (nat_of_ascii c) - 48.

Fixpoint number (l : list ascii) : Z :=
  match l with
  | [] => 0
  | c :: r => digit_value c * 10 ^ Z.of_nat (List.length r) + number r
  end.

(** Neither NaN nor an infinity. *)
Definition is_finite (x : float) : bool :=
  match Prim2SF x with
  | S754_zero _ | S754_finite _ _ _ => true
  | S754_infinity _ | S754_nan => false
  end.

End strconv.

(** ** Package math *)

Module math.

Definition MaxFloat64 : float := 0x1.fffffffffffffp+1023%float.

(** [IsInf] reports whether [f] is an infinity, according to [sign]:
    [sign >= 0 && f > MaxFloat64 || sign <= 0 && f < -MaxFloat64]. *)
Definition IsInf (f : float) (sign : Z) : bool :=
  ((sign >=? 0) && (MaxFloat64 <? f)%float)
  || ((sign <=? 0) && (f <? - MaxFloat64)%float).

(** [IsNaN] reports whether [f] is a not-a-number value: [f != f]. *)
Definition IsNaN (f : float) : bool := negb (f =? f)%float.

End math.

(** ** Package sunlightmeter *)

(** The service is a set of goroutines over one [SLMeter]: the HTTP
    handlers [Start] and [Stop], one sampling goroutine per accepted
    [Start], and the recorder. A [Runtime] holds the meter, the sampling
    goroutines with their program points, and the contexts that are done;
    an [Event] is one atomic move of one of them, and a run of the service is
    a list of events. The scheduler and the clock are the source of the
    events: a spawned goroutine runs when [Run] names it, the eight-hour
    timeout of a context fires at [Deadline]. Log output is left out. *)

Module sunlightmeter.

Record LuxResults : Type := {
  Lux : float;
  Infrared : float;
  Visible : float;
  FullSpectrum : float;
  JobID : string
}.

(** *** Storage *)

(** A row of the table [sunlight], as the recorder inserts it (the id and
    the timestamp are the database's). *)
Record Row : Type := {
  job_id : string;
  lux : string;
  full_spectrum : string;
  visible : string;
  infrared : string
}.

(** The handle [*sql.DB]: the rows stored and the number of statements
    executed so far. *)
Record DB : Type := {
  rows : list Row;
  nexec : nat
}.

(** The world outside: the I2C device, whether the n-th statement sent to
    the database succeeds, and the n-th identifier [uuid.New] draws. *)
Record Env : Type := {
  i2c : tsl2591.I2C;
  exec_ok : nat -> bool;
  uuid : nat -> string
}.

(** [db.Exec("INSERT INTO sunlight (job_id, lux, full_spectrum, visible,
    infrared) VALUES (?, ?, ?, ?, ?)", ...)]: the boolean is [err != nil]. *)
Definition Exec_insert (env : Env) (db : DB) (row : Row) : DB * bool :=
  if exec_ok env (nexec db)
  then ({| rows := rows db ++ [row]; nexec := S (nexec db) |}, false)
  else ({| rows := rows db; nexec := S (nexec db) |}, true).

(** *** The recorder *)

(** The body of the loop of [MonitorAndRecordResults] for one [result]
    received from [LuxResultsChan]. *)
Definition record (env : Env) (db : DB) (result : LuxResults) : DB :=
  if math.IsInf (Lux result) 1 then
    (* "Lux is invalid, skipping record" *)
    db
  else
    fst (Exec_insert env db
           {| job_id := JobID result;
              lux := strconv.FormatFloat_f 5 (Lux result);
              full_spectrum := strconv.FormatFloat_e 5 (FullSpectrum result);
              visible := strconv.FormatFloat_e 5 (Visible result);
              infrared := strconv.FormatFloat_e 5 (Infrared result) |}).

(** Read from [LuxResultsChan], write the results to sqlite: the loop never
    ends, this is its effect on the results received so far. *)
Definition MonitorAndRecordResults (env : Env) (received : list LuxResults)
    (db : DB) : DB :=
  fold_left (record env) received db.

(** *** The meter and its goroutines *)

(** [TSL2591] is the embedded [*tsl2591.TSL2591], [None] for nil; [cancel]
    is the [context.CancelFunc] of the context it names, [None] for nil. *)
Record SLMeter : Type := {
  TSL2591 : option tsl2591.TSL2591;
  ResultsDB : DB;
  cancel : option nat
}.

(** The program points of the goroutine [Start] spawns: not yet scheduled;
    at the top of the [for] loop (this includes the waits on the ticker);
    blocked in the send of a result on the unbuffered [LuxResultsChan];
    returned. *)
Inductive Goroutine : Type :=
| Spawned
| Sampling (ctx : nat) (jobID : string)
| Sending (ctx : nat) (jobID : string) (result : LuxResults)
| Returned.

Record Runtime : Type := {
  m : SLMeter;
  goroutines : list Goroutine;
  done : list nat;
  nctx : nat;
  nuuid : nat
}.

Record Response : Type := {
  status : Z;
  message : string
}.

Definition StatusOK : Z := 200.
Definition StatusBadRequest : Z := 400.
Definition StatusInternalServerError : Z := 500.

Definition set_TSL2591 (rt : Runtime) (tsl : tsl2591.TSL2591) : Runtime :=
  {| m := {| TSL2591 := Some tsl; ResultsDB := ResultsDB (m rt);
             cancel := cancel (m rt) |};
     goroutines := goroutines rt; done := done rt;
     nctx := nctx rt; nuuid := nuuid rt |}.

Definition set_ResultsDB (rt : Runtime) (db : DB) : Runtime :=
  {| m := {| TSL2591 := TSL2591 (m rt); ResultsDB := db;
             cancel := cancel (m rt) |};
     goroutines := goroutines rt; done := done rt;
     nctx := nctx rt; nuuid := nuuid rt |}.

Definition set_goroutines (rt : Runtime) (gs : list Goroutine) : Runtime :=
  {| m := m rt; goroutines := gs; done := done rt;
     nctx := nctx rt; nuuid := nuuid rt |}.

(** [ctx.Done()] is closed: the context was cancelled or its deadline has
    passed. *)
Definition ctx_done (rt : Runtime) (ctx : nat) : bool :=
  existsb (Nat.eqb ctx) (done rt).

Definition close_ctx (rt : Runtime) (ctx : nat) : Runtime :=
  {| m := m rt; goroutines := goroutines rt; done := ctx :: done rt;
     nctx := nctx rt; nuuid := nuuid rt |}.

Fixpoint update {A : Type} (l : list A) (i : nat) (x : A) : list A :=
  match l, i with
  | [], _ => []
  | _ :: r, O => x :: r
  | y :: r, S i' => y :: update r i' x
  end.

Definition set_goroutine (rt : Runtime) (i : nat) (g : Goroutine) : Runtime :=
  set_goroutines rt (update (goroutines rt) i g).

(** *** Start *)

(** Start the sensor, and collect data in a loop: the handler up to the [go]
    statement. *)
Definition Start (rt : Runtime) : Runtime * Response :=
  match TSL2591 (m rt) with
  | None =>
      (rt, {| status := StatusBadRequest;
              message := "The sensor is not connected" |})
  | Some tsl =>
      if tsl2591.Enabled tsl then
        (rt, {| status := StatusBadRequest;
                message := "The sensor is already started" |})
      else
        (set_goroutines rt (goroutines rt ++ [Spawned]),
         {| status := StatusOK; message := "Sunlight Reading Started" |})
  end.

(** The goroutine of [Start] from its first statement to the [for]:
    [context.WithTimeout], [m.cancel = cancel], [m.Enable()] with its result
    dropped, [uuid.New()]. *)
Definition job_begin (env : Env) (rt : Runtime) (i : nat) : Runtime :=
  match TSL2591 (m rt) with
  | None => rt
  | Some tsl =>
      let ctx := nctx rt in
      let (tsl1, _) := tsl2591.Enable (i2c env) tsl in
      let jobID := uuid env (nuuid rt) in
      {| m := {| TSL2591 := Some tsl1; ResultsDB := ResultsDB (m rt);
                 cancel := Some ctx |};
         goroutines := update (goroutines rt) i (Sampling ctx jobID);
         done := done rt;
         nctx := S ctx;
         nuuid := S (nuuid rt) |}
  end.

(** The [LuxResults] of a failed read: only [JobID] is set. *)
Definition failed_read (jobID : string) : LuxResults :=
  {| Lux := 0%float; Infrared := 0%float; Visible := 0%float;
     FullSpectrum := 0%float; JobID := jobID |}.

(** One turn of the [for] loop, from the [select] on [ctx.Done()] to the
    send of a result, to the [continue] after a recalibration, or to the
    [return] with its deferred [m.Disable()]. *)
Definition job_turn (env : Env) (rt : Runtime) (i : nat) (ctx : nat)
    (jobID : string) : Runtime :=
  match TSL2591 (m rt) with
  | None => rt
  | Some tsl =>
      if ctx_done rt ctx then
        let (tsl1, _) := tsl2591.Disable (i2c env) tsl in
        set_goroutine (set_TSL2591 rt tsl1) i Returned
      else
        let '(tsl1, ch0, ch1, err) :=
          tsl2591.GetFullLuminosity (i2c env) tsl in
        match err with
        | Some _ =>
            set_goroutine (set_TSL2591 rt tsl1) i
              (Sending ctx jobID (failed_read jobID))
        | None =>
            match tsl2591.CalculateLux tsl1 ch0 ch1 with
            | (_, Some _) =>
                let (tsl2, _) := tsl2591.SetOptimalGain (i2c env) tsl1 in
                set_TSL2591 rt tsl2
            | (lux, None) =>
                set_goroutine (set_TSL2591 rt tsl1) i
                  (Sending ctx jobID
                     {| Lux := lux;
                        Visible := tsl2591.GetNormalizedOutput
                                     tsl2591.TSL2591_VISIBLE ch0 ch1;
                        Infrared := tsl2591.GetNormalizedOutput
                                      tsl2591.TSL2591_INFRARED ch0 ch1;
                        FullSpectrum := tsl2591.GetNormalizedOutput
                                          tsl2591.TSL2591_FULLSPECTRUM ch0 ch1;
                        JobID := jobID |})
            end
        end
  end.

(** The goroutine [i] runs up to its next program point; a goroutine
    blocked in a send does not move. *)
Definition run_goroutine (env : Env) (rt : Runtime) (i : nat) : Runtime :=
  match nth_error (goroutines rt) i with
  | Some Spawned => job_begin env rt i
  | Some (Sampling ctx jobID) => job_turn env rt i ctx jobID
  | Some (Sending _ _ _) | Some Returned | None => rt
  end.

(** The recorder receives the result the goroutine [i] is sending, and the
    sender goes on to wait for the ticker. *)
Definition receive (env : Env) (rt : Runtime) (i : nat) : Runtime :=
  match nth_error (goroutines rt) i with
  | Some (Sending ctx jobID result) =>
      set_goroutine (set_ResultsDB rt (record env (ResultsDB (m rt)) result))
        i (Sampling ctx jobID)
  | _ => rt
  end.

(** *** Stop *)

(** Stop the sensor, and cancel the job context. The call of a nil
    [m.cancel] panics: the deferred [m.Disable()] runs and the recovery
    middleware of the router answers with status 500. *)
Definition Stop (env : Env) (rt : Runtime) : Runtime * Response :=
  match TSL2591 (m rt) with
  | None =>
      (rt, {| status := StatusBadRequest;
              message := "The sensor is not connected" |})
  | Some tsl =>
      if negb (tsl2591.Enabled tsl) then
        (rt, {| status := StatusBadRequest;
                message := "The sensor is already stopped" |})
      else
        match cancel (m rt) with
        | None =>
            let (tsl1, _) := tsl2591.Disable (i2c env) tsl in
            (set_TSL2591 rt tsl1,
             {| status := StatusInternalServerError;
                message := "runtime error: invalid memory address or nil pointer dereference" |})
        | Some ctx =>
            let rt1 := close_ctx rt ctx in
            let (tsl1, _) := tsl2591.Disable (i2c env) tsl in
            (set_TSL2591 rt1 tsl1,
             {| status := StatusOK; message := "Sunlight Reading Stopped" |})
        end
  end.

(** *** Signal strength *)

(** What the shell command of [SignalStrength] and the parse of its output
    give: the command fails with a message; or it prints something that
    [strconv.Atoi] rejects after [strings.TrimSpace] (no link, no number);
    or it prints an integer. *)
Inductive Probe : Type :=
| CommandFailed (err : string)
| NotANumber
| Signal (signalInt : Z).

(** Convert the signal to a strength value and scale it to a percentage:
    the clamped signal in dBm and the quality. The division is the one of
    Go, truncated. *)
Definition signal_quality (signalInt : Z) : Z * Z :=
  let signalInt :=
    if signalInt <? -110 then -110
    else if signalInt >? -40 then -40
    else signalInt in
  let strength := Z.quot ((signalInt + 110) * 100) 70 in
  let strength :=
    if strength <? 0 then 0
    else if strength >? 100 then 100
    else strength in
  (signalInt, strength).

(** Check the signal strength of the wifi connection. *)
Definition SignalStrength (probe : Probe) : Response :=
  match probe with
  | CommandFailed err =>
      {| status := StatusInternalServerError; message := err |}
  | NotANumber =>
      {| status := StatusBadRequest;
         message := "Device is not connected to a network" |}
  | Signal signalInt =>
      let (signalInt, strength) := signal_quality signalInt in
      {| status := StatusOK;
         message := "Signal Strength: " ++ strconv.Itoa signalInt
                    ++ " dBm" ++ String (ascii_of_nat 10) "Quality: "
                    ++ strconv.Itoa strength ++ "%" |}
  end.

(** *** Runs *)

Inductive Event : Type :=
| GetStart
| GetStop
| Run (i : nat)
| Receive (i : nat)
| Deadline (ctx : nat).

Definition step (env : Env) (rt : Runtime) (ev : Event)
  : Runtime * option Response :=
  match ev with
  | GetStart => let (rt', r) := Start rt in (rt', Some r)
  | GetStop => let (rt', r) := Stop env rt in (rt', Some r)
  | Run i => (run_goroutine env rt i, None)
  | Receive i => (receive env rt i, None)
  | Deadline ctx => (close_ctx rt ctx, None)
  end.

(** The runtime after the events, and the responses served, oldest first. *)
Fixpoint run (env : Env) (rt : Runtime) (evs : list Event)
  : Runtime * list Response :=
  match evs with
  | [] => (rt, [])
  | ev :: rest =>
      let (rt1, r) := step env rt ev in
      let (rt2, rs) := run env rt1 rest in
      (rt2, match r with Some x => x :: rs | None => rs end)
  end.

(** The main function, after the sensor and the database are connected: the
    meter it hands to the router. A failed [NewTSL2591] leaves the sensor
    nil. *)
Definition main (env : Env) : Runtime :=
  {| m := {| TSL2591 := fst (tsl2591.NewTSL2591 (i2c env)
                               tsl2591.TSL2591_GAIN_LOW
                               tsl2591.TSL2591_INTEGRATIONTIME_300MS);
             ResultsDB := {| rows := []; nexec := 0 |};
             cancel := None |};
     goroutines := [];
     done := [];
     nctx := 0;
     nuuid := 0 |}.

(** The sampling jobs that are running: the goroutines inside the loop. *)
Definition is_running (g : Goroutine) : bool :=
  match g with
  | Sampling _ _ | Sending _ _ _ => true
  | Spawned | Returned => false
  end.

Definition running (rt : Runtime) : list Goroutine :=
  filter is_running (goroutines rt).

Definition job_of (g : Goroutine) : option string :=
  match g with
  | Sampling _ jobID | Sending _ jobID _ => Some jobID
  | Spawned | Returned => None
  end.

End sunlightmeter.

(** ** Package tools: the connection to the database *)

Module tools.

(** What the database driver answers at the n-th attempt to connect:
    [sql.Open] fails, [db.Ping] fails, or both succeed. *)
Inductive Attempt : Type :=
| OpenFails
| PingFails
| Connects.

(** An error of the attempt [n], and an error of the migration [file]. *)
Inductive error : Type :=
| ErrConnect (attempt : nat)
| ErrReadDir
| ErrReadFile (file : string)
| ErrExec (file : string).

(** A [time.Duration] is a count of nanoseconds in an [int64]: the value of
    a product, wrapped. *)
Definition int64 (x : Z) : Z := (x + 2 ^ 63) mod 2 ^ 64 - 2 ^ 63.

Definition Second : Z := 1000000000.

(** The nanoseconds [time.Sleep(d)] takes: it returns at once when [d] is
    negative or zero. *)
Definition Sleep (d : Z) : Z := Z.max 0 d.

(** The body of the [for] loop of [connectWithBackoff], for the attempts
    [i], [i + 1], ... of which [remaining] are left: the handle is the number
    of the attempt that connected, [err] is the error of the last failed
    attempt, [slept] the nanoseconds spent in [time.Sleep] so far. *)
Fixpoint connect_loop (driver : nat -> Attempt) (remaining : nat) (i : nat)
    (err : option error) (slept : Z) : option nat * option error * Z :=
  match remaining with
  | O => (None, err, slept)
  | S remaining' =>
      match driver i with
      | Connects => (Some i, None, slept)
      | OpenFails | PingFails =>
          connect_loop driver remaining' (S i) (Some (ErrConnect i))
            (slept + Sleep (int64 (int64 (Z.of_nat i + 1) * (3 * Second))))
      end
  end.

Definition connectWithBackoff (driver : nat -> Attempt) (maxRetries : Z)
  : option nat * option error * Z :=
  connect_loop driver (Z.to_nat maxRetries) 0 None 0.

(** The embedded directory [migration]: its entries in the order of
    [fs.ReadDir], or [None] when it cannot be read; each entry is a name and
    the content of the file, [None] when it cannot be read. *)
Definition Migrations : Type := option (list (string * option string)).

(** [RunMigrations]: [exec_ok n] tells whether the database executes the
    n-th script sent to it; the scripts executed are returned, oldest first,
    with the error. *)
Fixpoint run_entries (exec_ok : nat -> bool)
    (entries : list (string * option string)) (executed : list string)
  : list string * option error :=
  match entries with
  | [] => (executed, None)
  | (name, None) :: _ => (executed, Some (ErrReadFile name))
  | (name, Some fileData) :: rest =>
      if exec_ok (List.length executed)
      then run_entries exec_ok rest (executed ++ [fileData])
      else (executed, Some (ErrExec name))
  end.

Definition RunMigrations (files : Migrations) (exec_ok : nat -> bool)
  : list string * option error :=
  match files with
  | None => ([], Some ErrReadDir)
  | Some entries => run_entries exec_ok entries []
  end.

(** [ConnectSqlite]: the handle, the scripts executed on it, the error and
    the nanoseconds slept. *)
Definition ConnectSqlite (driver : nat -> Attempt) (files : Migrations)
    (exec_ok : nat -> bool) : option nat * list string * option error * Z :=
  let '(db, err, slept) := connectWithBackoff driver 3 in
  match err with
  | Some e => (None, [], Some e, slept)
  | None =>
      let (executed, err) := RunMigrations files exec_ok in
      match err with
      | Some e => (None, executed, Some e, slept)
      | None => (db, executed, None, slept)
      end
  end.

End tools.

(** ** The lux formula as the specification words it *)

Module LuxSpec.
Import tsl2591.

(** The fixed lookup tables: integration time in milliseconds by timing
    setting, gain multiplier by gain setting. *)
Definition intTimeMs_table : list (Z * float) :=
  [(TSL2591_INTEGRATIONTIME_100MS, 100%float);
   (TSL2591_INTEGRATIONTIME_200MS, 200%float);
   (TSL2591_INTEGRATIONTIME_300MS, 300%float);
   (TSL2591_INTEGRATIONTIME_400MS, 400%float);
   (TSL2591_INTEGRATIONTIME_500MS, 500%float);
   (TSL2591_INTEGRATIONTIME_600MS, 600%float)].

Definition gainMultiplier_table : list (Z * float) :=
  [(TSL2591_GAIN_LOW, 1%float);
   (TSL2591_GAIN_MED, 25%float);
   (TSL2591_GAIN_HIGH, 428%float);
   (TSL2591_GAIN_MAX, 9876%float)].

Definition lookup (table : list (Z * float)) (key : Z) : option float :=
  option_map snd (find (fun kv => fst kv =? key) table).

(** [countsPerLux = (intTimeMs * gainMultiplier) / 408.0]. *)
Definition countsPerLux (intTimeMs gainMultiplier : float) : float :=
  ((intTimeMs * gainMultiplier) / 408.0)%float.

(** [lux = (ch0 - ch1) * (1 - ch1/ch0) / countsPerLux]. *)
Definition lux (intTimeMs gainMultiplier : float) (ch0 ch1 : Z) : float :=
  ((float64 ch0 - float64 ch1) * (1 - float64 ch1 / float64 ch0)
   / countsPerLux intTimeMs gainMultiplier)%float.

End LuxSpec.

(** ** The calibration search as the specification words it *)

Module CalibrationSpec.
Import tsl2591.

(** Every (gain, integration time) combination, gain ascending over LOW, MED,
    HIGH, MAX and, for each gain, integration time descending from 600 ms to
    100 ms. *)
Definition combinations : list (Z * Z) :=
  flat_map (fun gain => map (fun time => (gain, time)) integrationOptions)
    gainOptions.

(** The channel counts the [k]-th block read of the run delivers, [None] on a
    read error. *)
Definition reading (hw : I2C) (k : nat) : option (Z * Z) :=
  match read_reply hw k with
  | None => None
  | Some bytes =>
      let block := firstn 4 (bytes ++ repeat 0 4) in
      Some (LittleEndian_Uint16 block, LittleEndian_Uint16 (skipn 2 block))
  end.

(** A combination is skipped on a read error, on a saturated channel and on
    a lux of zero; otherwise it is usable. *)
Definition usable (hw : I2C) (k : nat) (combination : Z * Z) : bool :=
  let (gain, time) := combination in
  match reading hw k with
  | None => false
  | Some (ch0, ch1) =>
      negb ((ch0 =? 0xFFFF) || (ch1 =? 0xFFFF))
      && negb (LuxSpec.lux (int_time time) (adj_gain gain) ch0 ch1 =? 0)%float
  end.

(** The first usable combination, when the [i]-th combination tried is
    judged on the read number [k + i]. *)
Fixpoint first_usable (hw : I2C) (k : nat) (combos : list (Z * Z))
  : option (Z * Z) :=
  match combos with
  | [] => None
  | c :: rest => if usable hw k c then Some c else first_usable hw (S k) rest
  end.

(** The last register write of a trace. *)
Fixpoint last_write (tr : list BusOp) : option (Z * list Z) :=
  match tr with
  | [] => None
  | op :: rest =>
      match last_write rest, op with
      | Some w, _ => Some w
      | None, OpWriteReg reg data => Some (reg, data)
      | None, OpReadReg _ _ => None
      end
  end.

(** What the specification says of a run of the calibration from [tsl]: the
    first usable combination is left active (in the handle and in the control
    register) and nil is returned; with no usable combination the handle and
    the control register end on low gain and 600 ms, after one read per
    combination, and the saturation error is returned. *)
Definition calibrates (hw : I2C) (tsl : TSL2591) : Prop :=
  let tsl' := fst (SetOptimalGain hw tsl) in
  match first_usable hw (nreads (Device tsl)) combinations with
  | Some (gain, time) =>
      snd (SetOptimalGain hw tsl) = None
      /\ Gain tsl' = gain /\ Timing tsl' = time
      /\ last_write (trace (Device tsl'))
         = Some (Z.lor TSL2591_COMMAND_BIT TSL2591_REGISTER_CONTROL,
                 [Z.lor time gain])
  | None =>
      snd (SetOptimalGain hw tsl) = Some ErrAllGainsSaturated
      /\ Gain tsl' = TSL2591_GAIN_LOW
      /\ Timing tsl' = TSL2591_INTEGRATIONTIME_600MS
      /\ last_write (trace (Device tsl'))
         = Some (Z.lor TSL2591_COMMAND_BIT TSL2591_REGISTER_CONTROL,
                 [Z.lor TSL2591_INTEGRATIONTIME_600MS TSL2591_GAIN_LOW])
      /\ nreads (Device tsl')
         = (nreads (Device tsl) + length combinations)%nat
  end.

End CalibrationSpec.

(** ** The register protocol as the specification words it *)

Module RegisterSpec.
Import tsl2591.

(** The address every access to the control register uses, and the one of
    the enable register. *)
Definition control_register : Z :=
  Z.lor TSL2591_COMMAND_BIT TSL2591_REGISTER_CONTROL.

Definition enable_register : Z :=
  Z.lor TSL2591_COMMAND_BIT TSL2591_REGISTER_ENABLE.

(** The byte [Enable] writes. *)
Definition enable_byte : Z :=
  Z.lor (Z.lor (Z.lor TSL2591_ENABLE_POWERON TSL2591_ENABLE_AEN)
           TSL2591_ENABLE_AIEN) TSL2591_ENABLE_NPIEN.

(** The address of the block read of the two channels. *)
Definition channel_register : Z :=
  Z.lor TSL2591_COMMAND_BIT TSL2591_REGISTER_CHAN0_LOW.

(** The four bytes of the channel registers when the counts are [ch0] and
    [ch1]: low byte first. *)
Definition channel_block (ch0 ch1 : Z) : list Z :=
  [ch0 mod 256; ch0 / 256; ch1 mod 256; ch1 / 256].

(** The bus after one more read of [len] bytes at [reg], and after one more
    write. *)
Definition after_read (d : Bus) (reg : Z) (len : nat) : Bus :=
  {| nwrites := nwrites d; nreads := S (nreads d);
     trace := trace d ++ [OpReadReg reg len] |}.

Definition after_write (d : Bus) (reg : Z) (data : list Z) : Bus :=
  {| nwrites := S (nwrites d); nreads := nreads d;
     trace := trace d ++ [OpWriteReg reg data] |}.

(** The address of the read of the device id, and the id of a TSL2591. *)
Definition device_id_register : Z :=
  Z.lor TSL2591_COMMAND_BIT TSL2591_REGISTER_DEVICE_ID.

Definition device_id : Z := 0x50.

(** The sensor answers the probe of [NewTSL2591]: the bus opens and the
    first read delivers the id of a TSL2591. *)
Definition answers_probe (hw : I2C) : Prop :=
  open_ok hw = true
  /\ exists bytes, read_reply hw 0 = Some bytes /\ nth 0 bytes 0 = device_id.

End RegisterSpec.

(** ** The traffic on the bus *)

Module BusSpec.
Import tsl2591.

(** How many of the accesses [ops] are writes, and how many are reads. *)
Fixpoint writes (ops : list BusOp) : nat :=
  match ops with
  | [] => 0
  | OpWriteReg _ _ :: rest => S (writes rest)
  | OpReadReg _ _ :: rest => writes rest
  end.

Fixpoint reads (ops : list BusOp) : nat :=
  match ops with
  | [] => 0
  | OpWriteReg _ _ :: rest => reads rest
  | OpReadReg _ _ :: rest => S (reads rest)
  end.

(** An access a calibration may make: one byte written to the control
    register, or the block of four bytes read from the channel registers. *)
Definition calibration_op (op : BusOp) : bool :=
  match op with
  | OpWriteReg reg data =>
      (reg =? RegisterSpec.control_register) && (List.length data =? 1)%nat
  | OpReadReg reg len =>
      (reg =? RegisterSpec.channel_register) && (len =? 4)%nat
  end.

(** From [tsl] to [tsl'] the accesses [ops] were issued, all of them
    accesses of a calibration, and the sensor was neither enabled nor
    disabled. *)
Definition issued (tsl tsl' : TSL2591) (ops : list BusOp) : Prop :=
  Enabled tsl' = Enabled tsl
  /\ trace (Device tsl') = trace (Device tsl) ++ ops
  /\ nwrites (Device tsl') = (nwrites (Device tsl) + writes ops)%nat
  /\ nreads (Device tsl') = (nreads (Device tsl) + reads ops)%nat
  /\ forallb calibration_op ops = true.

End BusSpec.

(** ** The recorder and the job lifecycle as the specification words them *)

Module ServiceSpec.
Import sunlightmeter.

(** A sample is accepted when the recorder's guard lets it through. *)
Definition accepted (result : LuxResults) : bool :=
  negb (math.IsInf (Lux result) 1).

(** A sample is persisted as one row: one statement is executed, one row is
    appended, and the row carries the job id, the lux as a decimal string
    with five fractional digits, and the three normalized outputs as
    scientific strings with [sig] significant digits. *)
Definition persisted_as_one_row (sig : nat) (env : Env) (db : DB)
    (result : LuxResults) : Prop :=
  let db' := record env db result in
  exists row : Row,
    rows db' = rows db ++ [row]
    /\ nexec db' = S (nexec db)
    /\ job_id row = JobID result
    /\ lux row = strconv.FormatFloat_f 5 (Lux result)
    /\ full_spectrum row = strconv.FormatFloat_e 5 (FullSpectrum result)
    /\ visible row = strconv.FormatFloat_e 5 (Visible result)
    /\ infrared row = strconv.FormatFloat_e 5 (Infrared result)
    /\ strconv.is_fixed_point 5 (lux row) = true
    /\ strconv.is_scientific sig (full_spectrum row) = true
    /\ strconv.is_scientific sig (visible row) = true
    /\ strconv.is_scientific sig (infrared row) = true.

(** The errors of the lifecycle, as the handlers answer them. *)
Definition DeviceAbsent : Response :=
  {| status := StatusBadRequest; message := "The sensor is not connected" |}.
Definition AlreadyRunning : Response :=
  {| status := StatusBadRequest; message := "The sensor is already started" |}.
Definition NotRunning : Response :=
  {| status := StatusBadRequest; message := "The sensor is already stopped" |}.
Definition Started : Response :=
  {| status := StatusOK; message := "Sunlight Reading Started" |}.
Definition Stopped : Response :=
  {| status := StatusOK; message := "Sunlight Reading Stopped" |}.

(** [Stop] with no job running: NotRunning, and nothing changes. *)
Definition stop_rejected_when_idle (env : Env) (rt : Runtime) : Prop :=
  running rt = [] -> Stop env rt = (rt, NotRunning).

End ServiceSpec.

(** ** Exhaustive checks over machine integers *)

Module Enumeration.

(** [P] holds of every number whose binary writing is that of [base]
    followed by [k] more bits. *)
Fixpoint forall_bits (k : nat) (base : Z) (P : Z -> bool) : bool :=
  match k with
  | O => P base
  | S k' => forall_bits k' (2 * base) P && forall_bits k' (2 * base + 1) P
  end.

(** [P] holds of every [uint16]. *)
Definition forall_uint16 (P : Z -> bool) : bool := forall_bits 16 0 P.

(** A float that is not below zero: NaN, a zero, or positive. *)
Definition not_negative (f : spec_float) : Prop :=
  match f with
  | S754_finite true _ _ | S754_infinity true => False
  | _ => True
  end.

End Enumeration.

(** ** What runs of the service are measured against *)

Module RunSpec.
Import sunlightmeter.

(** The row the recorder makes of a result. *)
Definition row_of (result : LuxResults) : Row :=
  {| job_id := JobID result;
     lux := strconv.FormatFloat_f 5 (Lux result);
     full_spectrum := strconv.FormatFloat_e 5 (FullSpectrum result);
     visible := strconv.FormatFloat_e 5 (Visible result);
     infrared := strconv.FormatFloat_e 5 (Infrared result) |}.

(** The elements of [l] whose statement the database executes, when the
    first of them is the statement number [n]. *)
Fixpoint executed {A : Type} (ok : nat -> bool) (n : nat) (l : list A)
  : list A :=
  match l with
  | [] => []
  | x :: r => if ok n then x :: executed ok (S n) r else executed ok (S n) r
  end.

(** The context and the job id of a goroutine that is inside its loop. *)
Definition context_of (g : Goroutine) : option nat :=
  match g with
  | Sampling ctx _ | Sending ctx _ _ => Some ctx
  | Spawned | Returned => None
  end.

(** A goroutine inside its loop holds a context that was created, carries
    the id drawn with it, and sends results under that id only. *)
Definition well_tagged (env : Env) (rt : Runtime) (g : Goroutine) : Prop :=
  match g with
  | Spawned | Returned => True
  | Sampling ctx jobID => (ctx < nctx rt)%nat /\ jobID = uuid env ctx
  | Sending ctx jobID result =>
      (ctx < nctx rt)%nat /\ jobID = uuid env ctx /\ JobID result = jobID
  end.

(** What every run keeps: as many ids drawn as contexts created; well-tagged
    goroutines, no two of which share a context; rows that carry the id of
    a job that was begun and never the lux "+Inf"; a cancel function that
    names a context that was created. *)
Definition consistent (env : Env) (rt : Runtime) : Prop :=
  nuuid rt = nctx rt
  /\ (forall i g, nth_error (goroutines rt) i = Some g -> well_tagged env rt g)
  /\ (forall i i' g g' ctx,
         nth_error (goroutines rt) i = Some g ->
         nth_error (goroutines rt) i' = Some g' ->
         context_of g = Some ctx -> context_of g' = Some ctx -> i = i')
  /\ (forall row, In row (rows (ResultsDB (m rt))) ->
                  (exists ctx, (ctx < nctx rt)%nat /\ job_id row = uuid env ctx)
                  /\ lux row <> "+Inf"%string)
  /\ (forall ctx, cancel (m rt) = Some ctx -> (ctx < nctx rt)%nat).

(** The answer of an accepted [Start]. *)
Definition is_started (r : Response) : bool :=
  (message r =? "Sunlight Reading Started")%string.

End RunSpec.

(** ** The connection to the database as a user sees it *)

Module ConnectSpec.
Import tools.

(** The attempt did not give a connection. *)
Definition failed (a : Attempt) : Prop := a <> Connects.

(** The seconds slept after [k] failed attempts: 3 + 6 + ... + 3k. *)
Definition backoff (k : Z) : Z := 3 * k * (k + 1) / 2.

(** The number of attempts up to which no pause overflows a
    [time.Duration]. *)
Definition max_attempts : Z := (2 ^ 63 - 1) / (3 * Second).

(** The scripts of the entries [entries], all of them readable. *)
Definition scripts_of (entries : list (string * option string))
    (scripts : list string) : Prop :=
  map snd entries = map Some scripts.

(** The error [err] is the one the entry at the head of [rest] gives when
    [executed] scripts ran before it: none when nothing is left, the one of
    a file that cannot be read, or the one of a script the database
    refuses. *)
Definition stopped_at (exec_ok : nat -> bool) (executed : nat)
    (rest : list (string * option string)) (err : option error) : Prop :=
  match rest with
  | [] => err = None
  | (name, None) :: _ => err = Some (ErrReadFile name)
  | (name, Some _) :: _ =>
      exec_ok executed = false /\ err = Some (ErrExec name)
  end.

End ConnectSpec.

(** ** Devices and sensors used as examples *)

Module Fixtures.
Import tsl2591.

(** A healthy sensor: every write is acknowledged and every read of the
    channel block returns [ch0 = 10000], [ch1 = 2000]. *)
Definition healthy_hw : I2C :=
  {| open_ok := true;
     write_ok := fun _ => true;
     read_reply := fun n => match n with
                            | O => Some [0x50]
                            | _ => Some [0x10; 0x27; 0xD0; 0x07]
                            end |}.

(** A sensor whose bus acknowledges no write. *)
Definition deaf_hw : I2C :=
  {| open_ok := true;
     write_ok := fun _ => false;
     read_reply := fun _ => Some [0xFF; 0xFF; 0xFF; 0xFF] |}.

Definition fresh_bus : Bus := {| nwrites := 0; nreads := 0; trace := [] |}.

Definition enabled_tsl : TSL2591 :=
  {| Enabled := true; Timing := TSL2591_INTEGRATIONTIME_300MS;
     Gain := TSL2591_GAIN_LOW; Device := fresh_bus |}.

Definition disabled_tsl : TSL2591 :=
  {| Enabled := false; Timing := TSL2591_INTEGRATIONTIME_300MS;
     Gain := TSL2591_GAIN_LOW; Device := fresh_bus |}.

(** The device of the specification's example: low gain, 300 ms. *)
Definition example_tsl : TSL2591 :=
  {| Enabled := true;
     Timing := TSL2591_INTEGRATIONTIME_300MS;
     Gain := TSL2591_GAIN_LOW;
     Device := {| nwrites := 0; nreads := 0; trace := [] |} |}.

(** A device whose stored settings are no defined constant. *)
Definition odd_tsl : TSL2591 :=
  {| Enabled := true; Timing := 0x07; Gain := 0xC0;
     Device := {| nwrites := 0; nreads := 0; trace := [] |} |}.

(** A sensor that is saturated whatever the setting and whose bus drops the
    thirtieth write: the twenty-eight writes of the search and the first
    write of the restore pass, the last one does not. *)
Definition restore_nack_hw : I2C :=
  {| open_ok := true;
     write_ok := fun n => (n <? 29)%nat;
     read_reply := fun _ => Some [0xFF; 0xFF; 0xFF; 0xFF] |}.

(** A sensor that is saturated for the first seven reads and then delivers
    [ch0 = 10000], [ch1 = 2000]. *)
Definition recovering_hw : I2C :=
  {| open_ok := true;
     write_ok := fun _ => true;
     read_reply := fun n => if (n <? 7)%nat
                                    then Some [0xFF; 0xFF; 0xFF; 0xFF]
                                    else Some [0x10; 0x27; 0xD0; 0x07] |}.

(** A sensor in the dark: both channels read zero. *)
Definition dark_hw : I2C :=
  {| open_ok := true;
     write_ok := fun _ => true;
     read_reply := fun n => match n with
                            | O => Some [0x50]
                            | _ => Some [0x00; 0x00; 0x00; 0x00]
                            end |}.

(** A healthy sensor on a bus that drops one write, the fourth: after the
    three writes of [NewTSL2591], the one of the first [Enable]. *)
Definition nack_enable_hw : I2C :=
  {| open_ok := true;
     write_ok := fun n => negb (n =? 3)%nat;
     read_reply := read_reply healthy_hw |}.

(** A healthy sensor on a bus that drops the third write, the one of the
    [Disable] that ends [NewTSL2591]. *)
Definition nack_disable_hw : I2C :=
  {| open_ok := true;
     write_ok := fun n => negb (n =? 2)%nat;
     read_reply := read_reply healthy_hw |}.

(** No sensor on the bus. *)
Definition absent_hw : I2C :=
  {| open_ok := false;
     write_ok := fun _ => false;
     read_reply := fun _ => None |}.

(** The identifiers [uuid.New] draws: distinct from draw to draw. *)
Definition job_name (n : nat) : string :=
  "job-" ++ string_of_list_ascii (strconv.itoa (Z.of_nat n)).

Definition env_of (hw : I2C) : sunlightmeter.Env :=
  {| sunlightmeter.i2c := hw;
     sunlightmeter.exec_ok := fun _ => true;
     sunlightmeter.uuid := job_name |}.

(** The same service on a database that refuses every statement. *)
Definition env_db_down (hw : I2C) : sunlightmeter.Env :=
  {| sunlightmeter.i2c := hw;
     sunlightmeter.exec_ok := fun _ => false;
     sunlightmeter.uuid := job_name |}.

Definition empty_db : sunlightmeter.DB :=
  {| sunlightmeter.rows := []; sunlightmeter.nexec := 0 |}.

(** The handle [NewTSL2591] returns on a healthy sensor: disabled, low
    gain, 300 ms, after one read of the device id and three writes. *)
Definition booted_tsl : TSL2591 :=
  {| Enabled := false; Timing := TSL2591_INTEGRATIONTIME_300MS;
     Gain := TSL2591_GAIN_LOW;
     Device := {| nwrites := 3; nreads := 1;
                  trace := [OpReadReg 0xB2 1; OpWriteReg 0xA1 [0x02];
                            OpWriteReg 0xA1 [0x02]; OpWriteReg 0xA0 [0x00]] |} |}.

(** The same handle once a job has enabled the sensor. *)
Definition sampling_tsl : TSL2591 :=
  {| Enabled := true; Timing := TSL2591_INTEGRATIONTIME_300MS;
     Gain := TSL2591_GAIN_LOW;
     Device := {| nwrites := 4; nreads := 1;
                  trace := [OpReadReg 0xB2 1; OpWriteReg 0xA1 [0x02];
                            OpWriteReg 0xA1 [0x02]; OpWriteReg 0xA0 [0x00];
                            OpWriteReg 0xA0 [0x93]] |} |}.

(** The service with one job sampling on a healthy sensor. *)
Definition sampling_rt : sunlightmeter.Runtime :=
  fst (sunlightmeter.run (env_of healthy_hw)
         (sunlightmeter.main (env_of healthy_hw))
         [sunlightmeter.GetStart; sunlightmeter.Run 0]).

(** The reading of the specification's example, as the sampling loop sends
    it. *)
Definition example_result : sunlightmeter.LuxResults :=
  {| sunlightmeter.Lux := fst (CalculateLux example_tsl 10000 2000);
     sunlightmeter.Infrared := GetNormalizedOutput TSL2591_INFRARED 10000 2000;
     sunlightmeter.Visible := GetNormalizedOutput TSL2591_VISIBLE 10000 2000;
     sunlightmeter.FullSpectrum := GetNormalizedOutput TSL2591_FULLSPECTRUM 10000 2000;
     sunlightmeter.JobID := job_name 0 |}.

(** The reading of a sensor in the dark: [ch0 = ch1 = 0]. *)
Definition dark_result : sunlightmeter.LuxResults :=
  {| sunlightmeter.Lux := fst (CalculateLux example_tsl 0 0);
     sunlightmeter.Infrared := GetNormalizedOutput TSL2591_INFRARED 0 0;
     sunlightmeter.Visible := GetNormalizedOutput TSL2591_VISIBLE 0 0;
     sunlightmeter.FullSpectrum := GetNormalizedOutput TSL2591_FULLSPECTRUM 0 0;
     sunlightmeter.JobID := job_name 0 |}.

End Fixtures.

(** ** Databases for the examples *)

Module ConnectFixtures.
Import tools.

(** A database that refuses the first attempt at [db.Ping] and connects at
    the second. *)
Definition second_try (n : nat) : Attempt :=
  match n with
  | O => PingFails
  | _ => Connects
  end.

End ConnectFixtures.

(** ** Properties of the lux calculation *)

Section CalculateLuxProperties.
Import tsl2591 RegisterSpec Fixtures.

Lemma CalculateLux_saturated (tsl : TSL2591) (ch0 ch1 : Z) :
  ch0 = 0xFFFF \/ ch1 = 0xFFFF ->
  CalculateLux tsl ch0 ch1 = (0%float, Some (ErrOverflow ch0 ch1)).
Proof.
  intros H. unfold CalculateLux.
  replace ((ch0 =? 0xFFFF) || (ch1 =? 0xFFFF))%bool with true; [reflexivity|].
  symmetry. apply orb_true_iff. rewrite !Z.eqb_eq. exact H.
Qed.

Lemma CalculateLux_unsaturated (tsl : TSL2591) (ch0 ch1 : Z) :
  ch0 <> 0xFFFF -> ch1 <> 0xFFFF ->
  CalculateLux tsl ch0 ch1 =
  (((float64 ch0 - float64 ch1) * (1.0 - (float64 ch1 / float64 ch0))
    / (int_time (Timing tsl) * adj_gain (Gain tsl) / TSL2591_LUX_DF))%float,
   None).
Proof.
  intros H0 H1. unfold CalculateLux.
  apply Z.eqb_neq in H0. apply Z.eqb_neq in H1.
  rewrite H0, H1. reflexivity.
Qed.

(** With both channels at zero the quotient is [0/0]: whatever the settings,
    the lux is NaN, returned with a nil error. *)
Lemma CalculateLux_dark_reading (tsl : TSL2591) :
  CalculateLux tsl 0 0 = (nan, None).
Proof.
  rewrite CalculateLux_unsaturated by discriminate.
  unfold int_time, adj_gain.
  repeat match goal with
         | |- context [if ?b then _ else _] => destruct b
         end;
    vm_compute; reflexivity.
Qed.

(** C1. [CalculateLux] returns the Overflow error exactly when one of the
    channels reads [0xFFFF]; for every other pair of counts it returns a lux
    value and a nil error, and [ch0 = 0] is no exception: the division by
    [ch0] is not guarded, and the reading [(0, 0)] yields a NaN with a nil
    error. *)
Theorem CalculateLux_overflow_iff (tsl : TSL2591) (ch0 ch1 : Z) :
  ((exists v, CalculateLux tsl ch0 ch1 = (v, Some (ErrOverflow ch0 ch1)))
     <-> (ch0 = 0xFFFF \/ ch1 = 0xFFFF))
  /\ ((exists e, snd (CalculateLux tsl ch0 ch1) = Some e)
     <-> (ch0 = 0xFFFF \/ ch1 = 0xFFFF))
  /\ ((exists lux, CalculateLux tsl ch0 ch1 = (lux, None))
     <-> ~ (ch0 = 0xFFFF \/ ch1 = 0xFFFF))
  /\ (snd (CalculateLux tsl 0 ch1) = None <-> ch1 <> 0xFFFF)
  /\ CalculateLux tsl 0 0 = (nan, None).
Proof.
  assert (Hsat : forall a b, a = 0xFFFF \/ b = 0xFFFF ->
            CalculateLux tsl a b = (0%float, Some (ErrOverflow a b)))
    by (intros; now apply CalculateLux_saturated).
  assert (Huns : forall a b, ~ (a = 0xFFFF \/ b = 0xFFFF) ->
            exists lux, CalculateLux tsl a b = (lux, None)).
  { intros a b H. eexists. apply CalculateLux_unsaturated; tauto. }
  assert (Hdec : forall a b : Z, (a = 0xFFFF \/ b = 0xFFFF) \/ ~ (a = 0xFFFF \/ b = 0xFFFF))
    by (intros; lia).
  split; [|split; [|split; [|split; [|apply CalculateLux_dark_reading]]]];
    split.
  - intros [v Hv]. destruct (Hdec ch0 ch1) as [H|H]; [exact H|].
    destruct (Huns _ _ H) as [l Hl]. congruence.
  - intros H. eexists. now apply Hsat.
  - intros [e He]. destruct (Hdec ch0 ch1) as [H|H]; [exact H|].
    destruct (Huns _ _ H) as [l Hl]. rewrite Hl in He. discriminate.
  - intros H. rewrite (Hsat _ _ H). eexists. reflexivity.
  - intros [l Hl] H. rewrite (Hsat _ _ H) in Hl. discriminate.
  - apply Huns.
  - intros H Hc. rewrite (Hsat 0 ch1 (or_intror Hc)) in H. discriminate.
  - intros H. destruct (Huns 0 ch1) as [l Hl]; [lia|]. now rewrite Hl.
Qed.

Lemma int_time_lookup (timing : Z) (it : float) :
  LuxSpec.lookup LuxSpec.intTimeMs_table timing = Some it ->
  int_time timing = it.
Proof.
  unfold LuxSpec.lookup, LuxSpec.intTimeMs_table, int_time.
  cbn [find fst snd]. rewrite !(Z.eqb_sym _ timing).
  repeat (destruct (timing =? _); [simpl; congruence|]).
  discriminate.
Qed.

Lemma adj_gain_lookup (gain : Z) (g : float) :
  LuxSpec.lookup LuxSpec.gainMultiplier_table gain = Some g ->
  adj_gain gain = g.
Proof.
  unfold LuxSpec.lookup, LuxSpec.gainMultiplier_table, adj_gain.
  cbn [find fst snd]. rewrite !(Z.eqb_sym _ gain).
  repeat (destruct (gain =? _); [simpl; congruence|]).
  discriminate.
Qed.

(** C2. For a non-saturated reading with [ch0 <> 0], [CalculateLux] returns
    [(ch0 - ch1) * (1 - ch1/ch0) / countsPerLux], where [countsPerLux] is
    [(intTimeMs * gainMultiplier) / 408.0] and both factors come from the
    lookup tables; for [ch0 = 10000], [ch1 = 2000], low gain and 300 ms,
    [countsPerLux] is about 0.7353 and the result is 8704.0 (here exactly,
    hence within any tolerance). *)
Theorem CalculateLux_formula :
  (forall (tsl : TSL2591) (ch0 ch1 : Z) (intTimeMs gainMultiplier : float),
      LuxSpec.lookup LuxSpec.intTimeMs_table (Timing tsl) = Some intTimeMs ->
      LuxSpec.lookup LuxSpec.gainMultiplier_table (Gain tsl) = Some gainMultiplier ->
      ch0 <> 0xFFFF -> ch1 <> 0xFFFF -> ch0 <> 0 ->
      CalculateLux tsl ch0 ch1 =
      (LuxSpec.lux intTimeMs gainMultiplier ch0 ch1, None))
  /\ CalculateLux example_tsl 10000 2000 = (8704.0%float, None)
  /\ (abs (LuxSpec.countsPerLux 300 1 - 0.7353) <? 0.0001)%float = true
  /\ (abs (fst (CalculateLux example_tsl 10000 2000) - 8704.0) <? 0.000001)%float
     = true.
Proof.
  split; [|repeat split; vm_compute; reflexivity].
  intros tsl ch0 ch1 it g Hit Hg H0 H1 _.
  rewrite (CalculateLux_unsaturated _ _ _ H0 H1).
  rewrite (int_time_lookup _ _ Hit), (adj_gain_lookup _ _ Hg).
  reflexivity.
Qed.

Lemma CalculateLux_formula_witness :
  LuxSpec.lookup LuxSpec.intTimeMs_table (Timing example_tsl) = Some 300%float
  /\ LuxSpec.lookup LuxSpec.gainMultiplier_table (Gain example_tsl) = Some 1%float
  /\ 10000 <> 0xFFFF /\ 2000 <> 0xFFFF /\ 10000 <> 0
  /\ CalculateLux example_tsl 10000 2000 = (LuxSpec.lux 300 1 10000 2000, None).
Proof.
  assert (Ha : LuxSpec.lookup LuxSpec.intTimeMs_table (Timing example_tsl)
               = Some 300%float) by reflexivity.
  assert (Hb : LuxSpec.lookup LuxSpec.gainMultiplier_table (Gain example_tsl)
               = Some 1%float) by reflexivity.
  assert (H0 : 10000 <> 0xFFFF) by lia.
  assert (H1 : 2000 <> 0xFFFF) by lia.
  assert (H2 : 10000 <> 0) by lia.
  exact (conj Ha (conj Hb (conj H0 (conj H1 (conj H2
    (proj1 CalculateLux_formula example_tsl 10000 2000 _ _ Ha Hb H0 H1 H2)))))).
Defined.

(** C10. [CalculateLux] is total over the stored settings: a timing byte
    that is none of the six integration-time constants counts as 100 ms, a
    gain byte that is none of the four gain constants counts as 1x, and
    whatever the settings a non-saturated reading gets a lux value and a nil
    error. *)
Theorem CalculateLux_total_over_settings (tsl : TSL2591) (ch0 ch1 : Z) :
  (~ In (Timing tsl) integrationOptions ->
     int_time (Timing tsl) = 100%float
     /\ CalculateLux tsl ch0 ch1
        = CalculateLux (set_Timing tsl TSL2591_INTEGRATIONTIME_100MS) ch0 ch1)
  /\ (~ In (Gain tsl) gainOptions ->
     adj_gain (Gain tsl) = 1%float
     /\ CalculateLux tsl ch0 ch1
        = CalculateLux (set_Gain tsl TSL2591_GAIN_LOW) ch0 ch1)
  /\ (ch0 <> 0xFFFF -> ch1 <> 0xFFFF ->
      exists lux, CalculateLux tsl ch0 ch1 = (lux, None)
                  /\ snd (CalculateLux tsl ch0 ch1) = None).
Proof.
  split; [|split].
  - intros Hout.
    assert (Ht : int_time (Timing tsl) = 100%float).
    { unfold int_time.
      repeat match goal with
             | |- (if ?t =? ?c then _ else _) = _ =>
                 destruct (Z.eqb_spec t c) as [E|_];
                 [exfalso; apply Hout; rewrite E; unfold integrationOptions;
                  simpl; tauto|]
             end.
      reflexivity. }
    split; [exact Ht|].
    unfold CalculateLux. cbn [Timing Gain set_Timing]. rewrite Ht. reflexivity.
  - intros Hout.
    assert (Hg : adj_gain (Gain tsl) = 1%float).
    { unfold adj_gain.
      repeat match goal with
             | |- (if ?t =? ?c then _ else _) = _ =>
                 destruct (Z.eqb_spec t c) as [E|_];
                 [exfalso; apply Hout; rewrite E; unfold gainOptions;
                  simpl; tauto|]
             end.
      reflexivity. }
    split; [exact Hg|].
    unfold CalculateLux. cbn [Timing Gain set_Gain]. rewrite Hg. reflexivity.
  - intros H0 H1. rewrite (CalculateLux_unsaturated _ _ _ H0 H1).
    eexists. split; reflexivity.
Qed.

Lemma CalculateLux_total_over_settings_witness :
  ~ In (Timing odd_tsl) integrationOptions
  /\ ~ In (Gain odd_tsl) gainOptions
  /\ int_time (Timing odd_tsl) = 100%float
  /\ adj_gain (Gain odd_tsl) = 1%float
  /\ exists lux, CalculateLux odd_tsl 10000 2000 = (lux, None)
                 /\ snd (CalculateLux odd_tsl 10000 2000) = None.
Proof.
  assert (Ht : ~ In (Timing odd_tsl) integrationOptions).
  { unfold integrationOptions; simpl; intros H.
    repeat (destruct H as [H|H]; [discriminate H|]). exact H. }
  assert (Hg : ~ In (Gain odd_tsl) gainOptions).
  { unfold gainOptions; simpl; intros H.
    repeat (destruct H as [H|H]; [discriminate H|]). exact H. }
  assert (H0 : 10000 <> 0xFFFF) by lia.
  assert (H1 : 2000 <> 0xFFFF) by lia.
  pose proof (CalculateLux_total_over_settings odd_tsl 10000 2000) as [A [B C]].
  exact (conj Ht (conj Hg (conj (proj1 (A Ht)) (conj (proj1 (B Hg)) (C H0 H1))))).
Defined.

End CalculateLuxProperties.

(** ** Properties of the register operations *)

Section RegisterProperties.
Import tsl2591 RegisterSpec Fixtures.

Lemma control_byte_fields (t g : Z) :
  In t integrationOptions -> In g gainOptions ->
  Z.land (Z.lor t g) 0x07 = t /\ Z.land (Z.lor t g) 0x30 = g.
Proof.
  unfold integrationOptions, gainOptions. simpl.
  intros Ht Hg.
  repeat (destruct Ht as [Ht|Ht]; [subst t|]); try contradiction;
    repeat (destruct Hg as [Hg|Hg]; [subst g|]); try contradiction;
    split; reflexivity.
Qed.

(** C6. [SetGain g] on a disabled device fails with "sensor must be
    enabled" and touches nothing; on an enabled device it issues exactly one
    write, of the single byte [Timing | g], to the control register, leaves
    [Timing] as it was and stores [g] in [Gain] exactly when the write is
    acknowledged. [SetTiming t] is symmetric: NotEnabled when disabled,
    otherwise one write of [t | Gain], [Gain] untouched, [Timing] updated on
    success only. For settings taken from the defined constants the byte
    keeps both fields apart. *)
Theorem SetGain_SetTiming_spec (hw : I2C) (tsl : TSL2591) (g t : Z) :
  (Enabled tsl = false ->
     SetGain hw tsl g = (tsl, Some ErrNotEnabled)
     /\ SetTiming hw tsl t = (tsl, Some ErrNotEnabled))
  /\ (Enabled tsl = true ->
      let ack := write_ok hw (nwrites (Device tsl)) in
      let tsl' := fst (SetGain hw tsl g) in
      trace (Device tsl')
        = trace (Device tsl) ++ [OpWriteReg control_register [Z.lor (Timing tsl) g]]
      /\ nwrites (Device tsl') = S (nwrites (Device tsl))
      /\ nreads (Device tsl') = nreads (Device tsl)
      /\ Timing tsl' = Timing tsl
      /\ Enabled tsl' = true
      /\ Gain tsl' = (if ack then g else Gain tsl)
      /\ snd (SetGain hw tsl g) = (if ack then None else Some ErrI2C))
  /\ (Enabled tsl = true ->
      let ack := write_ok hw (nwrites (Device tsl)) in
      let tsl' := fst (SetTiming hw tsl t) in
      trace (Device tsl')
        = trace (Device tsl) ++ [OpWriteReg control_register [Z.lor t (Gain tsl)]]
      /\ nwrites (Device tsl') = S (nwrites (Device tsl))
      /\ nreads (Device tsl') = nreads (Device tsl)
      /\ Gain tsl' = Gain tsl
      /\ Enabled tsl' = true
      /\ Timing tsl' = (if ack then t else Timing tsl)
      /\ snd (SetTiming hw tsl t) = (if ack then None else Some ErrI2C))
  /\ (In t integrationOptions -> In g gainOptions ->
      Z.land (Z.lor t g) 0x07 = t /\ Z.land (Z.lor t g) 0x30 = g).
Proof.
  split; [|split; [|split]].
  - intros E. unfold SetGain, SetTiming. rewrite E. split; reflexivity.
  - intros E. unfold SetGain, WriteReg. rewrite E. cbn [negb].
    destruct (write_ok hw (nwrites (Device tsl))); cbn; rewrite ?E; repeat split.
  - intros E. unfold SetTiming, WriteReg. rewrite E. cbn [negb].
    destruct (write_ok hw (nwrites (Device tsl))); cbn; rewrite ?E; repeat split.
  - apply control_byte_fields.
Qed.

Lemma SetGain_SetTiming_spec_witness :
  (Enabled disabled_tsl = false
   /\ SetGain healthy_hw disabled_tsl TSL2591_GAIN_MED
      = (disabled_tsl, Some ErrNotEnabled))
  /\ (Enabled enabled_tsl = true
      /\ Gain (fst (SetGain healthy_hw enabled_tsl TSL2591_GAIN_MED))
         = TSL2591_GAIN_MED
      /\ Gain (fst (SetGain deaf_hw enabled_tsl TSL2591_GAIN_MED))
         = TSL2591_GAIN_LOW
      /\ Timing (fst (SetTiming healthy_hw enabled_tsl TSL2591_INTEGRATIONTIME_600MS))
         = TSL2591_INTEGRATIONTIME_600MS).
Proof.
  pose proof (SetGain_SetTiming_spec healthy_hw disabled_tsl
                TSL2591_GAIN_MED TSL2591_INTEGRATIONTIME_600MS) as [D _].
  pose proof (SetGain_SetTiming_spec healthy_hw enabled_tsl
                TSL2591_GAIN_MED TSL2591_INTEGRATIONTIME_600MS) as [_ [G [T _]]].
  pose proof (SetGain_SetTiming_spec deaf_hw enabled_tsl
                TSL2591_GAIN_MED TSL2591_INTEGRATIONTIME_600MS) as [_ [G' _]].
  assert (Ed : Enabled disabled_tsl = false) by reflexivity.
  assert (Ee : Enabled enabled_tsl = true) by reflexivity.
  exact (conj (conj Ed (proj1 (D Ed)))
           (conj Ee
              (conj (proj1 (proj2 (proj2 (proj2 (proj2 (proj2 (G Ee)))))))
                 (conj (proj1 (proj2 (proj2 (proj2 (proj2 (proj2 (G' Ee)))))))
                    (proj1 (proj2 (proj2 (proj2 (proj2 (proj2 (T Ee))))))))))).
Defined.

(** C7. [Enable] on an enabled device and [Disable] on a disabled one return
    nil with no bus access and no change. Otherwise [Enable] issues one write
    to the enable register of the byte with the power-on, ALS-enable,
    ALS-interrupt-enable and no-persist-interrupt-enable bits (and no other)
    set, [Disable] one write of the zero byte, and the [Enabled] flag flips
    exactly when the write is acknowledged; gain and timing are never
    touched. A call repeated after a success is a no-op. *)
Theorem Enable_Disable_idempotent (hw : I2C) (tsl : TSL2591) :
  (Enabled tsl = true -> Enable hw tsl = (tsl, None))
  /\ (Enabled tsl = false -> Disable hw tsl = (tsl, None))
  /\ (Enabled tsl = false ->
      let ack := write_ok hw (nwrites (Device tsl)) in
      let tsl' := fst (Enable hw tsl) in
      trace (Device tsl')
        = trace (Device tsl) ++ [OpWriteReg enable_register [enable_byte]]
      /\ Enabled tsl' = ack
      /\ Timing tsl' = Timing tsl /\ Gain tsl' = Gain tsl
      /\ snd (Enable hw tsl) = (if ack then None else Some ErrI2C)
      /\ (ack = true -> Enable hw tsl' = (tsl', None)))
  /\ (Enabled tsl = true ->
      let ack := write_ok hw (nwrites (Device tsl)) in
      let tsl' := fst (Disable hw tsl) in
      trace (Device tsl')
        = trace (Device tsl) ++ [OpWriteReg enable_register [TSL2591_ENABLE_POWEROFF]]
      /\ Enabled tsl' = negb ack
      /\ Timing tsl' = Timing tsl /\ Gain tsl' = Gain tsl
      /\ snd (Disable hw tsl) = (if ack then None else Some ErrI2C)
      /\ (ack = true -> Disable hw tsl' = (tsl', None)))
  /\ (forall i : Z, Z.testbit enable_byte i = true <-> In i [0; 1; 4; 7])
  /\ TSL2591_ENABLE_POWEROFF = 0.
Proof.
  split; [|split; [|split; [|split; [|split]]]].
  - intros E. unfold Enable. rewrite E. reflexivity.
  - intros E. unfold Disable. rewrite E. reflexivity.
  - intros E. unfold Enable, WriteReg. rewrite E.
    destruct (write_ok hw (nwrites (Device tsl))); cbn; rewrite ?E;
      repeat split; intros; discriminate.
  - intros E. unfold Disable, WriteReg. rewrite E. cbn [negb].
    destruct (write_ok hw (nwrites (Device tsl))); cbn; rewrite ?E;
      repeat split; intros; discriminate.
  - intros i. change enable_byte with 147. split.
    + intros H.
      assert (0 <= i < 8).
      { destruct (Z.ltb_spec i 0) as [Hn|Hn].
        - rewrite Z.testbit_neg_r in H by lia. discriminate.
        - destruct (Z.ltb_spec i 8) as [Hlt|Hge]; [lia|].
          rewrite Z.bits_above_log2 in H; [discriminate|lia|].
          change (Z.log2 147) with 7. lia. }
      assert (Hc : i = 0 \/ i = 1 \/ i = 2 \/ i = 3 \/ i = 4 \/ i = 5
                   \/ i = 6 \/ i = 7) by lia.
      simpl.
      repeat (destruct Hc as [Hc|Hc]; [subst i; try discriminate H; tauto|]).
      subst i. tauto.
    + simpl. intros H.
      repeat (destruct H as [H|H]; [subst i; reflexivity|]). contradiction.
  - reflexivity.
Qed.

Lemma Enable_Disable_idempotent_witness :
  Enabled enabled_tsl = true
  /\ Enabled disabled_tsl = false
  /\ Enable healthy_hw enabled_tsl = (enabled_tsl, None)
  /\ Disable healthy_hw disabled_tsl = (disabled_tsl, None)
  /\ Enabled (fst (Enable healthy_hw disabled_tsl)) = true
  /\ Enabled (fst (Enable deaf_hw disabled_tsl)) = false
  /\ Enabled (fst (Disable healthy_hw enabled_tsl)) = false.
Proof.
  pose proof (Enable_Disable_idempotent healthy_hw enabled_tsl) as [A [_ [_ [B _]]]].
  pose proof (Enable_Disable_idempotent healthy_hw disabled_tsl) as [_ [C [D _]]].
  pose proof (Enable_Disable_idempotent deaf_hw disabled_tsl) as [_ [_ [D' _]]].
  assert (Ee : Enabled enabled_tsl = true) by reflexivity.
  assert (Ed : Enabled disabled_tsl = false) by reflexivity.
  exact (conj Ee (conj Ed (conj (A Ee) (conj (C Ed)
           (conj (proj1 (proj2 (D Ed)))
              (conj (proj1 (proj2 (D' Ed)))
                 (proj1 (proj2 (B Ee))))))))).
Defined.

End RegisterProperties.

(** ** Properties of the calibration *)

Section CalibrationProperties.
Import tsl2591 RegisterSpec CalibrationSpec Fixtures.

Lemma last_write_app_write (tr : list BusOp) (reg : Z) (data : list Z) :
  last_write (tr ++ [OpWriteReg reg data]) = Some (reg, data).
Proof.
  induction tr as [|op tr IH]; [reflexivity|].
  simpl. rewrite IH. reflexivity.
Qed.

Lemma last_write_app_read (tr : list BusOp) (reg : Z) (len : nat) :
  last_write (tr ++ [OpReadReg reg len]) = last_write tr.
Proof.
  induction tr as [|op tr IH]; [reflexivity|].
  simpl. rewrite IH. reflexivity.
Qed.

Lemma first_usable_app (hw : I2C) (l1 l2 : list (Z * Z)) (k : nat) :
  first_usable hw k (l1 ++ l2) =
  match first_usable hw k l1 with
  | Some c => Some c
  | None => first_usable hw (k + length l1) l2
  end.
Proof.
  revert k. induction l1 as [|c l1 IH]; intros k; simpl.
  - now rewrite Nat.add_0_r.
  - destruct (usable hw k c); [reflexivity|].
    rewrite IH. now rewrite Nat.add_succ_r.
Qed.

Variable hw : I2C.
Hypothesis writes_acknowledged : forall n, write_ok hw n = true.

Lemma SetTiming_ok (tsl : TSL2591) (t : Z) :
  Enabled tsl = true ->
  SetTiming hw tsl t =
  ({| Enabled := true; Timing := t; Gain := Gain tsl;
      Device := {| nwrites := S (nwrites (Device tsl));
                   nreads := nreads (Device tsl);
                   trace := trace (Device tsl)
                            ++ [OpWriteReg control_register [Z.lor t (Gain tsl)]] |} |},
   None).
Proof.
  intros E. unfold SetTiming, WriteReg, set_Timing, set_Device.
  rewrite writes_acknowledged. cbn [Enabled Timing Gain Device].
  rewrite E. reflexivity.
Qed.

Lemma SetGain_ok (tsl : TSL2591) (g : Z) :
  Enabled tsl = true ->
  SetGain hw tsl g =
  ({| Enabled := true; Timing := Timing tsl; Gain := g;
      Device := {| nwrites := S (nwrites (Device tsl));
                   nreads := nreads (Device tsl);
                   trace := trace (Device tsl)
                            ++ [OpWriteReg control_register [Z.lor (Timing tsl) g]] |} |},
   None).
Proof.
  intros E. unfold SetGain, WriteReg, set_Gain, set_Device.
  rewrite writes_acknowledged. cbn [Enabled Timing Gain Device].
  rewrite E. reflexivity.
Qed.

Lemma GetFullLuminosity_enabled (tsl : TSL2591) :
  Enabled tsl = true ->
  GetFullLuminosity hw tsl =
  let tsl' :=
    set_Device tsl
      {| nwrites := nwrites (Device tsl);
         nreads := S (nreads (Device tsl));
         trace := trace (Device tsl)
                  ++ [OpReadReg (Z.lor TSL2591_COMMAND_BIT
                                   TSL2591_REGISTER_CHAN0_LOW) 4] |} in
  match reading hw (nreads (Device tsl)) with
  | Some (ch0, ch1) => (tsl', ch0, ch1, None)
  | None => (tsl', 0, 0, Some ErrI2C)
  end.
Proof.
  intros E. unfold GetFullLuminosity, ReadReg, reading. rewrite E. cbn [negb].
  destruct (read_reply hw (nreads (Device tsl))); reflexivity.
Qed.

(** The inner loop: from an enabled device whose gain is [Gain tsl], it stops
    on the first usable integration time, which is then the stored timing
    and the last byte written; otherwise it consumes one read per time. *)
Lemma SetOptimalGain_times_spec (times : list Z) :
  forall tsl : TSL2591,
    Enabled tsl = true ->
    let r := SetOptimalGain_times hw times tsl in
    Enabled (fst r) = true
    /\ Gain (fst r) = Gain tsl
    /\ match first_usable hw (nreads (Device tsl))
               (map (fun time => (Gain tsl, time)) times) with
       | Some (gain, time) =>
           snd r = true /\ gain = Gain tsl /\ Timing (fst r) = time
           /\ last_write (trace (Device (fst r)))
              = Some (control_register, [Z.lor time (Gain tsl)])
       | None =>
           snd r = false
           /\ nreads (Device (fst r))
              = (nreads (Device tsl) + List.length times)%nat
       end.
Proof.
  induction times as [|time rest IH]; intros tsl E.
  - cbn. rewrite Nat.add_0_r. auto.
  - cbn [SetOptimalGain_times map first_usable].
    rewrite (SetTiming_ok _ _ E).
    match goal with
    | |- context [GetFullLuminosity hw ?t] => set (tsl1 := t)
    end.
    rewrite (GetFullLuminosity_enabled tsl1 eq_refl).
    cbv zeta.
    match goal with
    | |- context [set_Device tsl1 ?d] => set (tsl2 := set_Device tsl1 d)
    end.
    specialize (IH tsl2 eq_refl).
    change (Gain tsl2) with (Gain tsl) in IH.
    change (nreads (Device tsl2)) with (S (nreads (Device tsl))) in IH.
    change (nreads (Device tsl1)) with (nreads (Device tsl)).
    cbn [List.length]. rewrite Nat.add_succ_r.
    unfold usable.
    destruct (reading hw (nreads (Device tsl))) as [[ch0 ch1]|] eqn:Hr;
      [|exact IH].
    destruct ((ch0 =? 0xFFFF) || (ch1 =? 0xFFFF))%bool eqn:Hsat;
      [exact IH|].
    unfold CalculateLux. rewrite Hsat. cbn [negb andb].
    change (Timing tsl2) with time. change (Gain tsl2) with (Gain tsl).
    change (LuxSpec.lux (int_time time) (adj_gain (Gain tsl)) ch0 ch1)
      with ((float64 ch0 - float64 ch1) * (1.0 - float64 ch1 / float64 ch0)
            / (int_time time * adj_gain (Gain tsl) / TSL2591_LUX_DF))%float.
    destruct (_ =? 0)%float; [exact IH|].
    cbn [negb fst snd]. repeat split.
    unfold tsl2, tsl1. cbn [Device trace set_Device].
    rewrite last_write_app_read, last_write_app_write. reflexivity.
Qed.

(** The outer loop: the first usable combination in the order of
    [combinations]. *)
Lemma SetOptimalGain_gains_spec (gains : list Z) :
  forall tsl : TSL2591,
    Enabled tsl = true ->
    let r := SetOptimalGain_gains hw gains tsl in
    Enabled (fst r) = true
    /\ match first_usable hw (nreads (Device tsl))
               (flat_map (fun gain => map (fun time => (gain, time))
                                        integrationOptions) gains) with
       | Some (gain, time) =>
           snd r = true /\ Gain (fst r) = gain /\ Timing (fst r) = time
           /\ last_write (trace (Device (fst r)))
              = Some (control_register, [Z.lor time gain])
       | None =>
           snd r = false
           /\ nreads (Device (fst r))
              = (nreads (Device tsl)
                 + List.length (flat_map (fun gain => map (fun time => (gain, time))
                                                   integrationOptions) gains))%nat
       end.
Proof.
  induction gains as [|gain rest IH]; intros tsl E.
  - cbn. rewrite Nat.add_0_r. auto.
  - cbn [SetOptimalGain_gains flat_map].
    rewrite (SetGain_ok _ _ E).
    match goal with
    | |- context [SetOptimalGain_times hw _ ?t] => set (tsl1 := t)
    end.
    pose proof (SetOptimalGain_times_spec integrationOptions tsl1 eq_refl)
      as Ht.
    cbv zeta in Ht.
    change (Gain tsl1) with gain in Ht.
    change (nreads (Device tsl1)) with (nreads (Device tsl)) in Ht.
    rewrite first_usable_app, length_app, length_map.
    destruct (SetOptimalGain_times hw integrationOptions tsl1)
      as [tsl2 found] eqn:Hrun.
    cbn [fst snd] in Ht.
    destruct Ht as (E2 & G2 & Ht).
    destruct (first_usable hw (nreads (Device tsl))
                (map (fun time => (gain, time)) integrationOptions))
      as [[g t]|] eqn:Hfirst.
    + destruct Ht as (Hf & Hg & Htime & Hlast). subst found g.
      cbn [fst snd]. auto.
    + destruct Ht as (Hf & Hn). subst found.
      specialize (IH tsl2 E2). cbv zeta in IH.
      rewrite Hn in IH. rewrite Nat.add_assoc. exact IH.
Qed.

(** C4, as amended. On an enabled device whose control writes are
    acknowledged, [SetOptimalGain] tries the combinations in the order of
    [combinations], one block read each, skipping a combination on a read
    error, on a saturated channel and on a lux of zero; the first usable
    combination is left active, in the handle and in the control register,
    and nil is returned; when all twenty-four are skipped the device is back
    on low gain and 600 ms and the error "All gain options are saturated" is
    returned. *)
Theorem SetOptimalGain_calibrates (tsl : TSL2591) :
  Enabled tsl = true -> calibrates hw tsl.
Proof.
  intros E. unfold calibrates, SetOptimalGain.
  pose proof (SetOptimalGain_gains_spec gainOptions tsl E) as Hg.
  cbv zeta in Hg. fold combinations in Hg.
  destruct (SetOptimalGain_gains hw gainOptions tsl) as [tsl1 found] eqn:Hrun.
  cbn [fst snd] in Hg. destruct Hg as (E1 & Hg).
  destruct (first_usable hw (nreads (Device tsl)) combinations)
    as [[g t]|] eqn:Hfirst.
  - destruct Hg as (Hf & Hgain & Htime & Hlast). subst found.
    cbn [fst snd]. auto.
  - destruct Hg as (Hf & Hn). subst found.
    rewrite (SetGain_ok _ _ E1).
    match goal with
    | |- context [SetTiming hw ?t _] => set (tsl2 := t)
    end.
    rewrite (SetTiming_ok tsl2 _ eq_refl).
    cbn [fst snd Gain Timing Device nreads trace].
    rewrite last_write_app_write. auto.
Qed.

End CalibrationProperties.

Section CalibrationExamples.
Import tsl2591 RegisterSpec CalibrationSpec Fixtures.

Lemma SetOptimalGain_calibrates_witness :
  (forall n, write_ok recovering_hw n = true)
  /\ Enabled enabled_tsl = true
  /\ first_usable recovering_hw (nreads (Device enabled_tsl)) combinations
     = Some (TSL2591_GAIN_MED, TSL2591_INTEGRATIONTIME_500MS)
  /\ calibrates recovering_hw enabled_tsl.
Proof.
  assert (Hw : forall n, write_ok recovering_hw n = true) by reflexivity.
  assert (E : Enabled enabled_tsl = true) by reflexivity.
  assert (F : first_usable recovering_hw (nreads (Device enabled_tsl))
                combinations
              = Some (TSL2591_GAIN_MED, TSL2591_INTEGRATIONTIME_500MS))
    by (vm_compute; reflexivity).
  exact (conj Hw (conj E (conj F
           (SetOptimalGain_calibrates recovering_hw Hw enabled_tsl E)))).
Defined.

(** C4, as stated, would hold of every device and every bus. It does not:
    the results of [SetGain] and [SetTiming] are dropped, so when the last
    write of the restore is not acknowledged the handle stays on 100 ms, and
    on a disabled device nothing is restored at all. *)
Lemma SetOptimalGain_restore_can_fail :
  first_usable restore_nack_hw (nreads (Device enabled_tsl)) combinations = None
  /\ snd (SetOptimalGain restore_nack_hw enabled_tsl) = Some ErrAllGainsSaturated
  /\ Timing (fst (SetOptimalGain restore_nack_hw enabled_tsl))
     = TSL2591_INTEGRATIONTIME_100MS
  /\ ~ calibrates restore_nack_hw enabled_tsl
  /\ fst (SetOptimalGain deaf_hw disabled_tsl) = disabled_tsl
  /\ ~ calibrates deaf_hw disabled_tsl
  /\ ~ (forall (hw : I2C) (tsl : TSL2591), calibrates hw tsl).
Proof.
  assert (A : ~ calibrates restore_nack_hw enabled_tsl).
  { intros H. vm_compute in H. destruct H as (_ & _ & H & _). discriminate H. }
  assert (B : ~ calibrates deaf_hw disabled_tsl).
  { intros H. vm_compute in H. destruct H as (_ & _ & H & _). discriminate H. }
  assert (C : ~ (forall (hw : I2C) (tsl : TSL2591), calibrates hw tsl))
    by (intros H; exact (A (H _ _))).
  split; [vm_compute; reflexivity|].
  split; [vm_compute; reflexivity|].
  split; [vm_compute; reflexivity|].
  split; [exact A|].
  split; [vm_compute; reflexivity|].
  split; [exact B|exact C].
Qed.

End CalibrationExamples.

(** ** Properties of the channel read and of the start-up probe *)

Section ChannelReadProperties.
Import tsl2591 RegisterSpec Fixtures.

Lemma lor_low_high_byte (a : Z) :
  Z.lor (a mod 256) (Z.shiftl (a / 256) 8) = a.
Proof.
  apply Z.bits_inj'. intros n Hn.
  rewrite Z.lor_spec. change 256 with (2 ^ 8).
  destruct (Z.ltb_spec n 8) as [Hlt|Hge].
  - rewrite Z.mod_pow2_bits_low, Z.shiftl_spec_low by lia.
    apply orb_false_r.
  - rewrite Z.mod_pow2_bits_high, Z.shiftl_spec by lia.
    rewrite Z.div_pow2_bits by lia. cbn [orb]. f_equal. lia.
Qed.

Lemma LittleEndian_Uint16_bytes (b0 b1 : Z) (rest : list Z) :
  is_byte b0 -> is_byte b1 ->
  LittleEndian_Uint16 (b0 :: b1 :: rest) = b0 + 256 * b1
  /\ is_uint16 (LittleEndian_Uint16 (b0 :: b1 :: rest)).
Proof.
  unfold is_byte, is_uint16, LittleEndian_Uint16. intros H0 H1. cbn [nth].
  assert (E : Z.lor b0 (Z.shiftl b1 8) = b0 + 256 * b1).
  { transitivity (Z.lor ((b0 + 256 * b1) mod 256)
                       (Z.shiftl ((b0 + 256 * b1) / 256) 8));
      [|apply lor_low_high_byte].
    f_equal; [|f_equal]; symmetry.
    - replace (b0 + 256 * b1) with (b0 + b1 * 256) by lia.
      rewrite Z.mod_add by lia. apply Z.mod_small. lia.
    - replace (b0 + 256 * b1) with (b0 + b1 * 256) by lia.
      rewrite Z.div_add by lia. rewrite (Z.div_small b0) by lia. lia. }
  rewrite E. lia.
Qed.

(** The channel read. On a disabled device it fails with "sensor must be
    enabled" and does not touch the bus. On an enabled device it issues
    exactly one read, of four bytes at the channel register: when the read
    fails both counts are zero and the error is the one of the bus; when it
    delivers the bytes [b0 b1 b2 b3] the counts are [b0 + 256 * b1] and
    [b2 + 256 * b3], both within [uint16]; so the counts a sensor puts on
    the wire, low byte first, are the counts read. Gain, timing and the
    enabled flag are never changed. *)
Theorem GetFullLuminosity_decodes (hw : I2C) (tsl : TSL2591) :
  (Enabled tsl = false ->
     GetFullLuminosity hw tsl = (tsl, 0, 0, Some ErrNotEnabled))
  /\ (Enabled tsl = true ->
      read_reply hw (nreads (Device tsl)) = None ->
      GetFullLuminosity hw tsl
      = (set_Device tsl (after_read (Device tsl) channel_register 4),
         0, 0, Some ErrI2C))
  /\ (forall b0 b1 b2 b3 : Z,
         Enabled tsl = true ->
         read_reply hw (nreads (Device tsl)) = Some [b0; b1; b2; b3] ->
         is_byte b0 -> is_byte b1 -> is_byte b2 -> is_byte b3 ->
         GetFullLuminosity hw tsl
         = (set_Device tsl (after_read (Device tsl) channel_register 4),
            b0 + 256 * b1, b2 + 256 * b3, None)
         /\ is_uint16 (b0 + 256 * b1) /\ is_uint16 (b2 + 256 * b3))
  /\ (forall ch0 ch1 : Z,
         Enabled tsl = true ->
         is_uint16 ch0 -> is_uint16 ch1 ->
         read_reply hw (nreads (Device tsl)) = Some (channel_block ch0 ch1) ->
         GetFullLuminosity hw tsl
         = (set_Device tsl (after_read (Device tsl) channel_register 4),
            ch0, ch1, None)).
Proof.
  assert (Hbytes : forall b0 b1 b2 b3 : Z,
             Enabled tsl = true ->
             read_reply hw (nreads (Device tsl)) = Some [b0; b1; b2; b3] ->
             is_byte b0 -> is_byte b1 -> is_byte b2 -> is_byte b3 ->
             GetFullLuminosity hw tsl
             = (set_Device tsl (after_read (Device tsl) channel_register 4),
                b0 + 256 * b1, b2 + 256 * b3, None)
             /\ is_uint16 (b0 + 256 * b1) /\ is_uint16 (b2 + 256 * b3)).
  { intros b0 b1 b2 b3 E Hr H0 H1 H2 H3.
    destruct (LittleEndian_Uint16_bytes b0 b1 [b2; b3] H0 H1) as [A A'].
    destruct (LittleEndian_Uint16_bytes b2 b3 [] H2 H3) as [B B'].
    rewrite A in A'. rewrite B in B'.
    split; [|split; assumption].
    unfold GetFullLuminosity, ReadReg. rewrite E, Hr. cbn [negb].
    cbn [app firstn skipn]. rewrite A, B. reflexivity. }
  split; [|split; [|split]].
  - intros E. unfold GetFullLuminosity. rewrite E. reflexivity.
  - intros E Hr. unfold GetFullLuminosity, ReadReg. rewrite E, Hr. reflexivity.
  - exact Hbytes.
  - intros ch0 ch1 E H0 H1 Hr. unfold channel_block in Hr.
    unfold is_uint16 in H0, H1.
    destruct (Hbytes _ _ _ _ E Hr) as [Hg _].
    + apply Z.mod_pos_bound; lia.
    + split; [apply Z.div_pos; lia|apply Z.div_lt_upper_bound; lia].
    + apply Z.mod_pos_bound; lia.
    + split; [apply Z.div_pos; lia|apply Z.div_lt_upper_bound; lia].
    + rewrite Hg. repeat f_equal.
      * rewrite (Z.div_mod ch0 256) at 3 by lia. lia.
      * rewrite (Z.div_mod ch1 256) at 3 by lia. lia.
Qed.

Lemma GetFullLuminosity_decodes_witness :
  Enabled sampling_tsl = true
  /\ is_uint16 10000 /\ is_uint16 2000
  /\ read_reply healthy_hw (nreads (Device sampling_tsl))
     = Some (channel_block 10000 2000)
  /\ GetFullLuminosity healthy_hw sampling_tsl
     = (set_Device sampling_tsl
          (after_read (Device sampling_tsl) channel_register 4),
        10000, 2000, None).
Proof.
  assert (E : Enabled sampling_tsl = true) by reflexivity.
  assert (H0 : is_uint16 10000) by (unfold is_uint16; lia).
  assert (H1 : is_uint16 2000) by (unfold is_uint16; lia).
  assert (Hr : read_reply healthy_hw (nreads (Device sampling_tsl))
               = Some (channel_block 10000 2000)) by reflexivity.
  exact (conj E (conj H0 (conj H1 (conj Hr
    (proj2 (proj2 (proj2 (GetFullLuminosity_decodes healthy_hw sampling_tsl)))
       10000 2000 E H0 H1 Hr))))).
Defined.

End ChannelReadProperties.

Section ProbeProperties.
Import tsl2591 RegisterSpec Fixtures.

Lemma NewTSL2591_answered (hw : I2C) (gain timing : Z) :
  answers_probe hw ->
  let t0 := if write_ok hw 0 then timing else 0 in
  let g1 := if write_ok hw 1 then gain else 0 in
  NewTSL2591 hw gain timing
  = (Some {| Enabled := negb (write_ok hw 2); Timing := t0; Gain := g1;
             Device := {| nwrites := 3; nreads := 1;
                          trace := [OpReadReg device_id_register 1;
                                    OpWriteReg control_register [Z.lor timing 0];
                                    OpWriteReg control_register [Z.lor t0 gain];
                                    OpWriteReg enable_register
                                      [TSL2591_ENABLE_POWEROFF]] |} |},
     None).
Proof.
  intros (Ho & bytes & Hr & Hid). cbv zeta.
  unfold NewTSL2591, ReadReg. rewrite Ho. cbn [negb Device nreads].
  rewrite Hr.
  assert (Hb : nth 0 (firstn 1 (bytes ++ repeat 0 1)) 0 = 0x50).
  { destruct bytes as [|b bytes]; [discriminate Hid|exact Hid]. }
  rewrite Hb. cbn [Z.eqb Pos.eqb negb].
  unfold SetTiming, SetGain, Disable, WriteReg.
  cbn [set_Device Enabled Device nwrites negb].
  destruct (write_ok hw 0); cbn [set_Device set_Timing Enabled Device nwrites negb];
    destruct (write_ok hw 1); cbn [set_Device set_Gain Enabled Device nwrites negb];
    destruct (write_ok hw 2); reflexivity.
Qed.

Lemma NewTSL2591_unanswered (hw : I2C) (gain timing : Z) :
  ~ answers_probe hw ->
  fst (NewTSL2591 hw gain timing) = None
  /\ snd (NewTSL2591 hw gain timing) <> None.
Proof.
  intros Hn. unfold NewTSL2591, ReadReg.
  destruct (open_ok hw) eqn:Ho; cbn [negb]; [|split; [reflexivity|discriminate]].
  cbn [Device nreads].
  destruct (read_reply hw 0) as [bytes|] eqn:Hr;
    [|split; [reflexivity|discriminate]].
  destruct (Z.eqb_spec (nth 0 (firstn 1 (bytes ++ repeat 0 1)) 0) 0x50)
    as [E|E]; cbn [negb]; [|split; [reflexivity|discriminate]].
  exfalso. apply Hn. split; [exact Ho|]. exists bytes. split; [exact Hr|].
  destruct bytes as [|b bytes]; [discriminate E|exact E].
Qed.

(** The start-up probe. [NewTSL2591] returns the nil handle, with an error
    and without a single write, exactly when the bus does not open, the read
    of the device id fails, or the id is not that of a TSL2591; the handle
    is nil if and only if the error is not. Otherwise it has issued one read
    and three writes, first the timing, then the gain together with the
    timing it has stored, then the power-off byte, and each of the three
    fields is what its own write left: the timing and the gain asked for
    when their writes were acknowledged and zero (100 ms, low gain)
    otherwise, and disabled only if the last write was acknowledged. *)
Theorem NewTSL2591_probe (hw : I2C) (gain timing : Z) :
  (fst (NewTSL2591 hw gain timing) = None <-> ~ answers_probe hw)
  /\ (fst (NewTSL2591 hw gain timing) = None
      <-> snd (NewTSL2591 hw gain timing) <> None)
  /\ forall tsl,
      fst (NewTSL2591 hw gain timing) = Some tsl ->
      Timing tsl = (if write_ok hw 0 then timing else 0)
      /\ Gain tsl = (if write_ok hw 1 then gain else 0)
      /\ Enabled tsl = negb (write_ok hw 2)
      /\ nwrites (Device tsl) = 3%nat /\ nreads (Device tsl) = 1%nat
      /\ trace (Device tsl)
         = [OpReadReg device_id_register 1;
            OpWriteReg control_register [Z.lor timing 0];
            OpWriteReg control_register [Z.lor (Timing tsl) gain];
            OpWriteReg enable_register [TSL2591_ENABLE_POWEROFF]].
Proof.
  assert (Hdec : answers_probe hw \/ ~ answers_probe hw).
  { unfold answers_probe. destruct (open_ok hw); [|right; intros [H _]; discriminate H].
    destruct (read_reply hw 0) as [bytes|];
      [|right; intros (_ & b & H & _); discriminate H].
    destruct (Z.eq_dec (nth 0 bytes 0) device_id) as [E|E].
    - left. split; [reflexivity|]. now exists bytes.
    - right. intros (_ & b & H & Hb). injection H as <-. contradiction. }
  assert (Hno : ~ answers_probe hw ->
                fst (NewTSL2591 hw gain timing) = None
                /\ snd (NewTSL2591 hw gain timing) <> None)
    by apply NewTSL2591_unanswered.
  destruct Hdec as [Hyes|Hn].
  - pose proof (NewTSL2591_answered hw gain timing Hyes) as Hrun.
    cbv zeta in Hrun. rewrite Hrun. cbn [fst snd].
    split; [|split].
    + split; [discriminate|contradiction].
    + split; [discriminate|intros H; now elim H].
    + intros tsl [= <-]. cbn [Timing Gain Enabled Device nwrites nreads trace].
      repeat split.
  - destruct (Hno Hn) as [A B]. rewrite A.
    split; [|split].
    + split; [intros _; exact Hn|reflexivity].
    + split; [intros _; exact B|reflexivity].
    + intros tsl H. discriminate H.
Qed.

Lemma NewTSL2591_probe_witness :
  fst (NewTSL2591 healthy_hw TSL2591_GAIN_LOW TSL2591_INTEGRATIONTIME_300MS)
  = Some booted_tsl
  /\ Timing booted_tsl = TSL2591_INTEGRATIONTIME_300MS
  /\ Enabled booted_tsl = false
  /\ trace (Device booted_tsl)
     = [OpReadReg device_id_register 1;
        OpWriteReg control_register [Z.lor TSL2591_INTEGRATIONTIME_300MS 0];
        OpWriteReg control_register [Z.lor (Timing booted_tsl) TSL2591_GAIN_LOW];
        OpWriteReg enable_register [TSL2591_ENABLE_POWEROFF]].
Proof.
  assert (H : fst (NewTSL2591 healthy_hw TSL2591_GAIN_LOW
                     TSL2591_INTEGRATIONTIME_300MS) = Some booted_tsl)
    by (vm_compute; reflexivity).
  destruct (proj2 (proj2 (NewTSL2591_probe healthy_hw TSL2591_GAIN_LOW
                            TSL2591_INTEGRATIONTIME_300MS)) booted_tsl H)
    as (A & _ & C & _ & _ & F).
  exact (conj H (conj A (conj C F))).
Defined.

End ProbeProperties.

(** ** What a calibration does on the bus, and the labels of the settings *)

Section DriverBounds.
Import tsl2591 BusSpec.

Variable hw : I2C.

Lemma writes_app (a b : list BusOp) :
  writes (a ++ b) = (writes a + writes b)%nat.
Proof.
  induction a as [|[reg data|reg len] a IH]; cbn [app writes]; lia.
Qed.

Lemma reads_app (a b : list BusOp) :
  reads (a ++ b) = (reads a + reads b)%nat.
Proof.
  induction a as [|[reg data|reg len] a IH]; cbn [app reads]; lia.
Qed.

Lemma issued_refl (tsl : TSL2591) : issued tsl tsl [].
Proof.
  unfold issued. rewrite app_nil_r. cbn [writes reads forallb].
  repeat split; first [reflexivity | lia].
Qed.

Lemma issued_trans (t1 t2 t3 : TSL2591) (a b : list BusOp) :
  issued t1 t2 a -> issued t2 t3 b -> issued t1 t3 (a ++ b).
Proof.
  intros (E1 & T1 & W1 & R1 & F1) (E2 & T2 & W2 & R2 & F2).
  unfold issued. rewrite writes_app, reads_app, forallb_app, F1, F2.
  rewrite E2, E1, T2, T1, W2, W1, R2, R1, app_assoc.
  repeat split; first [reflexivity | lia].
Qed.

Lemma SetGain_issued (tsl : TSL2591) (g : Z) :
  exists ops, issued tsl (fst (SetGain hw tsl g)) ops
              /\ (writes ops <= 1)%nat /\ reads ops = 0%nat.
Proof.
  unfold SetGain, WriteReg. destruct (Enabled tsl) eqn:E; cbn [negb].
  - exists [OpWriteReg RegisterSpec.control_register [Z.lor (Timing tsl) g]].
    destruct (write_ok hw _); cbn [fst]; unfold issued;
      cbn [Enabled Device set_Gain set_Device trace nwrites nreads writes
           reads];
      (repeat split; try lia; try assumption; try reflexivity).
  - exists []. cbn [fst]. split; [apply issued_refl|].
    cbn [writes reads]. split; lia.
Qed.

Lemma SetTiming_issued (tsl : TSL2591) (t : Z) :
  exists ops, issued tsl (fst (SetTiming hw tsl t)) ops
              /\ (writes ops <= 1)%nat /\ reads ops = 0%nat.
Proof.
  unfold SetTiming, WriteReg. destruct (Enabled tsl) eqn:E; cbn [negb].
  - exists [OpWriteReg RegisterSpec.control_register [Z.lor t (Gain tsl)]].
    destruct (write_ok hw _); cbn [fst]; unfold issued;
      cbn [Enabled Device set_Timing set_Device trace nwrites nreads writes
           reads];
      (repeat split; try lia; try assumption; try reflexivity).
  - exists []. cbn [fst]. split; [apply issued_refl|].
    cbn [writes reads]. split; lia.
Qed.

Lemma GetFullLuminosity_issued (tsl : TSL2591) :
  exists ops, issued tsl (fst (fst (fst (GetFullLuminosity hw tsl)))) ops
              /\ writes ops = 0%nat /\ (reads ops <= 1)%nat.
Proof.
  unfold GetFullLuminosity, ReadReg. destruct (Enabled tsl) eqn:E; cbn [negb].
  - exists [OpReadReg RegisterSpec.channel_register 4].
    destruct (read_reply hw _); cbn [fst]; unfold issued;
      cbn [Enabled Device set_Device trace nwrites nreads writes reads];
      (repeat split; try lia; try assumption; try reflexivity).
  - exists []. cbn [fst]. split; [apply issued_refl|].
    cbn [writes reads]. split; lia.
Qed.

Lemma SetOptimalGain_times_issued (times : list Z) (tsl : TSL2591) :
  exists ops, issued tsl (fst (SetOptimalGain_times hw times tsl)) ops
              /\ (writes ops <= List.length times)%nat
              /\ (reads ops <= List.length times)%nat.
Proof.
  revert tsl. induction times as [|time rest IH]; intros tsl.
  - exists []. cbn [SetOptimalGain_times fst List.length writes reads].
    split; [apply issued_refl|]. split; lia.
  - cbn [SetOptimalGain_times List.length].
    destruct (SetTiming_issued tsl time) as (a & Ia & Wa & Ra).
    destruct (SetTiming hw tsl time) as [tsl1 e1]. cbn [fst] in Ia.
    destruct (GetFullLuminosity_issued tsl1) as (b & Ib & Wb & Rb).
    destruct (GetFullLuminosity hw tsl1) as [[[tsl2 ch0] ch1] err].
    cbn [fst] in Ib.
    destruct (IH tsl2) as (c & Ic & Wc & Rc).
    assert (Hrest :
      exists ops,
        issued tsl (fst (SetOptimalGain_times hw rest tsl2)) ops
        /\ (writes ops <= S (List.length rest))%nat
        /\ (reads ops <= S (List.length rest))%nat).
    { exists ((a ++ b) ++ c).
      split; [exact (issued_trans _ _ _ _ _ (issued_trans _ _ _ _ _ Ia Ib) Ic)|].
      rewrite !writes_app, !reads_app. split; lia. }
    destruct err as [e|]; [exact Hrest|].
    destruct ((ch0 =? 0xFFFF) || (ch1 =? 0xFFFF)); [exact Hrest|].
    destruct (CalculateLux tsl2 ch0 ch1) as [lux [e|]]; [exact Hrest|].
    destruct (lux =? 0)%float; [exact Hrest|].
    cbn [fst]. exists (a ++ b).
    split; [exact (issued_trans _ _ _ _ _ Ia Ib)|].
    rewrite !writes_app, !reads_app. split; lia.
Qed.

Lemma SetOptimalGain_gains_issued (gains : list Z) (tsl : TSL2591) :
  exists ops, issued tsl (fst (SetOptimalGain_gains hw gains tsl)) ops
              /\ (writes ops <= 7 * List.length gains)%nat
              /\ (reads ops <= 6 * List.length gains)%nat.
Proof.
  revert tsl. induction gains as [|gain rest IH]; intros tsl.
  - exists []. cbn [SetOptimalGain_gains fst List.length writes reads].
    split; [apply issued_refl|]. split; lia.
  - cbn [SetOptimalGain_gains List.length].
    destruct (SetGain_issued tsl gain) as (a & Ia & Wa & Ra).
    destruct (SetGain hw tsl gain) as [tsl1 e1]. cbn [fst] in Ia.
    destruct (SetOptimalGain_times_issued integrationOptions tsl1)
      as (b & Ib & Wb & Rb).
    cbn [integrationOptions List.length] in Wb, Rb.
    destruct (SetOptimalGain_times hw integrationOptions tsl1)
      as [tsl2 found].
    cbn [fst] in Ib.
    destruct found.
    + cbn [fst]. exists (a ++ b).
      split; [exact (issued_trans _ _ _ _ _ Ia Ib)|].
      rewrite !writes_app, !reads_app. split; lia.
    + destruct (IH tsl2) as (c & Ic & Wc & Rc).
      exists ((a ++ b) ++ c).
      split; [exact (issued_trans _ _ _ _ _ (issued_trans _ _ _ _ _ Ia Ib) Ic)|].
      rewrite !writes_app, !reads_app. split; lia.
Qed.

Lemma SetOptimalGain_times_off (times : list Z) (tsl : TSL2591) :
  Enabled tsl = false -> SetOptimalGain_times hw times tsl = (tsl, false).
Proof.
  intros E. induction times as [|time rest IH]; [reflexivity|].
  cbn [SetOptimalGain_times]. unfold SetTiming, GetFullLuminosity.
  rewrite E. cbn [negb]. rewrite E. cbn [negb]. exact IH.
Qed.

Lemma SetOptimalGain_gains_off (gains : list Z) (tsl : TSL2591) :
  Enabled tsl = false -> SetOptimalGain_gains hw gains tsl = (tsl, false).
Proof.
  intros E. induction gains as [|gain rest IH]; [reflexivity|].
  cbn [SetOptimalGain_gains]. unfold SetGain at 1.
  rewrite E. cbn [negb]. rewrite (SetOptimalGain_times_off _ _ E). exact IH.
Qed.

(** What [SetOptimalGain] does on the bus, whatever the sensor answers. It
    neither enables nor disables the sensor; it appends to the accesses made
    so far at most 30 writes, each of one byte to the control register, and
    at most 24 reads, each of the four channel bytes, and nothing else. On a
    sensor that is not enabled it makes no access at all, leaves the handle
    as it is, and still reports that all gain options are saturated. *)
Theorem SetOptimalGain_traffic (tsl : TSL2591) :
  (exists ops,
     issued tsl (fst (SetOptimalGain hw tsl)) ops
     /\ (writes ops <= 30)%nat /\ (reads ops <= 24)%nat)
  /\ (Enabled tsl = false ->
      SetOptimalGain hw tsl = (tsl, Some ErrAllGainsSaturated)).
Proof.
  split.
  - unfold SetOptimalGain.
    destruct (SetOptimalGain_gains_issued gainOptions tsl)
      as (a & Ia & Wa & Ra).
    cbn [gainOptions List.length] in Wa, Ra.
    destruct (SetOptimalGain_gains hw gainOptions tsl) as [tsl1 found].
    cbn [fst] in Ia.
    destruct found.
    + cbn [fst]. exists a. split; [exact Ia|]. split; lia.
    + destruct (SetGain_issued tsl1 TSL2591_GAIN_LOW) as (b & Ib & Wb & Rb).
      destruct (SetGain hw tsl1 TSL2591_GAIN_LOW) as [tsl2 e2].
      cbn [fst] in Ib.
      destruct (SetTiming_issued tsl2 TSL2591_INTEGRATIONTIME_600MS)
        as (c & Ic & Wc & Rc).
      destruct (SetTiming hw tsl2 TSL2591_INTEGRATIONTIME_600MS) as [tsl3 e3].
      cbn [fst] in Ic |- *.
      exists ((a ++ b) ++ c).
      split; [exact (issued_trans _ _ _ _ _ (issued_trans _ _ _ _ _ Ia Ib) Ic)|].
      rewrite !writes_app, !reads_app. split; lia.
  - intros E. unfold SetOptimalGain.
    rewrite (SetOptimalGain_gains_off _ _ E).
    unfold SetGain, SetTiming. rewrite E. cbn [negb]. rewrite E.
    reflexivity.
Qed.

End DriverBounds.

Section DriverBoundsExamples.
Import tsl2591 BusSpec Fixtures.

Lemma SetOptimalGain_traffic_witness :
  Enabled disabled_tsl = false
  /\ SetOptimalGain deaf_hw disabled_tsl
     = (disabled_tsl, Some ErrAllGainsSaturated).
Proof.
  exact (conj eq_refl
           (proj2 (SetOptimalGain_traffic deaf_hw disabled_tsl) eq_refl)).
Defined.

End DriverBoundsExamples.

Section Labels.
Import tsl2591.

Lemma IntegrationTimeToString_Unknown (v : Z) :
  5 < v ->
  IntegrationTimeToString v = "Unknown"%string /\ int_time v = 100.0%float.
Proof.
  intros H. unfold IntegrationTimeToString, int_time.
  repeat match goal with
         | |- context [?a =? ?b] =>
             destruct (Z.eqb_spec a b) as [E|_];
             [vm_compute in E; subst v; exfalso; lia|]
         end.
  split; reflexivity.
Qed.

Lemma GainToString_Unknown (v : Z) :
  ~ In v gainOptions ->
  GainToString v = "Unknown"%string /\ adj_gain v = 1.0%float.
Proof.
  intros H. unfold GainToString, adj_gain.
  repeat match goal with
         | |- context [?a =? ?b] =>
             destruct (Z.eqb_spec a b) as [E|_];
             [exfalso; apply H; rewrite E; cbn [gainOptions In]; tauto|]
         end.
  split; reflexivity.
Qed.

(** The labels of the settings and the factors [CalculateLux] computes
    with. For every byte: an integration time among the six constants is
    labelled with the milliseconds [CalculateLux] uses for it, [(v + 1) *
    100]; a gain among the four constants is labelled with a name and the
    multiplier [CalculateLux] uses for it; every other byte is labelled
    "Unknown", and [CalculateLux] computes with it as with 100 ms, or as
    with a gain of 1. *)
Theorem labels_match_CalculateLux (v : Z) :
  is_byte v ->
  (v <= 5 ->
   IntegrationTimeToString v = (strconv.Itoa ((v + 1) * 100) ++ "ms")%string
   /\ int_time v = float64 ((v + 1) * 100))
  /\ (5 < v ->
      IntegrationTimeToString v = "Unknown"%string
      /\ int_time v = 100.0%float)
  /\ (In v gainOptions ->
      exists name multiplier,
        GainToString v
        = (name ++ " gain (" ++ strconv.Itoa multiplier ++ "x)")%string
        /\ adj_gain v = float64 multiplier)
  /\ (~ In v gainOptions ->
      GainToString v = "Unknown"%string /\ adj_gain v = 1.0%float).
Proof.
  intros Hb. split; [|split; [|split]].
  - intros H5. unfold is_byte in Hb.
    assert (Hv : v = 0 \/ v = 1 \/ v = 2 \/ v = 3 \/ v = 4 \/ v = 5) by lia.
    repeat (destruct Hv as [->|Hv]; [split; vm_compute; reflexivity|]).
    subst v. split; vm_compute; reflexivity.
  - apply IntegrationTimeToString_Unknown.
  - cbn [gainOptions In]. intros [<-|[<-|[<-|[<-|[]]]]].
    + exists "Low"%string, 1. split; vm_compute; reflexivity.
    + exists "Medium"%string, 25. split; vm_compute; reflexivity.
    + exists "High"%string, 428. split; vm_compute; reflexivity.
    + exists "Max"%string, 9876. split; vm_compute; reflexivity.
  - apply GainToString_Unknown.
Qed.

Lemma labels_match_CalculateLux_witness :
  is_byte TSL2591_INTEGRATIONTIME_400MS
  /\ TSL2591_INTEGRATIONTIME_400MS <= 5
  /\ IntegrationTimeToString TSL2591_INTEGRATIONTIME_400MS = "400ms"%string
  /\ ~ In 0x40 gainOptions
  /\ GainToString 0x40 = "Unknown"%string.
Proof.
  assert (Hb : is_byte TSL2591_INTEGRATIONTIME_400MS) by (unfold is_byte; vm_compute; intuition discriminate).
  assert (H5 : TSL2591_INTEGRATIONTIME_400MS <= 5) by (vm_compute; discriminate).
  assert (Hb' : is_byte 0x40) by (unfold is_byte; lia).
  assert (Hn : ~ In 0x40 gainOptions)
    by (cbn [gainOptions In]; vm_compute; intuition discriminate).
  destruct (labels_match_CalculateLux _ Hb) as (A & _).
  destruct (labels_match_CalculateLux _ Hb') as (_ & _ & _ & D).
  exact (conj Hb (conj H5 (conj (proj1 (A H5)) (conj Hn (proj1 (D Hn)))))).
Defined.

End Labels.

(** ** Properties of the normalized outputs *)

Section NormalizedOutputProperties.
Import tsl2591 Enumeration Fixtures.

Lemma forall_bits_spec (k : nat) :
  forall (base : Z) (P : Z -> bool),
    forall_bits k base P = true ->
    forall c, base * 2 ^ Z.of_nat k <= c < (base + 1) * 2 ^ Z.of_nat k ->
              P c = true.
Proof.
  induction k as [|k IH]; intros base P H c Hc.
  - cbn [forall_bits] in H. change (2 ^ Z.of_nat 0) with 1 in Hc.
    replace c with base by lia. exact H.
  - cbn [forall_bits] in H. apply andb_true_iff in H as [Hl Hr].
    rewrite Nat2Z.inj_succ, Z.pow_succ_r in Hc by lia.
    assert (Hp : 0 < 2 ^ Z.of_nat k) by (apply Z.pow_pos_nonneg; lia).
    destruct (Z.lt_ge_cases c ((2 * base + 1) * 2 ^ Z.of_nat k)) as [Hlt|Hge].
    + apply (IH (2 * base) P Hl). lia.
    + apply (IH (2 * base + 1) P Hr). lia.
Qed.

Lemma forall_uint16_spec (P : Z -> bool) :
  forall_uint16 P = true -> forall c, is_uint16 c -> P c = true.
Proof.
  intros H c Hc. apply (forall_bits_spec 16 0 P H).
  unfold is_uint16 in Hc. change (2 ^ Z.of_nat 16) with 65536. lia.
Qed.

Lemma SFltb_zero_false (f : spec_float) :
  SFltb f (S754_zero false) = false <-> not_negative f.
Proof.
  destruct f as [s|s| |s m e]; try destruct s; cbn; intuition discriminate.
Qed.

Lemma binary_round_aux_not_negative (m e : Z) (l : location) :
  not_negative (binary_round_aux prec emax false m e l).
Proof.
  unfold binary_round_aux.
  destruct (shr_fexp prec emax m e l) as [mrs' e'].
  destruct (shr_fexp prec emax _ e' loc_Exact) as [mrs'' e''].
  destruct (shr_m mrs''); cbn; auto.
  destruct (_ <=? _); cbn; auto.
Qed.

(** A float that is not negative stays so when divided by 65535. *)
Lemma div_65535_not_negative (v : float) :
  (v <? 0)%float = false -> (v / 65535.0 <? 0)%float = false.
Proof.
  rewrite !FloatAxioms.ltb_spec, FloatAxioms.div_spec.
  change (Prim2SF 0) with (S754_zero false).
  rewrite !SFltb_zero_false.
  set (d := Prim2SF 65535.0).
  assert (Hd : d = S754_finite false 9007061815787520 (-37))
    by (vm_compute; reflexivity).
  rewrite Hd. unfold SF64div, SFdiv.
  destruct (Prim2SF v) as [s|s| |s m e]; cbn [not_negative xorb];
    try destruct s; cbn [xorb]; try tauto.
  intros _. destruct (SFdiv_core_binary _ _ _ _ _ _) as [[mz ez] lz].
  apply binary_round_aux_not_negative.
Qed.

(** The normalized outputs. Whatever the counts, the visible output is never
    below zero: a difference below zero is replaced by zero. Over all
    sixteen-bit counts the full-spectrum output depends on channel 0 alone
    and the infrared output on channel 1 alone; both lie between 0 and 1,
    and multiplied by 65535 they give back the count exactly, so that
    distinct counts have distinct outputs; the visible output is zero when
    the channels are equal or channel 0 is zero, and it is the full-spectrum
    output when channel 1 is zero. A spectrum type that is none of the three
    gives zero. *)
Theorem GetNormalizedOutput_normalized (ch0 ch1 : Z) :
  (GetNormalizedOutput TSL2591_VISIBLE ch0 ch1 <? 0)%float = false
  /\ (is_uint16 ch0 ->
      let full := GetNormalizedOutput TSL2591_FULLSPECTRUM ch0 ch1 in
      (0 <=? full)%float = true /\ (full <=? 1)%float = true
      /\ (full * 65535 =? float64 ch0)%float = true
      /\ (GetNormalizedOutput TSL2591_VISIBLE ch0 ch0 =? 0)%float = true
      /\ (GetNormalizedOutput TSL2591_VISIBLE ch0 0 =? full)%float = true)
  /\ (is_uint16 ch1 ->
      let infrared := GetNormalizedOutput TSL2591_INFRARED ch0 ch1 in
      (0 <=? infrared)%float = true /\ (infrared <=? 1)%float = true
      /\ (infrared * 65535 =? float64 ch1)%float = true
      /\ (GetNormalizedOutput TSL2591_VISIBLE 0 ch1 =? 0)%float = true)
  /\ (forall spectrumType,
         ~ In spectrumType
             [TSL2591_VISIBLE; TSL2591_INFRARED; TSL2591_FULLSPECTRUM] ->
         GetNormalizedOutput spectrumType ch0 ch1 = 0%float).
Proof.
  split; [|split; [|split]].
  - unfold GetNormalizedOutput. cbn [Z.eqb TSL2591_VISIBLE Pos.eqb].
    destruct (float64 ch0 - float64 ch1 <? 0)%float eqn:Hneg.
    + vm_compute. reflexivity.
    + now apply div_65535_not_negative.
  - intros H0. cbv zeta.
    change (GetNormalizedOutput TSL2591_FULLSPECTRUM ch0 ch1)
      with (float64 ch0 / 65535.0)%float.
    pose proof (forall_uint16_spec
      (fun c => (0 <=? float64 c / 65535.0)%float
                && (float64 c / 65535.0 <=? 1)%float
                && (float64 c / 65535.0 * 65535 =? float64 c)%float
                && (GetNormalizedOutput TSL2591_VISIBLE c c =? 0)%float
                && (GetNormalizedOutput TSL2591_VISIBLE c 0
                    =? float64 c / 65535.0)%float)
      ltac:(vm_compute; reflexivity) ch0 H0) as H.
    cbv beta in H. repeat (apply andb_true_iff in H as [H ?]). auto.
  - intros H1. cbv zeta.
    change (GetNormalizedOutput TSL2591_INFRARED ch0 ch1)
      with (float64 ch1 / 65535.0)%float.
    pose proof (forall_uint16_spec
      (fun c => (0 <=? float64 c / 65535.0)%float
                && (float64 c / 65535.0 <=? 1)%float
                && (float64 c / 65535.0 * 65535 =? float64 c)%float
                && (GetNormalizedOutput TSL2591_VISIBLE 0 c =? 0)%float)
      ltac:(vm_compute; reflexivity) ch1 H1) as H.
    cbv beta in H. repeat (apply andb_true_iff in H as [H ?]). auto.
  - intros st Hst. unfold GetNormalizedOutput.
    repeat match goal with
           | |- (if ?t =? ?c then _ else _) = _ =>
               destruct (Z.eqb_spec t c) as [E|_];
               [exfalso; apply Hst; rewrite E; simpl; tauto|]
           end.
    reflexivity.
Qed.

Lemma GetNormalizedOutput_normalized_witness :
  is_uint16 10000 /\ is_uint16 2000
  /\ (GetNormalizedOutput TSL2591_FULLSPECTRUM 10000 2000 * 65535
      =? float64 10000)%float = true
  /\ (GetNormalizedOutput TSL2591_INFRARED 10000 2000 * 65535
      =? float64 2000)%float = true
  /\ GetNormalizedOutput 3 10000 2000 = 0%float.
Proof.
  assert (H0 : is_uint16 10000) by (unfold is_uint16; lia).
  assert (H1 : is_uint16 2000) by (unfold is_uint16; lia).
  assert (H3 : ~ In 3 [TSL2591_VISIBLE; TSL2591_INFRARED; TSL2591_FULLSPECTRUM]).
  { simpl. intros H. repeat (destruct H as [H|H]; [discriminate H|]). exact H. }
  destruct (GetNormalizedOutput_normalized 10000 2000) as (_ & A & B & C).
  exact (conj H0 (conj H1
           (conj (proj1 (proj2 (proj2 (A H0))))
              (conj (proj1 (proj2 (proj2 (B H1)))) (C 3 H3))))).
Defined.

End NormalizedOutputProperties.

(** ** Properties of the float formats *)

Section FormatProperties.
Import strconv.

Lemma is_digit_digit (d : Z) : 0 <= d < 10 -> is_digit (digit d) = true.
Proof.
  intros H. unfold is_digit, digit.
  rewrite nat_ascii_embedding by lia.
  apply andb_true_iff. split; apply Nat.leb_le; lia.
Qed.

Lemma is_digit_mod10 (n : Z) : is_digit (digit (n mod 10)) = true.
Proof. apply is_digit_digit. apply Z.mod_pos_bound. lia. Qed.

Lemma fixed_digits_length (p : nat) : forall n, List.length (fixed_digits p n) = p.
Proof.
  induction p as [|p IH]; intros n; [reflexivity|].
  cbn [fixed_digits]. rewrite length_app, IH. cbn. lia.
Qed.

Lemma fixed_digits_digits (p : nat) :
  forall n, forallb is_digit (fixed_digits p n) = true.
Proof.
  induction p as [|p IH]; intros n; [reflexivity|].
  cbn [fixed_digits]. rewrite forallb_app, IH. cbn [forallb andb].
  now rewrite is_digit_mod10.
Qed.

Lemma all_digits_digits (fuel : nat) :
  forall n acc, forallb is_digit acc = true ->
                forallb is_digit (all_digits fuel n acc) = true.
Proof.
  induction fuel as [|fuel IH]; intros n acc Hacc; cbn [all_digits].
  - cbn [forallb]. now rewrite is_digit_mod10.
  - destruct (n / 10 =? 0).
    + cbn [forallb]. now rewrite is_digit_mod10.
    + apply IH. cbn [forallb]. now rewrite is_digit_mod10.
Qed.

Lemma all_digits_nonempty (fuel : nat) :
  forall n acc, all_digits fuel n acc <> [].
Proof.
  induction fuel as [|fuel IH]; intros n acc; cbn [all_digits].
  - discriminate.
  - destruct (n / 10 =? 0); [discriminate|apply IH].
Qed.

Lemma itoa_digits (n : Z) : forallb is_digit (itoa n) = true.
Proof. apply all_digits_digits. reflexivity. Qed.

Lemma itoa_nonempty (n : Z) : itoa n <> [].
Proof. apply all_digits_nonempty. Qed.

Lemma pow2_le_pow10 (k : Z) : 0 <= k -> 2 ^ k <= 10 ^ k.
Proof. intros H. apply Z.pow_le_mono_l. lia. Qed.

Lemma digit_value_digit (d : Z) : 0 <= d < 10 -> digit_value (digit d) = d.
Proof.
  intros H. unfold digit_value, digit.
  rewrite nat_ascii_embedding by lia. lia.
Qed.

Lemma number_app (a b : list ascii) :
  number (a ++ b) = number a * 10 ^ Z.of_nat (List.length b) + number b.
Proof.
  induction a as [|c a IH]; [reflexivity|].
  cbn [app number]. rewrite IH, length_app, Nat2Z.inj_add.
  rewrite Z.pow_add_r by lia. ring.
Qed.

(** [fixed_digits p n] writes [n mod 10 ^ p]. *)
Lemma fixed_digits_number (p : nat) :
  forall n, number (fixed_digits p n) = n mod 10 ^ Z.of_nat p.
Proof.
  induction p as [|p IH]; intros n.
  - cbn. now rewrite Z.mod_1_r.
  - cbn [fixed_digits]. rewrite number_app, IH.
    cbn [number List.length]. rewrite digit_value_digit
      by (apply Z.mod_pos_bound; lia).
    change (Z.of_nat 0) with 0. change (Z.of_nat 1) with 1.
    rewrite Z.pow_0_r, Z.pow_1_r.
    rewrite Nat2Z.inj_succ, Z.pow_succ_r by lia.
    assert (Hp : 0 < 10 ^ Z.of_nat p) by (apply Z.pow_pos_nonneg; lia).
    rewrite Z.rem_mul_r by lia.
    ring.
Qed.

Lemma all_digits_number (fuel : nat) :
  forall n acc,
    0 <= n < 10 ^ Z.of_nat (S fuel) ->
    number (all_digits fuel n acc)
    = n * 10 ^ Z.of_nat (List.length acc) + number acc.
Proof.
  induction fuel as [|fuel IH]; intros n acc Hn; cbn [all_digits].
  - change (10 ^ Z.of_nat 1) with 10 in Hn.
    cbn [number]. rewrite Z.mod_small, digit_value_digit by lia. reflexivity.
  - rewrite Nat2Z.inj_succ, Z.pow_succ_r in Hn by lia.
    destruct (Z.eqb_spec (n / 10) 0) as [Hz|Hnz].
    + assert (n < 10) by (apply Z.div_small_iff in Hz; lia).
      cbn [number]. rewrite Z.mod_small, digit_value_digit by lia. reflexivity.
    + rewrite IH.
      * cbn [number List.length].
        rewrite digit_value_digit by (apply Z.mod_pos_bound; lia).
        rewrite Nat2Z.inj_succ, Z.pow_succ_r by lia.
        rewrite (Z.div_mod n 10) at 3 by lia. ring.
      * split; [apply Z.div_pos; lia|].
        apply Z.div_lt_upper_bound; lia.
Qed.

(** [itoa] writes its argument: the fuel is enough. *)
Lemma itoa_number (n : Z) : 0 <= n -> number (itoa n) = n.
Proof.
  intros Hn. unfold itoa. rewrite all_digits_number.
  - cbn [List.length number]. change (Z.of_nat 0) with 0.
    rewrite Z.pow_0_r. ring.
  - split; [exact Hn|].
    destruct (Z.eq_dec n 0) as [->|Hz].
    + reflexivity.
    + rewrite Nat2Z.inj_succ, Z2Nat.id by apply Z.log2_nonneg.
      pose proof (Z.log2_spec n ltac:(lia)) as [_ H].
      pose proof (pow2_le_pow10 (Z.succ (Z.log2 n))
                    ltac:(pose proof (Z.log2_nonneg n); lia)).
      lia.
Qed.

Lemma span_digits_app (ds rest : list ascii) :
  forallb is_digit ds = true ->
  match rest with [] => True | c :: _ => is_digit c = false end ->
  span_digits (ds ++ rest) = (ds, rest).
Proof.
  intros Hds Hrest. induction ds as [|d ds IH]; cbn [app span_digits].
  - destruct rest as [|c r]; [reflexivity|]. cbn [span_digits]. now rewrite Hrest.
  - cbn [forallb] in Hds. apply andb_true_iff in Hds as [Hd Hds].
    rewrite Hd, (IH Hds). reflexivity.
Qed.

Lemma round_half_even_bounds (x d a b : Z) :
  0 < d -> a * d <= x < b * d ->
  a <= round_half_even x d <= b.
Proof.
  intros Hd [Ha Hb]. unfold round_half_even.
  assert (Hq : a <= x / d < b).
  { split.
    - apply Z.div_le_lower_bound; lia.
    - apply Z.div_lt_upper_bound; lia. }
  destruct (2 * (x mod d) ?= d); [destruct (Z.even (x / d))| |]; lia.
Qed.

Section Exponent.

Variables num den : Z.
Hypothesis num_pos : 0 < num.
Hypothesis den_pos : 0 < den.

Lemma shift_pos : 0 < shift den.
Proof. unfold shift. pose proof (Z.log2_nonneg den). lia. Qed.

Lemma den_lt_pow10_shift : den < 10 ^ shift den.
Proof.
  pose proof (Z.log2_spec den den_pos) as [_ H].
  unfold shift. fold (Z.succ (Z.log2 den)).
  pose proof (pow2_le_pow10 (Z.succ (Z.log2 den))).
  pose proof (Z.log2_nonneg den). lia.
Qed.

Lemma pow10_le_start : pow10_le num den (- shift den) = true.
Proof.
  unfold pow10_le. apply Z.leb_le.
  replace (- shift den + shift den) with 0 by lia.
  pose proof den_lt_pow10_shift as H.
  rewrite Z.pow_0_r.
  assert (1 * 10 ^ shift den <= num * 10 ^ shift den)
    by (apply Z.mul_le_mono_nonneg_r; lia).
  lia.
Qed.

Lemma pow10_le_above (k : Z) :
  Z.log2 num < k -> pow10_le num den k = false.
Proof.
  intros Hk. unfold pow10_le. apply Z.leb_gt.
  pose proof shift_pos as Hs.
  pose proof (Z.log2_nonneg num) as Hl.
  rewrite Z.pow_add_r by lia.
  assert (Hn : num < 10 ^ k).
  { pose proof (Z.log2_spec num num_pos) as [_ H].
    pose proof (pow2_le_pow10 k).
    assert (2 ^ Z.succ (Z.log2 num) <= 2 ^ k)
      by (apply Z.pow_le_mono_r; lia).
    lia. }
  assert (Hp : 0 < 10 ^ shift den) by (apply Z.pow_pos_nonneg; lia).
  assert (H1 : num * 10 ^ shift den < 10 ^ k * 10 ^ shift den)
    by (apply Z.mul_lt_mono_pos_r; lia).
  assert (H2 : 1 * (10 ^ k * 10 ^ shift den) <= den * (10 ^ k * 10 ^ shift den))
    by (apply Z.mul_le_mono_nonneg_r; lia).
  lia.
Qed.

Lemma exponent_from_spec (fuel : nat) :
  forall k,
    pow10_le num den k = true ->
    Z.log2 num < k + Z.of_nat fuel ->
    let k' := exponent_from fuel num den k in
    k <= k' /\ pow10_le num den k' = true /\ pow10_le num den (k' + 1) = false.
Proof.
  induction fuel as [|fuel IH]; intros k Hk Hfuel; cbn [exponent_from].
  - rewrite pow10_le_above in Hk by lia. discriminate.
  - destruct (pow10_le num den (k + 1)) eqn:Hnext.
    + destruct (IH (k + 1) Hnext) as (A & B & C); [lia|].
      cbv zeta. repeat split; try assumption. lia.
    + cbv zeta. repeat split; try assumption. lia.
Qed.

Lemma exponent10_spec :
  let k := exponent10 num den in
  - shift den <= k
  /\ pow10_le num den k = true /\ pow10_le num den (k + 1) = false.
Proof.
  unfold exponent10. apply exponent_from_spec.
  - apply pow10_le_start.
  - pose proof (Z.log2_nonneg num). pose proof shift_pos. lia.
Qed.

Lemma mantissa_bounds (p : nat) :
  let k := exponent10 num den in
  10 ^ Z.of_nat p <= mantissa p num den k <= 10 ^ Z.of_nat (S p).
Proof.
  destruct exponent10_spec as (Hk & Hle & Hgt).
  cbv zeta. set (k := exponent10 num den) in *.
  unfold mantissa. unfold pow10_le in Hle, Hgt.
  apply Z.leb_le in Hle. apply Z.leb_gt in Hgt.
  pose proof shift_pos as Hs.
  replace (k + 1 + shift den) with (Z.succ (k + shift den)) in Hgt by lia.
  rewrite Z.pow_succ_r in Hgt by lia.
  rewrite Z.pow_add_r by lia.
  rewrite Nat2Z.inj_succ, Z.pow_succ_r by lia.
  assert (0 < 10 ^ (k + shift den)) by (apply Z.pow_pos_nonneg; lia).
  assert (0 < 10 ^ shift den) by (apply Z.pow_pos_nonneg; lia).
  assert (0 < 10 ^ Z.of_nat p) by (apply Z.pow_pos_nonneg; lia).
  apply round_half_even_bounds; nia.
Qed.

End Exponent.

Lemma fraction_pos (m : positive) (e : Z) :
  0 < fst (fraction m e) /\ 0 < snd (fraction m e).
Proof.
  unfold fraction. destruct (Z.leb_spec 0 e); cbn [fst snd].
  - split; [|lia]. assert (0 < 2 ^ e) by (apply Z.pow_pos_nonneg; lia). lia.
  - split; [lia|]. apply Z.pow_pos_nonneg; lia.
Qed.

Lemma drop_minus_digit (c : ascii) (r : list ascii) :
  is_digit c = true -> drop_minus (c :: r) = c :: r.
Proof.
  intros H. unfold drop_minus.
  destruct (ascii_dec c "-"%char) as [->|Hc]; [discriminate H|].
  destruct c as [[] [] [] [] [] [] [] []]; try reflexivity.
  now elim Hc.
Qed.

Lemma drop_minus_sign (neg : bool) (c : ascii) (r : list ascii) :
  is_digit c = true -> drop_minus (sign_chars neg ++ c :: r) = c :: r.
Proof.
  intros H. destruct neg; [reflexivity|]. now apply drop_minus_digit.
Qed.

Lemma all_digits_length (fuel : nat) :
  forall n acc, (S (List.length acc) <= List.length (all_digits fuel n acc))%nat.
Proof.
  induction fuel as [|fuel IH]; intros n acc; cbn [all_digits].
  - cbn [List.length]. lia.
  - destruct (n / 10 =? 0); [cbn [List.length]; lia|].
    specialize (IH (n / 10) (digit (n mod 10) :: acc)).
    cbn [List.length] in IH. lia.
Qed.

Lemma itoa_two_digits (n : Z) : 10 <= n -> (2 <= List.length (itoa n))%nat.
Proof.
  intros H. unfold itoa.
  assert (Hl : 3 <= Z.log2 n).
  { apply Z.log2_le_pow2; [lia|]. change (2 ^ 3) with 8. lia. }
  destruct (Z.to_nat (Z.log2 n)) as [|fuel] eqn:Hf; [lia|].
  cbn [all_digits].
  assert (Hd : n / 10 <> 0).
  { assert (1 <= n / 10) by (apply Z.div_le_lower_bound; lia). lia. }
  apply Z.eqb_neq in Hd. rewrite Hd.
  pose proof (all_digits_length fuel (n / 10) [digit (n mod 10)]) as Hlen.
  cbn [List.length] in Hlen. exact Hlen.
Qed.

Lemma exponent_chars_shape (k : Z) :
  exists sg ex,
    exponent_chars k = sg :: ex
    /\ ((sg =? "+")%char || (sg =? "-")%char)%bool = true
    /\ (2 <=? List.length ex)%nat = true
    /\ forallb is_digit ex = true.
Proof.
  unfold exponent_chars.
  exists (if k <? 0 then "-"%char else "+"%char).
  eexists. split; [reflexivity|]. split; [destruct (k <? 0); reflexivity|].
  destruct (Z.ltb_spec (Z.abs k) 10) as [Hs|Hb].
  - split.
    + apply Nat.leb_le. cbn [app List.length].
      pose proof (all_digits_length (Z.to_nat (Z.log2 (Z.abs k))) (Z.abs k) []).
      unfold itoa. cbn [List.length] in H. lia.
    + cbn [app forallb]. rewrite itoa_digits. reflexivity.
  - split.
    + apply Nat.leb_le. cbn [app]. now apply itoa_two_digits.
    + cbn [app]. apply itoa_digits.
Qed.

Lemma is_scientific_chars (neg : bool) (d0 : ascii) (frac tail : list ascii) :
  is_digit d0 = true ->
  forallb is_digit frac = true ->
  (exists sg ex,
      tail = sg :: ex
      /\ ((sg =? "+")%char || (sg =? "-")%char)%bool = true
      /\ (2 <=? List.length ex)%nat = true
      /\ forallb is_digit ex = true) ->
  is_scientific (S (List.length frac))
    (string_of_list_ascii
       (sign_chars neg ++ d0 :: "."%char :: frac ++ "e"%char :: tail)) = true.
Proof.
  intros Hd Hf (sg & ex & -> & Hsg & Hlen & Hex).
  unfold is_scientific.
  rewrite list_ascii_of_string_of_list_ascii, (drop_minus_sign _ _ _ Hd).
  rewrite (span_digits_app frac ("e"%char :: sg :: ex) Hf) by reflexivity.
  rewrite Hd, Nat.eqb_refl, Hsg, Hlen, Hex. reflexivity.
Qed.

Lemma is_fixed_point_chars (neg : bool) (int frac : list ascii) :
  int <> [] ->
  forallb is_digit int = true ->
  forallb is_digit frac = true ->
  is_fixed_point (List.length frac)
    (string_of_list_ascii (sign_chars neg ++ int ++ "."%char :: frac)) = true.
Proof.
  intros Hne Hi Hf. unfold is_fixed_point.
  rewrite list_ascii_of_string_of_list_ascii.
  destruct int as [|c int]; [contradiction|].
  cbn [forallb] in Hi. apply andb_true_iff in Hi as [Hc Hi].
  cbn [app]. rewrite (drop_minus_sign _ _ _ Hc).
  change (c :: int ++ "."%char :: frac) with ((c :: int) ++ "."%char :: frac).
  rewrite (span_digits_app (c :: int) ("."%char :: frac)); [|cbn; now rewrite Hc|reflexivity].
  rewrite Nat.eqb_refl, Hf. reflexivity.
Qed.

(** The number of significant digits of a scientific string is determined
    by the string. *)
Lemma is_scientific_unique (n m : nat) (s : string) :
  is_scientific n s = true -> is_scientific m s = true -> n = m.
Proof.
  unfold is_scientific.
  destruct (drop_minus (list_ascii_of_string s)) as [|d0 [|c r]];
    try discriminate.
  destruct (ascii_dec c "."%char) as [->|Hc].
  - destruct (span_digits r) as [f rest].
    intros Hn Hm.
    apply andb_true_iff in Hn as [Hn _]. apply andb_true_iff in Hn as [_ Hn].
    apply andb_true_iff in Hm as [Hm _]. apply andb_true_iff in Hm as [_ Hm].
    apply Nat.eqb_eq in Hn, Hm. congruence.
  - destruct c as [[] [] [] [] [] [] [] []]; try discriminate.
    now elim Hc.
Qed.

(** [%.pe] of a finite value, for [p >= 1]: one digit, a point, [p] digits
    and an exponent, that is [p + 1] significant digits. *)
Lemma FormatFloat_e_scientific (p : nat) (x : float) :
  is_finite x = true ->
  is_scientific (S (S p)) (FormatFloat_e (S p) x) = true.
Proof.
  unfold is_finite, FormatFloat_e.
  destruct (Prim2SF x) as [neg| | |neg m e]; try discriminate; intros _.
  - rewrite <- (fixed_digits_length (S p) 0) at 1.
    apply is_scientific_chars.
    + reflexivity.
    + apply fixed_digits_digits.
    + apply exponent_chars_shape.
  - destruct (fraction_pos m e) as [Hn Hd].
    destruct (fraction m e) as [num den]. cbn [fst snd] in Hn, Hd.
    unfold fmtE.
    pose proof (mantissa_bounds num den Hn Hd (S p)) as Hb. cbv zeta in Hb.
    set (k := exponent10 num den) in *.
    set (n := mantissa (S p) num den k) in *.
    set (P := 10 ^ Z.of_nat (S p)) in *.
    assert (HP : 0 < P) by (apply Z.pow_pos_nonneg; lia).
    assert (HP' : 10 ^ Z.of_nat (S (S p)) = 10 * P).
    { unfold P. rewrite (Nat2Z.inj_succ (S p)), Z.pow_succ_r by lia.
      reflexivity. }
    rewrite HP' in *.
    destruct (Z.eqb_spec n (10 * P)) as [Heq|Hne].
    + rewrite <- (fixed_digits_length (S p) P) at 1.
      apply is_scientific_chars.
      * rewrite Z.div_same by lia. reflexivity.
      * apply fixed_digits_digits.
      * apply exponent_chars_shape.
    + rewrite <- (fixed_digits_length (S p) n) at 1.
      apply is_scientific_chars.
      * apply is_digit_digit. split.
        -- apply Z.div_pos; lia.
        -- apply Z.div_lt_upper_bound; lia.
      * apply fixed_digits_digits.
      * apply exponent_chars_shape.
Qed.

(** [%.pf] of a finite value, for [p >= 1]: exactly [p] digits after the
    point. *)
Lemma FormatFloat_f_fixed_point (p : nat) (x : float) :
  is_finite x = true ->
  is_fixed_point (S p) (FormatFloat_f (S p) x) = true.
Proof.
  unfold is_finite, FormatFloat_f.
  destruct (Prim2SF x) as [neg| | |neg m e]; try discriminate; intros _.
  - rewrite <- (fixed_digits_length (S p) 0) at 1.
    apply (is_fixed_point_chars neg ["0"%char]).
    + discriminate.
    + reflexivity.
    + apply fixed_digits_digits.
  - destruct (fraction m e) as [num den].
    unfold fmtF.
    set (n := round_half_even _ _).
    rewrite <- (fixed_digits_length (S p) n) at 1.
    apply is_fixed_point_chars.
    + apply itoa_nonempty.
    + apply itoa_digits.
    + apply fixed_digits_digits.
Qed.

Lemma round_half_even_nonneg (x d : Z) :
  0 <= x -> 0 < d -> 0 <= round_half_even x d.
Proof.
  intros Hx Hd. unfold round_half_even.
  assert (0 <= x / d) by (apply Z.div_pos; lia).
  destruct (2 * (x mod d) ?= d); [destruct (Z.even (x / d))| |]; lia.
Qed.

(** The digits [%.pf] writes denote the value scaled by [10 ^ p] and rounded
    to the nearest integer, ties to even. *)
Lemma fmtF_number (p : nat) (num den : Z) :
  0 < num -> 0 < den ->
  exists int frac : list ascii,
    fmtF (S p) false num den = int ++ "."%char :: frac
    /\ List.length frac = S p
    /\ number int * 10 ^ Z.of_nat (S p) + number frac
       = round_half_even (num * 10 ^ Z.of_nat (S p)) den.
Proof.
  intros Hn Hd. unfold fmtF.
  set (P := 10 ^ Z.of_nat (S p)).
  assert (HP : 0 < P) by (apply Z.pow_pos_nonneg; lia).
  set (n := round_half_even (num * P) den).
  assert (H0 : 0 <= n) by (apply round_half_even_nonneg; nia).
  exists (itoa (n / P)), (fixed_digits (S p) n).
  split; [reflexivity|]. split; [apply fixed_digits_length|].
  rewrite itoa_number by (apply Z.div_pos; lia).
  rewrite fixed_digits_number. fold P.
  rewrite (Z.div_mod n P) at 3 by lia. ring.
Qed.

(** The digits [%.pe] writes denote an integer [n] with
    [10 ^ p <= n < 10 ^ (p + 1)]: the first of them is not zero. *)
Lemma fmtE_number (p : nat) (num den : Z) :
  0 < num -> 0 < den ->
  exists (d0 : Z) (frac tail : list ascii),
    fmtE (S p) false num den
    = digit d0 :: "."%char :: frac ++ "e"%char :: tail
    /\ 1 <= d0 <= 9
    /\ List.length frac = S p
    /\ 10 ^ Z.of_nat (S p) <= d0 * 10 ^ Z.of_nat (S p) + number frac
       < 10 ^ Z.of_nat (S (S p)).
Proof.
  intros Hn Hd. unfold fmtE.
  pose proof (mantissa_bounds num den Hn Hd (S p)) as Hb. cbv zeta in Hb.
  set (k := exponent10 num den) in *.
  set (n := mantissa (S p) num den k) in *.
  set (P := 10 ^ Z.of_nat (S p)) in *.
  assert (HP : 0 < P) by (apply Z.pow_pos_nonneg; lia).
  assert (HP' : 10 ^ Z.of_nat (S (S p)) = 10 * P).
  { unfold P. rewrite (Nat2Z.inj_succ (S p)), Z.pow_succ_r by lia.
    reflexivity. }
  rewrite HP' in *.
  assert (Hcase : forall n', P <= n' < 10 * P ->
            1 <= n' / P <= 9
            /\ P <= n' / P * P + number (fixed_digits (S p) n') < 10 * P).
  { intros n' Hn'. rewrite fixed_digits_number. fold P.
    split.
    - split; [apply Z.div_le_lower_bound; lia|].
      assert (n' / P < 10) by (apply Z.div_lt_upper_bound; lia). lia.
    - rewrite (Z.mul_comm (n' / P)), <- Z.div_mod by lia. exact Hn'. }
  destruct (Z.eqb_spec n (10 * P)) as [Heq|Hne].
  - exists (P / P), (fixed_digits (S p) P). eexists.
    split; [reflexivity|]. destruct (Hcase P ltac:(lia)) as [A B].
    split; [exact A|]. split; [apply fixed_digits_length|exact B].
  - exists (n / P), (fixed_digits (S p) n). eexists.
    split; [reflexivity|]. destruct (Hcase n ltac:(lia)) as [A B].
    split; [exact A|]. split; [apply fixed_digits_length|exact B].
Qed.

End FormatProperties.

(** ** Properties of the recorder *)

Section RecorderProperties.
Import strconv sunlightmeter ServiceSpec Fixtures.

Lemma record_accepted (env : Env) (db : DB) (result : LuxResults) :
  accepted result = true ->
  record env db result =
  fst (Exec_insert env db
         {| job_id := JobID result;
            lux := FormatFloat_f 5 (Lux result);
            full_spectrum := FormatFloat_e 5 (FullSpectrum result);
            visible := FormatFloat_e 5 (Visible result);
            infrared := FormatFloat_e 5 (Infrared result) |}).
Proof.
  unfold accepted, record. intros H. apply negb_true_iff in H.
  now rewrite H.
Qed.

(** C3, at the failing input. The recorder's guard is [math.IsInf(lux, 1)]:
    it drops positive infinity only. The reading [ch0 = ch1 = 0] of a
    sensor in the dark has lux [0 * (1 - 0/0) / cpl], a NaN; the sampling
    loop sends it and the recorder inserts it with the lux "NaN". A
    negative infinity is inserted as well. *)
Theorem Recorder_persists_NaN :
  let env := env_of dark_hw in
  let dark_row := {| job_id := "job-0"; lux := "NaN";
                     full_spectrum := "0.00000e+00";
                     visible := "0.00000e+00";
                     infrared := "0.00000e+00" |} in
  (forall tsl, fst (tsl2591.CalculateLux tsl 0 0) = nan)
  /\ math.IsNaN (Lux dark_result) = true
  /\ is_finite (Lux dark_result) = false
  /\ record env empty_db dark_result = {| rows := [dark_row]; nexec := 1 |}
  /\ rows (ResultsDB (m (fst (run env (main env)
                                [GetStart; Run 0; Run 0; Receive 0]%nat))))
     = [dark_row]
  /\ map lux (rows (record env empty_db
                      {| Lux := neg_infinity; Infrared := 0; Visible := 0;
                         FullSpectrum := 0; JobID := "job-0" |}))
     = ["-Inf"%string]
  /\ record env empty_db
       {| Lux := infinity; Infrared := 0; Visible := 0;
          FullSpectrum := 0; JobID := "job-0" |}
     = empty_db.
Proof.
  cbv zeta.
  split; [intros tsl; now rewrite CalculateLux_dark_reading|].
  repeat split; vm_compute; reflexivity.
Qed.

(** C9, as stated, asks for five significant digits. The format is [%.5e]:
    five digits after the point, six significant digits. The reading of the
    specification's example is stored with the full spectrum "1.52590e-01".
    And a row is stored only if the database executes the statement. *)
Lemma Recorder_row_is_not_five_significant_digits :
  accepted example_result = true
  /\ rows (record (env_of healthy_hw) empty_db example_result)
     = [{| job_id := "job-0"; lux := "8704.00000";
           full_spectrum := "1.52590e-01";
           visible := "1.22072e-01";
           infrared := "3.05180e-02" |}]
  /\ is_scientific 5 "1.52590e-01" = false
  /\ is_scientific 6 "1.52590e-01" = true
  /\ ~ persisted_as_one_row 5 (env_of healthy_hw) empty_db example_result
  /\ rows (record (env_db_down healthy_hw) empty_db example_result) = []
  /\ ~ persisted_as_one_row 6 (env_db_down healthy_hw) empty_db example_result.
Proof.
  split; [vm_compute; reflexivity|].
  split; [vm_compute; reflexivity|].
  split; [vm_compute; reflexivity|].
  split; [vm_compute; reflexivity|].
  split; [|split; [vm_compute; reflexivity|]].
  - intros (row & Hrows & _ & _ & _ & Hfs & _ & _ & _ & Hsci & _).
    rewrite Hfs in Hsci. vm_compute in Hsci. discriminate Hsci.
  - intros (row & Hrows & _). vm_compute in Hrows. discriminate Hrows.
Qed.

(** [math.IsNaN] holds of the NaN and of nothing else. *)
Lemma IsNaN_spec (x : float) :
  math.IsNaN x = true <-> Prim2SF x = S754_nan.
Proof.
  unfold math.IsNaN. rewrite FloatAxioms.eqb_spec.
  destruct (Prim2SF x) as [s|s| |s m e].
  - destruct s; split; discriminate.
  - destruct s; split; discriminate.
  - split; reflexivity.
  - unfold SFeqb, SFcompare.
    rewrite Z.compare_refl, Pos.compare_cont_refl.
    destruct s; split; discriminate.
Qed.

Lemma six_digits_not_five (s : string) :
  is_scientific 6 s = true -> is_scientific 5 s = false.
Proof.
  intros H6. destruct (is_scientific 5 s) eqn:H5; [|reflexivity].
  pose proof (is_scientific_unique _ _ _ H5 H6). discriminate.
Qed.

(** C9, as amended. Every sample the guard accepts makes the recorder
    execute exactly one INSERT, whatever its values and whether the
    database executes the statement or not. When the database executes it,
    exactly one row is appended, carrying the job id, the lux rendered by
    [%.5f] and the full spectrum, visible and infrared values rendered by
    [%.5e]; when the database refuses it, no row is stored. A finite lux is
    rendered as a decimal string with exactly five fractional digits; a
    NaN, which the guard accepts, as "NaN", and a negative infinity as
    "-Inf". Each of the three other values, when finite, is rendered as a
    scientific string with five fractional digits in the mantissa, that is
    six significant digits, and not five. *)
Theorem Recorder_persists_one_row (env : Env) (db : DB) (result : LuxResults) :
  accepted result = true ->
  let db' := record env db result in
  let row := {| job_id := JobID result;
                lux := FormatFloat_f 5 (Lux result);
                full_spectrum := FormatFloat_e 5 (FullSpectrum result);
                visible := FormatFloat_e 5 (Visible result);
                infrared := FormatFloat_e 5 (Infrared result) |} in
  nexec db' = S (nexec db)
  /\ (exec_ok env (nexec db) = true -> rows db' = rows db ++ [row])
  /\ (exec_ok env (nexec db) = false -> rows db' = rows db)
  /\ (is_finite (Lux result) = true -> is_fixed_point 5 (lux row) = true)
  /\ (math.IsNaN (Lux result) = true -> lux row = "NaN"%string)
  /\ (Lux result = neg_infinity -> lux row = "-Inf"%string)
  /\ (is_finite (FullSpectrum result) = true ->
      is_scientific 6 (full_spectrum row) = true
      /\ is_scientific 5 (full_spectrum row) = false)
  /\ (is_finite (Visible result) = true ->
      is_scientific 6 (visible row) = true
      /\ is_scientific 5 (visible row) = false)
  /\ (is_finite (Infrared result) = true ->
      is_scientific 6 (infrared row) = true
      /\ is_scientific 5 (infrared row) = false)
  /\ (exec_ok env (nexec db) = true ->
      is_finite (Lux result) = true ->
      is_finite (FullSpectrum result) = true ->
      is_finite (Visible result) = true ->
      is_finite (Infrared result) = true ->
      persisted_as_one_row 6 env db result
      /\ ~ persisted_as_one_row 5 env db result).
Proof.
  intros Hacc. cbv zeta.
  pose proof (record_accepted env db result Hacc) as Hrec.
  unfold Exec_insert in Hrec.
  assert (Hsci : forall v, is_finite v = true ->
                           is_scientific 6 (FormatFloat_e 5 v) = true
                           /\ is_scientific 5 (FormatFloat_e 5 v) = false).
  { intros v Hv. pose proof (FormatFloat_e_scientific 4 _ Hv) as H6.
    split; [exact H6|exact (six_digits_not_five _ H6)]. }
  cbn [lux full_spectrum visible infrared].
  split; [rewrite Hrec; now destruct (exec_ok env (nexec db))|].
  split; [intros Hok; rewrite Hrec, Hok; reflexivity|].
  split; [intros Hok; rewrite Hrec, Hok; reflexivity|].
  split; [intros Hl; now apply (FormatFloat_f_fixed_point 4)|].
  split; [intros Hn; apply IsNaN_spec in Hn; unfold FormatFloat_f;
          now rewrite Hn|].
  split; [intros ->; vm_compute; reflexivity|].
  split; [apply Hsci|]. split; [apply Hsci|]. split; [apply Hsci|].
  intros Hok Hl Hf Hv Hi.
  rewrite Hok in Hrec. cbn [fst] in Hrec.
  split.
  - unfold persisted_as_one_row. rewrite Hrec. cbn [rows nexec].
    eexists. split; [reflexivity|].
    cbn [job_id lux full_spectrum visible infrared].
    repeat (split; [reflexivity|]).
    split; [now apply (FormatFloat_f_fixed_point 4)|].
    split; [now apply (FormatFloat_e_scientific 4)|].
    split; now apply (FormatFloat_e_scientific 4).
  - unfold persisted_as_one_row. rewrite Hrec. cbn [rows nexec].
    intros (row & Hrows & _ & _ & _ & Hfs & _ & _ & _ & Hs5 & _).
    rewrite Hfs in Hs5.
    rewrite (proj2 (Hsci _ Hf)) in Hs5. discriminate Hs5.
Qed.

Lemma Recorder_persists_one_row_witness :
  accepted example_result = true
  /\ nexec (record (env_of healthy_hw) empty_db example_result) = 1%nat
  /\ rows (record (env_of healthy_hw) empty_db example_result)
     = [{| job_id := "job-0"; lux := "8704.00000";
           full_spectrum := "1.52590e-01";
           visible := "1.22072e-01";
           infrared := "3.05180e-02" |}]
  /\ accepted dark_result = true
  /\ math.IsNaN (Lux dark_result) = true
  /\ nexec (record (env_db_down dark_hw) empty_db dark_result) = 1%nat
  /\ rows (record (env_db_down dark_hw) empty_db dark_result) = [].
Proof.
  assert (Ha : accepted example_result = true) by (vm_compute; reflexivity).
  assert (Hd : accepted dark_result = true) by (vm_compute; reflexivity).
  assert (Hn : math.IsNaN (Lux dark_result) = true)
    by (vm_compute; reflexivity).
  destruct (Recorder_persists_one_row (env_of healthy_hw) empty_db
              example_result Ha) as (A1 & A2 & _).
  destruct (Recorder_persists_one_row (env_db_down dark_hw) empty_db
              dark_result Hd) as (B1 & _ & B3 & _).
  exact (conj Ha (conj A1 (conj (A2 eq_refl)
           (conj Hd (conj Hn (conj B1 (B3 eq_refl))))))).
Defined.

End RecorderProperties.

(** ** The guard of the recorder, exactly *)

Section RecorderGuardProperties.
Import strconv sunlightmeter ServiceSpec Fixtures.

Lemma digits2_pos_bound (m : positive) :
  Z.pos m < 2 ^ Z.pos (digits2_pos m).
Proof.
  induction m as [m IH|m IH|]; cbn [digits2_pos].
  - rewrite Pos2Z.inj_succ, Z.pow_succ_r by lia. lia.
  - rewrite Pos2Z.inj_succ, Z.pow_succ_r by lia. lia.
  - reflexivity.
Qed.

(** No finite binary64 value is above [math.MaxFloat64]. *)
Lemma SFltb_MaxFloat64_finite (s : bool) (m : positive) (e : Z) :
  valid_binary (S754_finite s m e) = true ->
  SFltb (Prim2SF math.MaxFloat64) (S754_finite s m e) = false.
Proof.
  change (Prim2SF math.MaxFloat64)
    with (S754_finite false 9007199254740991 971).
  unfold valid_binary, bounded, canonical_mantissa, fexp, emin.
  change prec with 53. change emax with 1024.
  intros H. apply andb_true_iff in H as [Hc He].
  apply Z.eqb_eq in Hc. apply Z.leb_le in He.
  unfold SFltb, SFcompare. destruct s; [reflexivity|].
  destruct (Z.compare_spec 971 e) as [E|L|G]; try reflexivity; [|lia].
  subst e.
  assert (Hd : Z.pos (digits2_pos m) = 53) by lia.
  pose proof (digits2_pos_bound m) as Hm. rewrite Hd in Hm.
  change (2 ^ 53) with 9007199254740992 in Hm.
  change (Pos.compare_cont Eq 9007199254740991 m)
    with (Pos.compare 9007199254740991 m).
  destruct (Pos.compare_spec 9007199254740991 m) as [E|L|G];
    try reflexivity. lia.
Qed.

(** [math.IsInf(x, 1)] holds of positive infinity and of nothing else. *)
Lemma IsInf_positive (x : float) : math.IsInf x 1 = true <-> x = infinity.
Proof.
  unfold math.IsInf. cbn [Z.geb Z.leb Z.compare andb orb].
  rewrite orb_false_r, FloatAxioms.ltb_spec.
  split.
  - intros H. rewrite <- (SF2Prim_Prim2SF x).
    pose proof (Prim2SF_valid x) as Hv.
    destruct (Prim2SF x) as [s|s| |s m e].
    + destruct s; discriminate H.
    + destruct s; [discriminate H|reflexivity].
    + discriminate H.
    + rewrite (SFltb_MaxFloat64_finite s m e Hv) in H. discriminate H.
  - intros ->. vm_compute. reflexivity.
Qed.

Lemma is_digit_not_plus (c : ascii) : is_digit c = true -> c <> "+"%char.
Proof. intros H ->. discriminate H. Qed.

(** [%.5f] writes "+Inf" for positive infinity and for nothing else. *)
Lemma FormatFloat_f_plus_Inf (x : float) :
  FormatFloat_f 5 x = "+Inf"%string <-> x = infinity.
Proof.
  split; [|intros ->; vm_compute; reflexivity].
  intros H. rewrite <- (SF2Prim_Prim2SF x).
  unfold FormatFloat_f in H.
  destruct (Prim2SF x) as [s|s| |s m e].
  - destruct s; discriminate H.
  - destruct s; [discriminate H|reflexivity].
  - discriminate H.
  - exfalso. destruct (fraction m e) as [num den]. unfold fmtF in H.
    destruct s; [discriminate H|].
    cbn [sign_chars app] in H.
    pose proof (itoa_nonempty
                  (round_half_even (num * 10 ^ Z.of_nat 5) den / 10 ^ Z.of_nat 5))
      as Hne.
    pose proof (itoa_digits
                  (round_half_even (num * 10 ^ Z.of_nat 5) den / 10 ^ Z.of_nat 5))
      as Hd.
    destruct (itoa _) as [|c rest]; [contradiction|].
    cbn [forallb] in Hd. apply andb_true_iff in Hd as [Hc _].
    cbn [app string_of_list_ascii] in H. injection H as Hplus _.
    exact (is_digit_not_plus c Hc Hplus).
Qed.

Lemma record_added (env : Env) (db : DB) (result : LuxResults) :
  exists added,
    rows (record env db result) = rows db ++ added
    /\ forall row, In row added ->
                   job_id row = JobID result /\ lux row <> "+Inf"%string.
Proof.
  unfold record.
  destruct (math.IsInf (Lux result) 1) eqn:Hinf.
  - exists []. rewrite app_nil_r. split; [reflexivity|]. intros row [].
  - unfold Exec_insert. destruct (exec_ok env (nexec db)); cbn [fst rows].
    + eexists. split; [reflexivity|].
      intros row [<-|[]]. cbn [job_id lux]. split; [reflexivity|].
      intros H. apply FormatFloat_f_plus_Inf, IsInf_positive in H. congruence.
    + exists []. rewrite app_nil_r. split; [reflexivity|]. intros row [].
Qed.

(** The guard of the recorder, exactly. A result is dropped, with no
    statement sent to the database, if and only if its lux is positive
    infinity; every other result, a NaN or a negative infinity included,
    costs one statement. Hence no row the recorder stores has the lux
    "+Inf", and whatever the results received the rows already stored stay
    as they are, in their order. *)
Theorem Recorder_guard_exact (env : Env) (db : DB) (result : LuxResults) :
  (record env db result = db <-> Lux result = infinity)
  /\ (Lux result <> infinity -> nexec (record env db result) = S (nexec db))
  /\ (exists added, rows (record env db result) = rows db ++ added
                    /\ (List.length added <= 1)%nat
                    /\ forall row, In row added ->
                                   job_id row = JobID result
                                   /\ lux row = FormatFloat_f 5 (Lux result)
                                   /\ lux row <> "+Inf"%string).
Proof.
  unfold record.
  destruct (math.IsInf (Lux result) 1) eqn:Hinf.
  - apply IsInf_positive in Hinf. split; [|split].
    + tauto.
    + intros H. contradiction.
    + exists []. rewrite app_nil_r. split; [reflexivity|]. split; [cbn; lia|].
      intros row [].
  - assert (Hne : Lux result <> infinity).
    { intros H. apply IsInf_positive in H. congruence. }
    unfold Exec_insert.
    split; [|split].
    + split; [|contradiction].
      intros H. exfalso.
      assert (Hn : nexec db = S (nexec db)).
      { rewrite <- H at 1. destruct (exec_ok env (nexec db)); reflexivity. }
      lia.
    + intros _. destruct (exec_ok env (nexec db)); reflexivity.
    + destruct (exec_ok env (nexec db)); cbn [fst rows].
      * eexists. split; [reflexivity|]. split; [cbn; lia|].
        intros row [<-|[]]. cbn [job_id lux].
        split; [reflexivity|]. split; [reflexivity|].
        intros H. apply FormatFloat_f_plus_Inf in H. contradiction.
      * exists []. rewrite app_nil_r. split; [reflexivity|].
        split; [cbn; lia|]. intros row [].
Qed.

Lemma Recorder_guard_exact_witness :
  Lux example_result <> infinity
  /\ nexec (record (env_of healthy_hw) empty_db example_result)
     = S (nexec empty_db).
Proof.
  assert (H : Lux example_result <> infinity) by (vm_compute; discriminate).
  exact (conj H
           (proj1 (proj2 (Recorder_guard_exact (env_of healthy_hw) empty_db
                            example_result)) H)).
Defined.

End RecorderGuardProperties.

(** ** Properties of the job lifecycle *)

Section LifecycleProperties.
Import sunlightmeter ServiceSpec Fixtures.

Lemma nth_error_update {A : Type} (l : list A) :
  forall (i : nat) (x y : A),
    nth_error l i = Some y -> nth_error (update l i x) i = Some x.
Proof.
  induction l as [|a l IH]; intros [|i] x y H; try discriminate H.
  - reflexivity.
  - cbn [update nth_error]. now apply (IH i x y).
Qed.

(** [Start] answers by the state of the sensor alone: absent, enabled, or
    disabled, and only in the last case a goroutine is spawned. A rejected
    [Start] changes nothing, the running job and its id included. *)
Lemma Start_guards (rt : Runtime) :
  (TSL2591 (m rt) = None -> Start rt = (rt, DeviceAbsent))
  /\ (forall tsl, TSL2591 (m rt) = Some tsl -> tsl2591.Enabled tsl = true ->
                  Start rt = (rt, AlreadyRunning))
  /\ (forall tsl, TSL2591 (m rt) = Some tsl -> tsl2591.Enabled tsl = false ->
                  Start rt
                  = (set_goroutines rt (goroutines rt ++ [Spawned]), Started)).
Proof.
  unfold Start. repeat split.
  - intros ->. reflexivity.
  - intros tsl -> ->. reflexivity.
  - intros tsl -> ->. reflexivity.
Qed.

(** When the goroutine of the first [Start] has run up to its loop on a
    healthy bus, the second [Start] is rejected and the job keeps its id. *)
Lemma Start_rejected_after_enable :
  let env := env_of healthy_hw in
  let rt1 := fst (run env (main env) [GetStart; Run 0]%nat) in
  map job_of (running rt1) = [Some (job_name 0)]
  /\ Start rt1 = (rt1, AlreadyRunning).
Proof. cbv zeta. split; vm_compute; reflexivity. Qed.

(** C5, at the failing input. [Start] tests [m.Enabled], which only the
    spawned goroutine sets, later, in [m.Enable()]: two [Start] requests
    served before the first goroutine is scheduled are both accepted, and
    two sampling jobs run, each with its own id. The same happens with no
    race when the write of the first [Enable] is not acknowledged: its result
    is dropped, the job runs on a sensor that still counts as stopped, and
    the next [Start] is accepted. *)
Theorem Start_twice_runs_two_jobs :
  (let env := env_of healthy_hw in
   let out := run env (main env) [GetStart; GetStart; Run 0; Run 1]%nat in
   snd out = [Started; Started]
   /\ map job_of (running (fst out)) = [Some (job_name 0); Some (job_name 1)]
   /\ job_name 0 <> job_name 1)
  /\ (let env := env_of nack_enable_hw in
      let out := run env (main env) [GetStart; Run 0; GetStart; Run 1]%nat in
      snd out = [Started; Started]
      /\ map job_of (running (fst out))
         = [Some (job_name 0); Some (job_name 1)]).
Proof.
  cbv zeta. split; [split; [|split]|split].
  - vm_compute; reflexivity.
  - vm_compute; reflexivity.
  - vm_compute. discriminate.
  - vm_compute; reflexivity.
  - vm_compute; reflexivity.
Qed.

(** With no sensor attached no job can run, and [Stop] answers with the
    error of the absent device, not with NotRunning. *)
Lemma Stop_without_sensor_is_not_NotRunning :
  let env := env_of absent_hw in
  TSL2591 (m (main env)) = None
  /\ running (main env) = []
  /\ Stop env (main env) = (main env, DeviceAbsent)
  /\ DeviceAbsent <> NotRunning
  /\ ~ stop_rejected_when_idle env (main env).
Proof.
  cbv zeta.
  assert (Hne : DeviceAbsent <> NotRunning) by (vm_compute; discriminate).
  split; [vm_compute; reflexivity|].
  split; [vm_compute; reflexivity|].
  split; [vm_compute; reflexivity|].
  split; [exact Hne|].
  intros H. unfold stop_rejected_when_idle in H.
  assert (Hs : Stop (env_of absent_hw) (main (env_of absent_hw))
               = (main (env_of absent_hw), NotRunning))
    by (apply H; vm_compute; reflexivity).
  vm_compute in Hs. discriminate Hs.
Qed.

(** What [Stop] does, by the state of the sensor and not by the jobs. With
    no sensor attached it returns the error of the absent device, with a
    sensor that is not enabled it returns NotRunning, and in both cases
    nothing changes. With an enabled sensor and a cancel function installed,
    it cancels the context that function names, disables the device (one
    write of the power-off byte, the flag cleared when acknowledged) and
    answers 200 without running the sampling goroutine: every goroutine is
    where it was, and a job of that context at the top of its loop returns
    at its next turn. *)
Lemma Stop_spec (env : Env) (rt : Runtime) :
  (TSL2591 (m rt) = None -> Stop env rt = (rt, DeviceAbsent))
  /\ (forall tsl,
         TSL2591 (m rt) = Some tsl -> tsl2591.Enabled tsl = false ->
         Stop env rt = (rt, NotRunning))
  /\ (forall tsl ctx,
         TSL2591 (m rt) = Some tsl -> tsl2591.Enabled tsl = true ->
         cancel (m rt) = Some ctx ->
         let rt' := fst (Stop env rt) in
         snd (Stop env rt) = Stopped
         /\ ctx_done rt' ctx = true
         /\ done rt' = ctx :: done rt
         /\ TSL2591 (m rt') = Some (fst (tsl2591.Disable (i2c env) tsl))
         /\ goroutines rt' = goroutines rt
         /\ ResultsDB (m rt') = ResultsDB (m rt)
         /\ forall i jobID,
             nth_error (goroutines rt) i = Some (Sampling ctx jobID) ->
             nth_error (goroutines (run_goroutine env rt' i)) i
             = Some Returned).
Proof.
  split; [|split].
  - unfold Stop. intros ->. reflexivity.
  - unfold Stop. intros tsl -> ->. reflexivity.
  - intros tsl ctx Ht He Hc.
    assert (Hstop : Stop env rt
                    = (set_TSL2591 (close_ctx rt ctx)
                         (fst (tsl2591.Disable (i2c env) tsl)), Stopped)).
    { unfold Stop. rewrite Ht, He, Hc. cbn [negb].
      destruct (tsl2591.Disable (i2c env) tsl). reflexivity. }
    rewrite Hstop. cbn [fst snd].
    assert (Hdone : ctx_done (set_TSL2591 (close_ctx rt ctx)
                                (fst (tsl2591.Disable (i2c env) tsl))) ctx
                    = true).
    { unfold ctx_done. cbn [set_TSL2591 close_ctx done existsb].
      now rewrite Nat.eqb_refl. }
    repeat split; try reflexivity; try exact Hdone.
    intros i jobID Hi.
    unfold run_goroutine.
    cbn [set_TSL2591 close_ctx goroutines]. rewrite Hi.
    unfold job_turn. cbn [set_TSL2591 m TSL2591]. rewrite Hdone.
    destruct (tsl2591.Disable (i2c env) (fst (tsl2591.Disable (i2c env) tsl))).
    unfold set_goroutine, set_goroutines. cbn [goroutines set_TSL2591 close_ctx].
    now apply (nth_error_update _ _ _ _ Hi).
Qed.

Lemma Stop_spec_witness :
  (TSL2591 (m (main (env_of absent_hw))) = None
   /\ Stop (env_of absent_hw) (main (env_of absent_hw))
      = (main (env_of absent_hw), DeviceAbsent))
  /\ (TSL2591 (m (main (env_of healthy_hw))) = Some booted_tsl
      /\ tsl2591.Enabled booted_tsl = false
      /\ Stop (env_of healthy_hw) (main (env_of healthy_hw))
         = (main (env_of healthy_hw), NotRunning))
  /\ (TSL2591 (m sampling_rt) = Some sampling_tsl
      /\ tsl2591.Enabled sampling_tsl = true
      /\ cancel (m sampling_rt) = Some 0%nat
      /\ snd (Stop (env_of healthy_hw) sampling_rt) = Stopped
      /\ ctx_done (fst (Stop (env_of healthy_hw) sampling_rt)) 0 = true
      /\ goroutines (fst (Stop (env_of healthy_hw) sampling_rt))
         = goroutines sampling_rt).
Proof.
  pose proof (Stop_spec (env_of absent_hw) (main (env_of absent_hw)))
    as [A _].
  pose proof (Stop_spec (env_of healthy_hw) (main (env_of healthy_hw)))
    as [_ [B _]].
  pose proof (Stop_spec (env_of healthy_hw) sampling_rt) as [_ [_ C]].
  assert (Ha : TSL2591 (m (main (env_of absent_hw))) = None)
    by (vm_compute; reflexivity).
  assert (Hb : TSL2591 (m (main (env_of healthy_hw))) = Some booted_tsl)
    by (vm_compute; reflexivity).
  assert (Eb : tsl2591.Enabled booted_tsl = false) by reflexivity.
  assert (Hs : TSL2591 (m sampling_rt) = Some sampling_tsl)
    by (vm_compute; reflexivity).
  assert (Es : tsl2591.Enabled sampling_tsl = true) by reflexivity.
  assert (Hc : cancel (m sampling_rt) = Some 0%nat)
    by (vm_compute; reflexivity).
  specialize (C _ _ Hs Es Hc). cbv zeta in C.
  destruct C as (C1 & C2 & _ & _ & C5 & _).
  exact (conj (conj Ha (A Ha))
           (conj (conj Hb (conj Eb (B _ Hb Eb)))
              (conj Hs (conj Es (conj Hc (conj C1 (conj C2 C5))))))).
Defined.

(** C8, at the failing inputs. [Stop] decides by [m.Enabled] whether a job
    is running and cancels through [m.cancel], the cancel function of the
    job begun last; neither follows the jobs.
    - A job runs and [Stop] answers NotRunning: when the write of the job's
      [Enable] is not acknowledged, its error is dropped and the job samples
      on a sensor that counts as stopped. [Stop] cancels nothing, and the
      job goes on storing rows.
    - Two jobs run and [Stop] cancels one: after two accepted [Start], the
      cancel function is that of the second job. [Stop] answers 200, the
      second job returns, the first is never cancelled and goes on storing
      rows.
    - No job runs and [Stop] does not answer NotRunning: when the
      power-off write that ends [NewTSL2591] is not acknowledged the sensor
      counts as started, and [Stop] calls the nil cancel function, which
      ends in status 500. *)
Theorem Stop_misses_running_jobs :
  (let env := env_of nack_enable_hw in
   let rt := fst (run env (main env) [GetStart; Run 0]%nat) in
   let out := run env rt [GetStop; Run 0; Receive 0; Run 0; Receive 0]%nat in
   map job_of (running rt) = [Some (job_name 0)]
   /\ Stop env rt = (rt, NotRunning)
   /\ snd out = [NotRunning]
   /\ done (fst out) = []
   /\ map job_of (running (fst out)) = [Some (job_name 0)]
   /\ map job_id (rows (ResultsDB (m (fst out)))) = [job_name 0; job_name 0])
  /\ (let env := env_of healthy_hw in
      let rt := fst (run env (main env)
                       [GetStart; GetStart; Run 0; Run 1]%nat) in
      let out := run env rt [GetStop; Run 0; Run 1; Receive 0; Run 0]%nat in
      map job_of (running rt) = [Some (job_name 0); Some (job_name 1)]
      /\ snd out = [Stopped]
      /\ done (fst out) = [1%nat]
      /\ ctx_done (fst out) 0 = false
      /\ map job_of (running (fst out)) = [Some (job_name 0)]
      /\ map job_id (rows (ResultsDB (m (fst out)))) = [job_name 0])
  /\ (let env := env_of nack_disable_hw in
      running (main env) = []
      /\ status (snd (Stop env (main env))) = StatusInternalServerError
      /\ snd (Stop env (main env)) <> NotRunning
      /\ ~ stop_rejected_when_idle env (main env)).
Proof.
  cbv zeta. split; [|split].
  - split; [vm_compute; reflexivity|]. split; [vm_compute; reflexivity|].
    split; [vm_compute; reflexivity|]. split; [vm_compute; reflexivity|].
    split; vm_compute; reflexivity.
  - split; [vm_compute; reflexivity|]. split; [vm_compute; reflexivity|].
    split; [vm_compute; reflexivity|]. split; [vm_compute; reflexivity|].
    split; vm_compute; reflexivity.
  - assert (Hidle : running (main (env_of nack_disable_hw)) = [])
      by (vm_compute; reflexivity).
    assert (Hne : snd (Stop (env_of nack_disable_hw)
                         (main (env_of nack_disable_hw))) <> NotRunning)
      by (vm_compute; discriminate).
    split; [exact Hidle|]. split; [vm_compute; reflexivity|].
    split; [exact Hne|].
    intros H. apply Hne. unfold stop_rejected_when_idle in H.
    now rewrite (H Hidle).
Qed.

End LifecycleProperties.

(** ** Properties of the recorder loop and of whole runs *)

Section RecorderLoopProperties.
Import strconv sunlightmeter ServiceSpec RunSpec Fixtures.

Lemma executed_all {A : Type} (ok : nat -> bool) (l : list A) :
  (forall n, ok n = true) -> forall n, executed ok n l = l.
Proof.
  intros Hok. induction l as [|x l IH]; intros n; cbn [executed].
  - reflexivity.
  - now rewrite Hok, IH.
Qed.

Lemma record_row (env : Env) (db : DB) (result : LuxResults) :
  accepted result = true ->
  record env db result
  = {| rows := rows db ++ (if exec_ok env (nexec db)
                           then [row_of result] else []);
       nexec := S (nexec db) |}.
Proof.
  intros H. rewrite (record_accepted _ _ _ H). unfold Exec_insert.
  destruct (exec_ok env (nexec db)); cbn [fst]; [reflexivity|].
  now rewrite app_nil_r.
Qed.

Lemma record_rejected (env : Env) (db : DB) (result : LuxResults) :
  accepted result = false -> record env db result = db.
Proof.
  unfold accepted, record. intros H. apply negb_false_iff in H.
  now rewrite H.
Qed.

(** The recorder loop. Whatever it has received, it has sent one statement
    per accepted result, in the order received, and a statement that fails
    stops nothing: the rows stored are the rows of the accepted results
    whose statement the database executed, each once, in the order
    received, after the rows that were there. When every statement is
    executed these are the rows of all accepted results. *)
Theorem MonitorAndRecordResults_in_order (env : Env)
    (received : list LuxResults) (db : DB) :
  let db' := MonitorAndRecordResults env received db in
  nexec db' = (nexec db + List.length (filter accepted received))%nat
  /\ rows db'
     = rows db
       ++ map row_of (executed (exec_ok env) (nexec db)
                        (filter accepted received))
  /\ ((forall n, exec_ok env n = true) ->
      rows db' = rows db ++ map row_of (filter accepted received)).
Proof.
  cbv zeta.
  assert (H : nexec (MonitorAndRecordResults env received db)
              = (nexec db + List.length (filter accepted received))%nat
              /\ rows (MonitorAndRecordResults env received db)
                 = rows db
                   ++ map row_of (executed (exec_ok env) (nexec db)
                                    (filter accepted received))).
  { unfold MonitorAndRecordResults. revert db.
    induction received as [|result rest IH]; intros db.
    - cbn. rewrite Nat.add_0_r, app_nil_r. auto.
    - cbn [fold_left filter].
      destruct (IH (record env db result)) as [IHn IHr].
      rewrite IHn, IHr.
      destruct (accepted result) eqn:Ha.
      + rewrite (record_row _ _ _ Ha). cbn [nexec rows List.length executed].
        split; [lia|].
        destruct (exec_ok env (nexec db)); cbn [map];
          rewrite <- app_assoc; reflexivity.
      + rewrite (record_rejected _ _ _ Ha). auto. }
  destruct H as [Hn Hr]. split; [exact Hn|]. split; [exact Hr|].
  intros Hok. rewrite Hr. now rewrite executed_all.
Qed.

Lemma MonitorAndRecordResults_in_order_witness :
  (forall n, exec_ok (env_of healthy_hw) n = true)
  /\ rows (MonitorAndRecordResults (env_of healthy_hw)
             [example_result; dark_result] empty_db)
     = rows empty_db
       ++ map row_of (filter accepted [example_result; dark_result]).
Proof.
  assert (H : forall n, exec_ok (env_of healthy_hw) n = true) by reflexivity.
  exact (conj H
           (proj2 (proj2 (MonitorAndRecordResults_in_order (env_of healthy_hw)
                            [example_result; dark_result] empty_db)) H)).
Defined.

End RecorderLoopProperties.

(** ** What every run of the service keeps *)

Section RunInvariants.
Import sunlightmeter ServiceSpec RunSpec Fixtures.

Lemma update_length {A : Type} (l : list A) :
  forall i x, List.length (update l i x) = List.length l.
Proof.
  induction l as [|a l IH]; intros [|i] x; cbn [update List.length];
    try reflexivity.
  now rewrite IH.
Qed.

Lemma nth_error_update_other {A : Type} (l : list A) :
  forall i i' x, i <> i' -> nth_error (update l i x) i' = nth_error l i'.
Proof.
  induction l as [|a l IH]; intros [|i] [|i'] x H; cbn [update nth_error];
    try reflexivity; try congruence.
  apply IH. congruence.
Qed.

Lemma nth_error_update_inv {A : Type} (l : list A) (i i' : nat) (x g : A) :
  nth_error (update l i x) i' = Some g ->
  (i' = i /\ g = x /\ exists y, nth_error l i = Some y)
  \/ (i' <> i /\ nth_error l i' = Some g).
Proof.
  intros H. destruct (Nat.eq_dec i i') as [<-|Hne].
  - left. destruct (nth_error l i) as [y|] eqn:Hy.
    + rewrite (nth_error_update _ _ x y Hy) in H. injection H as <-.
      split; [reflexivity|]. split; [reflexivity|]. now exists y.
    + exfalso. apply nth_error_None in Hy.
      assert (Hn : nth_error (update l i x) i = None)
        by (apply nth_error_None; now rewrite update_length).
      congruence.
  - right. rewrite nth_error_update_other in H by exact Hne.
    split; [congruence|exact H].
Qed.

Variable env : Env.

Lemma well_tagged_weaken (rt rt' : Runtime) (g : Goroutine) :
  (nctx rt <= nctx rt')%nat -> well_tagged env rt g -> well_tagged env rt' g.
Proof.
  intros Hle. destruct g as [|c j|c j r|]; cbn [well_tagged]; try tauto.
  - intros [A B]. split; [lia|exact B].
  - intros (A & B & C). split; [lia|]. split; assumption.
Qed.

(** A step that leaves the goroutines, the counters, the cancel function and
    the rows alone keeps the runtime consistent. *)
Lemma consistent_frame (rt rt' : Runtime) :
  nuuid rt' = nuuid rt -> nctx rt' = nctx rt ->
  cancel (m rt') = cancel (m rt) ->
  goroutines rt' = goroutines rt ->
  rows (ResultsDB (m rt')) = rows (ResultsDB (m rt)) ->
  consistent env rt -> consistent env rt'.
Proof.
  intros Hu Hc Hk Hg Hr (A & B & C & D & E).
  unfold consistent. rewrite Hu, Hc, Hk, Hg, Hr.
  split; [exact A|]. split.
  - intros i g Hi. apply (well_tagged_weaken rt); [lia|]. now apply (B i).
  - split; [exact C|]. split; [exact D|exact E].
Qed.

(** A goroutine may move to any well-tagged program point that keeps its
    context or gives it up. *)
Lemma consistent_set_goroutine (rt : Runtime) (i : nat) (g g' : Goroutine) :
  consistent env rt ->
  nth_error (goroutines rt) i = Some g ->
  well_tagged env rt g' ->
  (forall ctx, context_of g' = Some ctx -> context_of g = Some ctx) ->
  consistent env (set_goroutine rt i g').
Proof.
  intros (A & B & C & D & E) Hi Hw Hctx.
  unfold consistent, set_goroutine, set_goroutines.
  cbn [nuuid nctx goroutines m].
  split; [exact A|]. split; [|split; [|split; [exact D|exact E]]].
  - intros i' x Hx.
    destruct (nth_error_update_inv _ _ _ _ _ Hx) as [(-> & -> & _)|[_ Hx']].
    + destruct g'; exact Hw.
    + apply (well_tagged_weaken rt); [cbn; lia|]. now apply (B i').
  - intros i1 i2 g1 g2 ctx H1 H2 Hc1 Hc2.
    destruct (nth_error_update_inv _ _ _ _ _ H1) as [(-> & -> & _)|[N1 H1']];
      destruct (nth_error_update_inv _ _ _ _ _ H2) as [(-> & -> & _)|[N2 H2']].
    + reflexivity.
    + apply (C i i2 g g2 ctx Hi H2' (Hctx _ Hc1) Hc2).
    + apply (C i1 i g1 g ctx H1' Hi Hc1 (Hctx _ Hc2)).
    + apply (C i1 i2 g1 g2 ctx H1' H2' Hc1 Hc2).
Qed.

Lemma consistent_main : consistent env (main env).
Proof.
  unfold consistent, main. cbn [nuuid nctx goroutines m ResultsDB rows cancel].
  split; [reflexivity|]. split; [intros [|i] g H; discriminate H|].
  split; [intros [|i] i' g g' ctx H; discriminate H|].
  split; [intros row []|intros ctx H; discriminate H].
Qed.

Lemma consistent_Start (rt : Runtime) :
  consistent env rt -> consistent env (fst (Start rt)).
Proof.
  intros Hc. unfold Start.
  destruct (TSL2591 (m rt)) as [tsl|]; [|exact Hc].
  destruct (tsl2591.Enabled tsl); [exact Hc|]. cbn [fst].
  destruct Hc as (A & B & C & D & E).
  assert (Hnth : forall i g,
             nth_error (goroutines rt ++ [Spawned]) i = Some g ->
             nth_error (goroutines rt) i = Some g \/ g = Spawned).
  { intros i g H. destruct (Nat.lt_ge_cases i (List.length (goroutines rt))).
    - rewrite nth_error_app1 in H by assumption. now left.
    - rewrite nth_error_app2 in H by assumption.
      destruct (i - List.length (goroutines rt))%nat as [|[|k]];
        cbn in H; try discriminate H. injection H as <-. now right. }
  unfold consistent, set_goroutines. cbn [nuuid nctx goroutines m].
  split; [exact A|]. split; [|split; [|split; [exact D|exact E]]].
  - intros i g H. destruct (Hnth i g H) as [H'| ->]; [|exact I].
    apply (well_tagged_weaken rt); [cbn; lia|]. now apply (B i).
  - intros i i' g g' ctx H H' Hc Hc'.
    destruct (Hnth i g H) as [H1| ->]; [|discriminate Hc].
    destruct (Hnth i' g' H') as [H2| ->]; [|discriminate Hc'].
    apply (C i i' g g' ctx H1 H2 Hc Hc').
Qed.

Lemma consistent_Stop (rt : Runtime) :
  consistent env rt -> consistent env (fst (Stop env rt)).
Proof.
  intros Hc. unfold Stop.
  destruct (TSL2591 (m rt)) as [tsl|]; [|exact Hc].
  destruct (tsl2591.Enabled tsl); cbn [negb]; [|exact Hc].
  destruct (cancel (m rt)) as [ctx|];
    destruct (tsl2591.Disable (i2c env) tsl) as [tsl1 e]; cbn [fst];
    apply (consistent_frame rt); try reflexivity; exact Hc.
Qed.

Lemma consistent_job_begin (rt : Runtime) (i : nat) :
  consistent env rt ->
  nth_error (goroutines rt) i = Some Spawned ->
  consistent env (job_begin env rt i).
Proof.
  intros Hc Hi. unfold job_begin.
  destruct (TSL2591 (m rt)) as [tsl|]; [|exact Hc].
  destruct Hc as (A & B & C & D & E).
  destruct (tsl2591.Enable (i2c env) tsl) as [tsl1 e].
  unfold consistent. cbn [nuuid nctx goroutines m ResultsDB cancel].
  split; [now rewrite A|]. split; [|split; [|split]].
  - intros i' g Hg.
    destruct (nth_error_update_inv _ _ _ _ _ Hg) as [(-> & -> & _)|[_ Hg']].
    + cbn [well_tagged nctx]. split; [lia|]. now rewrite A.
    + specialize (B i' g Hg'). destruct g as [|c j|c j r|];
        cbn [well_tagged nctx] in *; try tauto.
      * destruct B as [B1 B2]. split; [lia|exact B2].
      * destruct B as (B1 & B2 & B3). split; [lia|]. split; assumption.
  - intros i1 i2 g1 g2 ctx H1 H2 Hc1 Hc2.
    destruct (nth_error_update_inv _ _ _ _ _ H1) as [(-> & -> & _)|[N1 H1']];
      destruct (nth_error_update_inv _ _ _ _ _ H2) as [(-> & -> & _)|[N2 H2']].
    + reflexivity.
    + exfalso. cbn [context_of] in Hc1. injection Hc1 as <-.
      specialize (B i2 g2 H2'). destruct g2 as [|c j|c j r|];
        cbn [context_of well_tagged] in *; try discriminate Hc2;
        injection Hc2 as ->; lia.
    + exfalso. cbn [context_of] in Hc2. injection Hc2 as <-.
      specialize (B i1 g1 H1'). destruct g1 as [|c j|c j r|];
        cbn [context_of well_tagged] in *; try discriminate Hc1;
        injection Hc1 as ->; lia.
    + apply (C i1 i2 g1 g2 ctx H1' H2' Hc1 Hc2).
  - intros row Hrow. destruct (D row Hrow) as [(c & Hc & Hj) Hl].
    split; [|exact Hl]. exists c. split; [lia|exact Hj].
  - intros ctx [= <-]. lia.
Qed.

Lemma consistent_job_turn (rt : Runtime) (i ctx : nat) (jobID : string) :
  consistent env rt ->
  nth_error (goroutines rt) i = Some (Sampling ctx jobID) ->
  consistent env (job_turn env rt i ctx jobID).
Proof.
  intros Hc Hi. unfold job_turn.
  destruct (TSL2591 (m rt)) as [tsl|]; [|exact Hc].
  assert (Hw : well_tagged env rt (Sampling ctx jobID))
    by (destruct Hc as (_ & B & _); now apply (B i)).
  assert (Hset : forall tsl', consistent env (set_TSL2591 rt tsl'))
    by (intros tsl'; apply (consistent_frame rt); try reflexivity; exact Hc).
  destruct (ctx_done rt ctx).
  - destruct (tsl2591.Disable (i2c env) tsl) as [tsl1 e].
    apply (consistent_set_goroutine _ i (Sampling ctx jobID));
      [apply Hset|exact Hi|exact I|intros c H; discriminate H].
  - destruct (tsl2591.GetFullLuminosity (i2c env) tsl)
      as [[[tsl1 ch0] ch1] [e|]].
    + apply (consistent_set_goroutine _ i (Sampling ctx jobID));
        [apply Hset|exact Hi| |intros c H; exact H].
      destruct Hw as [W1 W2]. cbn [well_tagged]. repeat split; assumption.
    + destruct (tsl2591.CalculateLux tsl1 ch0 ch1) as [lux [e|]].
      * destruct (tsl2591.SetOptimalGain (i2c env) tsl1) as [tsl2 e'].
        apply Hset.
      * apply (consistent_set_goroutine _ i (Sampling ctx jobID));
          [apply Hset|exact Hi| |intros c H; exact H].
        destruct Hw as [W1 W2]. cbn [well_tagged]. repeat split; assumption.
Qed.

Lemma consistent_receive (rt : Runtime) (i : nat) :
  consistent env rt -> consistent env (receive env rt i).
Proof.
  intros Hc. unfold receive.
  destruct (nth_error (goroutines rt) i) as [[|c j|c j r|]|] eqn:Hi;
    try exact Hc.
  assert (Hw : well_tagged env rt (Sending c j r))
    by (destruct Hc as (_ & B & _); now apply (B i)).
  destruct Hw as (W1 & W2 & W3).
  apply (consistent_set_goroutine _ i (Sending c j r)).
  - destruct Hc as (A & B & C & D & E).
    unfold consistent, set_ResultsDB.
    cbn [nuuid nctx goroutines m ResultsDB cancel].
    split; [exact A|]. split; [exact B|]. split; [exact C|].
    split; [|exact E].
    destruct (record_added env (ResultsDB (m rt)) r) as (added & Hrows & Hadd).
    rewrite Hrows. intros row Hrow. apply in_app_or in Hrow as [Hrow|Hrow].
    + now apply D.
    + destruct (Hadd row Hrow) as [Hj Hl]. split; [|exact Hl].
      exists c. split; [exact W1|]. congruence.
  - exact Hi.
  - cbn [well_tagged]. split; assumption.
  - intros c' H. exact H.
Qed.

Lemma consistent_step (rt : Runtime) (ev : Event) :
  consistent env rt -> consistent env (fst (step env rt ev)).
Proof.
  intros Hc. destruct ev as [| |i|i|ctx]; cbn [step].
  - pose proof (consistent_Start rt Hc). now destruct (Start rt).
  - pose proof (consistent_Stop rt Hc). now destruct (Stop env rt).
  - cbn [fst]. unfold run_goroutine.
    destruct (nth_error (goroutines rt) i) as [[|c j|c j r|]|] eqn:Hi;
      try exact Hc.
    + now apply consistent_job_begin.
    + now apply consistent_job_turn.
  - cbn [fst]. now apply consistent_receive.
  - cbn [fst]. apply (consistent_frame rt); try reflexivity. exact Hc.
Qed.

Lemma run_cons (rt : Runtime) (ev : Event) (evs : list Event) :
  fst (run env rt (ev :: evs)) = fst (run env (fst (step env rt ev)) evs).
Proof.
  cbn [run]. destruct (step env rt ev) as [rt1 r]. cbn [fst].
  destruct (run env rt1 evs) as [rt2 rs]. reflexivity.
Qed.

(** Every run keeps the runtime consistent, and the service starts
    consistent. So along every run from [main]: each goroutine inside its
    loop has a context of its own and the job id drawn with it, and sends
    results under that id only; every row stored carries the id of a job
    that was begun, and none has the lux "+Inf". *)
Theorem run_consistent (evs : list Event) :
  consistent env (main env)
  /\ (forall rt, consistent env rt -> consistent env (fst (run env rt evs)))
  /\ consistent env (fst (run env (main env) evs)).
Proof.
  assert (H : forall rt, consistent env rt ->
                         consistent env (fst (run env rt evs))).
  { induction evs as [|ev evs IH]; intros rt Hc; [exact Hc|].
    rewrite run_cons. apply IH. now apply consistent_step. }
  split; [apply consistent_main|]. split; [exact H|].
  apply H, consistent_main.
Qed.

Lemma step_accounting (rt : Runtime) (ev : Event) :
  let out := step env rt ev in
  List.length (goroutines (fst out))
  = (List.length (goroutines rt)
     + match snd out with
       | Some r => if is_started r then 1 else 0
       | None => 0
       end)%nat
  /\ (TSL2591 (m (fst out)) = None <-> TSL2591 (m rt) = None)
  /\ exists added,
      rows (ResultsDB (m (fst out))) = rows (ResultsDB (m rt)) ++ added.
Proof.
  assert (Hsame : forall rt' : Runtime,
             List.length (goroutines rt') = List.length (goroutines rt) ->
             (TSL2591 (m rt') = None <-> TSL2591 (m rt) = None) ->
             rows (ResultsDB (m rt')) = rows (ResultsDB (m rt)) ->
             List.length (goroutines rt')
             = (List.length (goroutines rt) + 0)%nat
             /\ (TSL2591 (m rt') = None <-> TSL2591 (m rt) = None)
             /\ exists added,
                 rows (ResultsDB (m rt')) = rows (ResultsDB (m rt)) ++ added).
  { intros rt' Hl Hs Hr. split; [lia|]. split; [exact Hs|].
    exists []. now rewrite app_nil_r. }
  destruct ev as [| |i|i|ctx]; cbn [step].
  - unfold Start.
    destruct (TSL2591 (m rt)) as [tsl|] eqn:Ht;
      [destruct (tsl2591.Enabled tsl)|]; cbn [fst snd];
      try (apply Hsame; [reflexivity|rewrite ?Ht; tauto|reflexivity]).
    cbn [is_started message String.eqb Ascii.eqb Bool.eqb].
    unfold set_goroutines. cbn [goroutines m].
    split; [rewrite length_app; cbn; lia|].
    split; [rewrite ?Ht; tauto|].
    exists []. now rewrite app_nil_r.
  - unfold Stop.
    destruct (TSL2591 (m rt)) as [tsl|] eqn:Ht;
      [destruct (tsl2591.Enabled tsl); cbn [negb];
       [destruct (cancel (m rt));
        destruct (tsl2591.Disable (i2c env) tsl) as [tsl1 e]|]|];
      cbn [fst snd];
      (split; [cbn; lia|]); (split; [cbn; rewrite ?Ht; intuition discriminate|]);
      exists []; now rewrite app_nil_r.
  - cbn [fst snd]. unfold run_goroutine.
    destruct (nth_error (goroutines rt) i) as [[|c j|c j r|]|];
      try (apply Hsame; reflexivity).
    + unfold job_begin. destruct (TSL2591 (m rt)) as [tsl|] eqn:Ht;
        [|apply Hsame; [reflexivity|rewrite ?Ht; tauto|reflexivity]].
      destruct (tsl2591.Enable (i2c env) tsl) as [tsl1 e].
      apply Hsame; cbn [goroutines m TSL2591 ResultsDB];
        [apply update_length|rewrite ?Ht; intuition discriminate|reflexivity].
    + unfold job_turn. destruct (TSL2591 (m rt)) as [tsl|] eqn:Ht;
        [|apply Hsame; [reflexivity|rewrite ?Ht; tauto|reflexivity]].
      destruct (ctx_done rt c);
        [destruct (tsl2591.Disable (i2c env) tsl) as [tsl1 e]
        |destruct (tsl2591.GetFullLuminosity (i2c env) tsl)
           as [[[tsl1 ch0] ch1] [e|]];
         [|destruct (tsl2591.CalculateLux tsl1 ch0 ch1) as [lux [e|]];
           [destruct (tsl2591.SetOptimalGain (i2c env) tsl1) as [tsl2 e']|]]];
        apply Hsame;
        cbn [set_goroutine set_goroutines set_TSL2591 goroutines m TSL2591
             ResultsDB];
        rewrite ?update_length, ?Ht; try reflexivity; intuition discriminate.
  - cbn [fst snd]. unfold receive.
    destruct (nth_error (goroutines rt) i) as [[|c j|c j r|]|];
      try (apply Hsame; reflexivity).
    cbn [set_goroutine set_goroutines set_ResultsDB goroutines m TSL2591
         ResultsDB].
    split; [rewrite update_length; lia|]. split; [tauto|].
    destruct (record_added env (ResultsDB (m rt)) r) as (added & Hrows & _).
    now exists added.
  - cbn [fst snd]. apply Hsame; reflexivity.
Qed.

(** The accounts of a run, from any state. The goroutines are as many as
    there were plus one per [Start] answered "Sunlight Reading Started":
    nothing else spawns one and none is ever removed. The sensor stays
    attached or absent as it was. The rows stored before the run are still
    there, unchanged and in their order, before the rows it added. *)
Theorem run_accounting (evs : list Event) (rt : Runtime) :
  let out := run env rt evs in
  List.length (goroutines (fst out))
  = (List.length (goroutines rt)
     + List.length (filter is_started (snd out)))%nat
  /\ (TSL2591 (m (fst out)) = None <-> TSL2591 (m rt) = None)
  /\ exists added,
      rows (ResultsDB (m (fst out))) = rows (ResultsDB (m rt)) ++ added.
Proof.
  revert rt. induction evs as [|ev evs IH]; intros rt; cbv zeta.
  - cbn. split; [lia|]. split; [tauto|]. exists []. now rewrite app_nil_r.
  - cbn [run].
    pose proof (step_accounting rt ev) as Hs. cbv zeta in Hs.
    destruct (step env rt ev) as [rt1 r]. cbn [fst snd] in Hs.
    specialize (IH rt1). cbv zeta in IH.
    destruct (run env rt1 evs) as [rt2 rs]. cbn [fst snd] in *.
    destruct Hs as (Hl & Ht & added1 & Hr).
    destruct IH as (Hl' & Ht' & added2 & Hr').
    split; [|split].
    + rewrite Hl', Hl. destruct r as [r|]; [|lia].
      cbn [filter]. destruct (is_started r); cbn [List.length]; lia.
    + tauto.
    + exists (added1 ++ added2). now rewrite Hr', Hr, app_assoc.
Qed.

(** With no sensor on the bus the service runs, and stays as it started:
    every [Start] and every [Stop] is answered with the error of the absent
    device, no goroutine is ever spawned and no row is ever stored. *)
Theorem absent_sensor_is_permanent (evs : list Event) :
  ~ RegisterSpec.answers_probe (i2c env) ->
  let out := run env (main env) evs in
  Forall (eq DeviceAbsent) (snd out)
  /\ TSL2591 (m (fst out)) = None
  /\ goroutines (fst out) = []
  /\ rows (ResultsDB (m (fst out))) = [].
Proof.
  intros Hn. cbv zeta.
  assert (Hgen : forall rt,
             TSL2591 (m rt) = None -> goroutines rt = [] ->
             rows (ResultsDB (m rt)) = [] ->
             Forall (eq DeviceAbsent) (snd (run env rt evs))
             /\ TSL2591 (m (fst (run env rt evs))) = None
             /\ goroutines (fst (run env rt evs)) = []
             /\ rows (ResultsDB (m (fst (run env rt evs)))) = []).
  { induction evs as [|ev evs IH]; intros rt Ht Hg Hr.
    - cbn. auto.
    - cbn [run].
      assert (Hstep : TSL2591 (m (fst (step env rt ev))) = None
                      /\ goroutines (fst (step env rt ev)) = []
                      /\ rows (ResultsDB (m (fst (step env rt ev)))) = []
                      /\ (snd (step env rt ev) = None
                          \/ snd (step env rt ev) = Some DeviceAbsent)).
      { destruct ev as [| |i|i|ctx]; cbn [step].
        - unfold Start. rewrite Ht. cbn. auto.
        - unfold Stop. rewrite Ht. cbn. auto.
        - unfold run_goroutine. rewrite Hg.
          destruct i; cbn; auto.
        - unfold receive. rewrite Hg. destruct i; cbn; auto.
        - cbn. auto. }
      destruct (step env rt ev) as [rt1 r]. cbn [fst snd] in Hstep.
      destruct Hstep as (Ht1 & Hg1 & Hr1 & Hresp).
      destruct (IH rt1 Ht1 Hg1 Hr1) as (A & B & C & D).
      destruct (run env rt1 evs) as [rt2 rs]. cbn [fst snd] in *.
      split; [|auto].
      destruct Hresp as [-> | ->]; [exact A|]. now constructor. }
  apply Hgen; unfold main; cbn [m TSL2591 goroutines ResultsDB rows];
    try reflexivity.
  now apply NewTSL2591_unanswered.
Qed.

End RunInvariants.

Section RunExamples.
Import sunlightmeter ServiceSpec RunSpec Fixtures.

Lemma run_consistent_witness :
  consistent (env_of healthy_hw) sampling_rt
  /\ consistent (env_of healthy_hw)
       (fst (run (env_of healthy_hw) sampling_rt [Run 0; Receive 0; GetStop]%nat)).
Proof.
  pose proof (proj2 (proj2 (run_consistent (env_of healthy_hw)
                              [GetStart; Run 0]%nat))) as H.
  exact (conj H
           (proj1 (proj2 (run_consistent (env_of healthy_hw)
                            [Run 0; Receive 0; GetStop]%nat))
              sampling_rt H)).
Defined.

Lemma absent_sensor_is_permanent_witness :
  ~ RegisterSpec.answers_probe (i2c (env_of absent_hw))
  /\ Forall (eq DeviceAbsent)
       (snd (run (env_of absent_hw) (main (env_of absent_hw))
               [GetStart; Run 0; GetStop; GetStart]%nat))
  /\ goroutines (fst (run (env_of absent_hw) (main (env_of absent_hw))
                        [GetStart; Run 0; GetStop; GetStart]%nat)) = [].
Proof.
  assert (H : ~ RegisterSpec.answers_probe (i2c (env_of absent_hw)))
    by (intros [H _]; discriminate H).
  destruct (absent_sensor_is_permanent (env_of absent_hw)
              [GetStart; Run 0; GetStop; GetStart]%nat H) as (A & _ & C & _).
  exact (conj H (conj A C)).
Defined.

End RunExamples.

(** ** The service after the probe, and the turns of a job *)

Section ServiceProperties.
Import sunlightmeter ServiceSpec RunSpec Fixtures.

(** The service after a probe that was answered. No job runs. If the write
    that ends the probe, the one of [Disable], was acknowledged, the sensor
    counts as stopped: [Start] is accepted and [Stop] answers NotRunning. If
    it was not, its error is dropped and the sensor counts as started
    although nothing was: [Start] answers AlreadyRunning, and [Stop] calls
    the nil [m.cancel], which the router answers with status 500. *)
Theorem main_after_probe (env : Env) :
  RegisterSpec.answers_probe (i2c env) ->
  let rt := main env in
  goroutines rt = [] /\ running rt = [] /\ cancel (m rt) = None
  /\ (tsl2591.write_ok (i2c env) 2 = true ->
      Start rt = (set_goroutines rt [Spawned], Started)
      /\ Stop env rt = (rt, NotRunning))
  /\ (tsl2591.write_ok (i2c env) 2 = false ->
      Start rt = (rt, AlreadyRunning)
      /\ status (snd (Stop env rt)) = StatusInternalServerError
      /\ goroutines (fst (Stop env rt)) = []).
Proof.
  intros Hp. cbv zeta.
  pose proof (NewTSL2591_answered (i2c env) tsl2591.TSL2591_GAIN_LOW
                tsl2591.TSL2591_INTEGRATIONTIME_300MS Hp) as Hboot.
  cbv zeta in Hboot.
  assert (Hs : TSL2591 (m (main env))
               = fst (tsl2591.NewTSL2591 (i2c env) tsl2591.TSL2591_GAIN_LOW
                        tsl2591.TSL2591_INTEGRATIONTIME_300MS))
    by reflexivity.
  rewrite Hboot in Hs. cbn [fst] in Hs.
  assert (Hg : goroutines (main env) = []) by reflexivity.
  assert (Hc : cancel (m (main env)) = None) by reflexivity.
  split; [exact Hg|]. split; [unfold running; now rewrite Hg|].
  split; [exact Hc|].
  split; intros Hw; rewrite Hw in Hs; cbn [negb] in Hs.
  - unfold Start, Stop. rewrite Hs, Hg. cbn [tsl2591.Enabled negb app].
    split; reflexivity.
  - unfold Start, Stop. rewrite Hs, Hc. cbn [tsl2591.Enabled negb].
    split; [reflexivity|].
    destruct (tsl2591.Disable (i2c env) _) as [tsl1 e].
    split; [reflexivity|exact Hg].
Qed.

Lemma main_after_probe_witness :
  RegisterSpec.answers_probe (i2c (env_of nack_disable_hw))
  /\ tsl2591.write_ok (i2c (env_of nack_disable_hw)) 2 = false
  /\ Start (main (env_of nack_disable_hw))
     = (main (env_of nack_disable_hw), AlreadyRunning)
  /\ RegisterSpec.answers_probe (i2c (env_of healthy_hw))
  /\ tsl2591.write_ok (i2c (env_of healthy_hw)) 2 = true
  /\ Stop (env_of healthy_hw) (main (env_of healthy_hw))
     = (main (env_of healthy_hw), NotRunning).
Proof.
  assert (Hp : RegisterSpec.answers_probe (i2c (env_of nack_disable_hw))).
  { split; [reflexivity|]. exists [0x50]. split; reflexivity. }
  assert (Hw : tsl2591.write_ok (i2c (env_of nack_disable_hw)) 2 = false)
    by reflexivity.
  assert (Hp' : RegisterSpec.answers_probe (i2c (env_of healthy_hw))).
  { split; [reflexivity|]. exists [0x50]. split; reflexivity. }
  assert (Hw' : tsl2591.write_ok (i2c (env_of healthy_hw)) 2 = true)
    by reflexivity.
  destruct (main_after_probe (env_of nack_disable_hw) Hp) as (_ & _ & _ & _ & B).
  destruct (main_after_probe (env_of healthy_hw) Hp') as (_ & _ & _ & A & _).
  exact (conj Hp (conj Hw (conj (proj1 (B Hw))
           (conj Hp' (conj Hw' (proj2 (A Hw'))))))).
Defined.

(** The end of a job. Once its context is done, by [Stop] or by the
    deadline, a job at the top of its loop returns at its next turn: it
    stores nothing and its deferred [Disable] runs on the sensor as it then
    is, whoever enabled it. If the sensor is off after that, because it was
    already or because the write is acknowledged, the next [Start] is
    accepted. The deadline of a context makes it done. *)
Theorem job_returns_when_done (env : Env) (rt : Runtime) (i ctx : nat)
    (jobID : string) (tsl : tsl2591.TSL2591) :
  TSL2591 (m rt) = Some tsl ->
  nth_error (goroutines rt) i = Some (Sampling ctx jobID) ->
  ctx_done rt ctx = true ->
  let rt' := run_goroutine env rt i in
  nth_error (goroutines rt') i = Some Returned
  /\ TSL2591 (m rt') = Some (fst (tsl2591.Disable (i2c env) tsl))
  /\ ResultsDB (m rt') = ResultsDB (m rt)
  /\ (tsl2591.Enabled tsl = false
      \/ tsl2591.write_ok (i2c env) (tsl2591.nwrites (tsl2591.Device tsl))
         = true ->
      snd (Start rt') = Started)
  /\ ctx_done (fst (step env rt (Deadline ctx))) ctx = true.
Proof.
  intros Ht Hi Hd. cbv zeta.
  unfold run_goroutine. rewrite Hi. unfold job_turn. rewrite Ht, Hd.
  destruct (tsl2591.Disable (i2c env) tsl) as [tsl1 e] eqn:Hdis.
  unfold set_goroutine, set_goroutines, set_TSL2591.
  cbn [goroutines m TSL2591 ResultsDB fst].
  split; [now apply (nth_error_update _ _ _ _ Hi)|].
  split; [reflexivity|]. split; [reflexivity|]. split.
  - intros Hoff. unfold Start. cbn [m TSL2591].
    assert (Eoff : tsl2591.Enabled tsl1 = false).
    { unfold tsl2591.Disable, tsl2591.WriteReg in Hdis.
      destruct (tsl2591.Enabled tsl) eqn:He; cbn [negb] in Hdis.
      - destruct Hoff as [Hoff|Hoff]; [discriminate Hoff|].
        rewrite Hoff in Hdis. injection Hdis as <- _. reflexivity.
      - injection Hdis as <- _. exact He. }
    rewrite Eoff. reflexivity.
  - cbn [step fst]. unfold ctx_done, close_ctx. cbn [done existsb].
    now rewrite Nat.eqb_refl.
Qed.

Lemma job_returns_when_done_witness :
  let rt := fst (run (env_of healthy_hw) sampling_rt [Deadline 0]%nat) in
  TSL2591 (m rt) = Some sampling_tsl
  /\ nth_error (goroutines rt) 0 = Some (Sampling 0 (job_name 0))
  /\ ctx_done rt 0 = true
  /\ nth_error (goroutines (run_goroutine (env_of healthy_hw) rt 0)) 0
     = Some Returned
  /\ snd (Start (run_goroutine (env_of healthy_hw) rt 0)) = Started.
Proof.
  cbv zeta.
  set (rt := fst (run (env_of healthy_hw) sampling_rt [Deadline 0]%nat)).
  assert (Ht : TSL2591 (m rt) = Some sampling_tsl) by (vm_compute; reflexivity).
  assert (Hi : nth_error (goroutines rt) 0 = Some (Sampling 0 (job_name 0)))
    by (vm_compute; reflexivity).
  assert (Hd : ctx_done rt 0 = true) by (vm_compute; reflexivity).
  destruct (job_returns_when_done (env_of healthy_hw) rt 0 0 (job_name 0)
              sampling_tsl Ht Hi Hd) as (A & _ & _ & D & _).
  exact (conj Ht (conj Hi (conj Hd (conj A (D (or_intror eq_refl)))))).
Defined.

(** The turns that send no reading. While its context is not done, a job
    at the top of its loop whose read fails, be it that the sensor is not
    enabled or that the bus fails, sends the zero-valued result under its
    job id, leaving gain and timing alone; received, that result is stored,
    when the database executes the statement, as the row with lux "0.00000"
    and the three outputs "0.00000e+00". A job whose read is saturated
    sends nothing and stores nothing: it runs the calibration and is back at
    the top of its loop. *)
Theorem job_turn_without_reading (env : Env) (rt : Runtime) (i ctx : nat)
    (jobID : string) (tsl : tsl2591.TSL2591) :
  TSL2591 (m rt) = Some tsl ->
  nth_error (goroutines rt) i = Some (Sampling ctx jobID) ->
  ctx_done rt ctx = false ->
  let rt' := run_goroutine env rt i in
  (forall e, snd (tsl2591.GetFullLuminosity (i2c env) tsl) = Some e ->
     nth_error (goroutines rt') i
     = Some (Sending ctx jobID (failed_read jobID))
     /\ (forall tsl', TSL2591 (m rt') = Some tsl' ->
           tsl2591.Gain tsl' = tsl2591.Gain tsl
           /\ tsl2591.Timing tsl' = tsl2591.Timing tsl)
     /\ ResultsDB (m rt') = ResultsDB (m rt)
     /\ (exec_ok env (nexec (ResultsDB (m rt))) = true ->
         rows (ResultsDB (m (receive env rt' i)))
         = rows (ResultsDB (m rt))
           ++ [{| job_id := jobID; lux := "0.00000";
                  full_spectrum := "0.00000e+00";
                  visible := "0.00000e+00";
                  infrared := "0.00000e+00" |}]))
  /\ (forall tsl1 ch0 ch1,
        tsl2591.GetFullLuminosity (i2c env) tsl = (tsl1, ch0, ch1, None) ->
        ch0 = 0xFFFF \/ ch1 = 0xFFFF ->
        nth_error (goroutines rt') i = Some (Sampling ctx jobID)
        /\ TSL2591 (m rt')
           = Some (fst (tsl2591.SetOptimalGain (i2c env) tsl1))
        /\ ResultsDB (m rt') = ResultsDB (m rt)
        /\ receive env rt' i = rt').
Proof.
  intros Ht Hi Hd. cbv zeta.
  unfold run_goroutine. rewrite Hi. unfold job_turn. rewrite Ht, Hd.
  split.
  - intros e He.
    assert (Hgt : forall tsl1, fst (fst (fst (tsl2591.GetFullLuminosity
                                               (i2c env) tsl))) = tsl1 ->
                  tsl2591.Gain tsl1 = tsl2591.Gain tsl
                  /\ tsl2591.Timing tsl1 = tsl2591.Timing tsl).
    { intros tsl1 <-. unfold tsl2591.GetFullLuminosity, tsl2591.ReadReg.
      destruct (tsl2591.Enabled tsl); cbn [negb]; [|split; reflexivity].
      destruct (tsl2591.read_reply _ _); split; reflexivity. }
    destruct (tsl2591.GetFullLuminosity (i2c env) tsl)
      as [[[tsl1 ch0] ch1] err].
    cbn [snd] in He. subst err. cbn [fst] in Hgt.
    unfold set_goroutine, set_goroutines, set_TSL2591.
    cbn [goroutines m TSL2591 ResultsDB].
    assert (Hnth : nth_error (update (goroutines rt) i
                                (Sending ctx jobID (failed_read jobID))) i
                   = Some (Sending ctx jobID (failed_read jobID)))
      by now apply (nth_error_update _ _ _ _ Hi).
    split; [exact Hnth|]. split; [intros tsl' [= <-]; now apply Hgt|].
    split; [reflexivity|].
    intros Hok. unfold receive. cbn [goroutines]. rewrite Hnth.
    unfold set_goroutine, set_goroutines, set_ResultsDB.
    cbn [goroutines m TSL2591 ResultsDB].
    unfold record, Exec_insert, failed_read. cbn [Lux].
    replace (math.IsInf 0 1) with false by (vm_compute; reflexivity).
    rewrite Hok. cbn [fst rows JobID FullSpectrum Visible Infrared].
    do 2 f_equal.
  - intros tsl1 ch0 ch1 Hg Hsat. rewrite Hg.
    rewrite (CalculateLux_saturated tsl1 ch0 ch1 Hsat).
    destruct (tsl2591.SetOptimalGain (i2c env) tsl1) as [tsl2 e].
    unfold set_TSL2591. cbn [goroutines m TSL2591 ResultsDB fst].
    split; [exact Hi|]. split; [reflexivity|]. split; [reflexivity|].
    unfold receive. cbn [goroutines]. rewrite Hi. reflexivity.
Qed.

Lemma job_turn_without_reading_witness :
  let env := env_of nack_enable_hw in
  let rt := fst (run env (main env) [GetStart; Run 0]%nat) in
  exists tsl,
    TSL2591 (m rt) = Some tsl
    /\ nth_error (goroutines rt) 0 = Some (Sampling 0 (job_name 0))
    /\ ctx_done rt 0 = false
    /\ snd (tsl2591.GetFullLuminosity (i2c env) tsl)
       = Some tsl2591.ErrNotEnabled
    /\ nth_error (goroutines (run_goroutine env rt 0)) 0
       = Some (Sending 0 (job_name 0) (failed_read (job_name 0))).
Proof.
  cbv zeta.
  set (env := env_of nack_enable_hw).
  set (rt := fst (run env (main env) [GetStart; Run 0]%nat)).
  set (tsl := match TSL2591 (m rt) with Some t => t | None => disabled_tsl end).
  assert (Ht : TSL2591 (m rt) = Some tsl) by (vm_compute; reflexivity).
  assert (Hi : nth_error (goroutines rt) 0 = Some (Sampling 0 (job_name 0)))
    by (vm_compute; reflexivity).
  assert (Hd : ctx_done rt 0 = false) by (vm_compute; reflexivity).
  assert (He : snd (tsl2591.GetFullLuminosity (i2c env) tsl)
               = Some tsl2591.ErrNotEnabled) by (vm_compute; reflexivity).
  exists tsl.
  exact (conj Ht (conj Hi (conj Hd (conj He
    (proj1 (proj1 (job_turn_without_reading env rt 0 0 (job_name 0) tsl
                     Ht Hi Hd) _ He)))))).
Defined.

End ServiceProperties.

(** ** The signal strength of the wifi link *)

Section SignalProperties.
Import sunlightmeter.

Lemma signal_quality_clamped (n : Z) :
  fst (signal_quality n) = Z.max (-110) (Z.min n (-40)).
Proof.
  unfold signal_quality. cbn [fst]. rewrite Z.gtb_ltb.
  destruct (Z.ltb_spec n (-110)); [lia|].
  destruct (Z.ltb_spec (-40) n); lia.
Qed.

Lemma signal_quality_scaled (n : Z) :
  snd (signal_quality n) = (fst (signal_quality n) + 110) * 100 / 70.
Proof.
  rewrite signal_quality_clamped.
  unfold signal_quality. cbn [snd]. rewrite !Z.gtb_ltb.
  set (d := if n <? -110 then -110 else if -40 <? n then -40 else n).
  assert (Hd : d = Z.max (-110) (Z.min n (-40))).
  { unfold d. destruct (Z.ltb_spec n (-110)); [lia|].
    destruct (Z.ltb_spec (-40) n); lia. }
  rewrite <- Hd.
  assert (Hr : -110 <= d <= -40) by lia.
  rewrite Z.quot_div_nonneg by lia.
  assert (H0 : 0 <= (d + 110) * 100 / 70) by (apply Z.div_pos; lia).
  assert (H1 : (d + 110) * 100 / 70 <= 100)
    by (apply Z.div_le_upper_bound; lia).
  destruct (Z.ltb_spec ((d + 110) * 100 / 70) 0); [lia|].
  destruct (Z.ltb_spec 100 ((d + 110) * 100 / 70)); [lia|reflexivity].
Qed.

(** The quality [SignalStrength] reports, for every integer the command
    prints. The signal reported is the measured one brought into
    [-110, -40] dBm; the quality is that signal scaled, [(dBm + 110) * 100 /
    70], so that the two tests on the scaled value never change it; it lies
    in [0, 100], is 0 exactly for signals of -110 dBm and below, 100
    exactly for signals of -40 dBm and above, and a stronger signal never
    has a lower quality. The answer is a 200 that names both numbers. *)
Theorem SignalStrength_quality (n : Z) :
  let dBm := fst (signal_quality n) in
  let quality := snd (signal_quality n) in
  dBm = Z.max (-110) (Z.min n (-40))
  /\ quality = (dBm + 110) * 100 / 70
  /\ 0 <= quality <= 100
  /\ (quality = 0 <-> n <= -110)
  /\ (quality = 100 <-> -40 <= n)
  /\ (forall n', n <= n' -> quality <= snd (signal_quality n'))
  /\ SignalStrength (Signal n)
     = {| status := StatusOK;
          message := ("Signal Strength: " ++ strconv.Itoa dBm ++ " dBm"
                      ++ String (ascii_of_nat 10) "Quality: "
                      ++ strconv.Itoa quality ++ "%")%string |}.
Proof.
  cbv zeta.
  pose proof (signal_quality_clamped n) as Hd.
  pose proof (signal_quality_scaled n) as Hq.
  split; [exact Hd|]. split; [exact Hq|].
  rewrite Hq, Hd.
  set (d := Z.max (-110) (Z.min n (-40))).
  assert (Hr : -110 <= d <= -40) by (unfold d; lia).
  assert (H0 : 0 <= (d + 110) * 100 / 70) by (apply Z.div_pos; lia).
  assert (H1 : (d + 110) * 100 / 70 <= 100)
    by (apply Z.div_le_upper_bound; lia).
  split; [lia|]. split; [|split; [|split]].
  - split; intros H.
    + destruct (Z.le_gt_cases d (-110)) as [Hle|Hgt]; [unfold d in Hle; lia|].
      assert (1 <= (d + 110) * 100 / 70)
        by (apply Z.div_le_lower_bound; lia).
      lia.
    + replace d with (-110) by (unfold d; lia). reflexivity.
  - split; intros H.
    + destruct (Z.le_gt_cases (-40) d) as [Hle|Hgt]; [unfold d in Hle; lia|].
      assert ((d + 110) * 100 / 70 < 100)
        by (apply Z.div_lt_upper_bound; lia).
      lia.
    + replace d with (-40) by (unfold d; lia). reflexivity.
  - intros n' Hn. rewrite (signal_quality_scaled n'), signal_quality_clamped.
    apply Z.div_le_mono; [lia|]. unfold d. lia.
  - unfold SignalStrength. destruct (signal_quality n) as [dBm q].
    cbn [fst snd] in Hd, Hq. subst d. rewrite <- Hd, <- Hq. reflexivity.
Qed.

End SignalProperties.

(** ** The connection to the database *)

Section ConnectProperties.
Import tools ConnectSpec.

Lemma pause_exact (i : nat) :
  Z.of_nat i + 1 <= max_attempts ->
  Sleep (int64 (int64 (Z.of_nat i + 1) * (3 * Second)))
  = (Z.of_nat i + 1) * 3 * Second.
Proof.
  intros H. unfold max_attempts, Second in H.
  change ((2 ^ 63 - 1) / (3 * 1000000000)) with 3074457345 in H.
  assert (E : forall x, 0 <= x < 2 ^ 63 -> int64 x = x).
  { intros x Hx. unfold int64.
    rewrite Z.mod_small by (change (2 ^ 64) with (2 ^ 63 + 2 ^ 63); lia).
    lia. }
  unfold Second. change (2 ^ 63) with 9223372036854775808 in E.
  rewrite (E (Z.of_nat i + 1)) by lia.
  rewrite E by lia. unfold Sleep. lia.
Qed.

Lemma connect_loop_spec (driver : nat -> Attempt) (remaining : nat) :
  forall (i : nat) (err : option error) (slept : Z),
    Z.of_nat (i + remaining) <= max_attempts ->
    exists k : nat,
      (k <= remaining)%nat
      /\ (forall j, (i <= j < i + k)%nat -> failed (driver j))
      /\ 2 * (snd (connect_loop driver remaining i err slept) - slept)
         = 3 * Second * Z.of_nat k * (2 * Z.of_nat i + Z.of_nat k + 1)
      /\ match fst (fst (connect_loop driver remaining i err slept)) with
         | Some h =>
             h = (i + k)%nat /\ (k < remaining)%nat /\ driver h = Connects
             /\ snd (fst (connect_loop driver remaining i err slept)) = None
         | None =>
             k = remaining
             /\ snd (fst (connect_loop driver remaining i err slept))
                = match k with
                  | O => err
                  | S k' => Some (ErrConnect (i + k'))
                  end
         end.
Proof.
  induction remaining as [|r IH]; intros i err slept Hmax.
  - exists 0%nat. cbn [connect_loop fst snd].
    split; [lia|]. split; [intros j Hj; lia|]. split; [lia|].
    split; reflexivity.
  - cbn [connect_loop].
    assert (Hfail : failed (driver i) ->
      exists k : nat,
        (k <= S r)%nat
        /\ (forall j, (i <= j < i + k)%nat -> failed (driver j))
        /\ 2 * (snd (connect_loop driver r (S i) (Some (ErrConnect i))
                       (slept + Sleep (int64 (int64 (Z.of_nat i + 1)
                                                * (3 * Second))))) - slept)
           = 3 * Second * Z.of_nat k * (2 * Z.of_nat i + Z.of_nat k + 1)
        /\ match fst (fst (connect_loop driver r (S i) (Some (ErrConnect i))
                       (slept + Sleep (int64 (int64 (Z.of_nat i + 1)
                                                * (3 * Second)))))) with
           | Some h =>
               h = (i + k)%nat /\ (k < S r)%nat /\ driver h = Connects
               /\ snd (fst (connect_loop driver r (S i) (Some (ErrConnect i))
                       (slept + Sleep (int64 (int64 (Z.of_nat i + 1)
                                                * (3 * Second)))))) = None
           | None =>
               k = S r
               /\ snd (fst (connect_loop driver r (S i) (Some (ErrConnect i))
                       (slept + Sleep (int64 (int64 (Z.of_nat i + 1)
                                                * (3 * Second))))))
                  = match k with
                    | O => err
                    | S k' => Some (ErrConnect (i + k'))
                    end
           end).
    { intros Hi. rewrite pause_exact by lia.
      destruct (IH (S i) (Some (ErrConnect i))
                  (slept + (Z.of_nat i + 1) * 3 * Second))
        as (k & Hk & Hf & Hs & Hr); [lia|].
      exists (S k). split; [lia|]. split.
      { intros j Hj. destruct (Nat.eq_dec j i) as [->|Hne]; [exact Hi|].
        apply Hf. lia. }
      split; [rewrite Nat2Z.inj_succ in *; nia|].
      destruct (fst (fst (connect_loop driver r (S i) _ _))) as [h|].
      - destruct Hr as (-> & Hlt & Hc & He).
        split; [lia|]. split; [lia|]. split; [exact Hc|exact He].
      - destruct Hr as (-> & He). split; [reflexivity|].
        rewrite He. destruct r as [|r']; do 2 f_equal; lia. }
    destruct (driver i) eqn:Hd;
      [apply Hfail; unfold failed; congruence
      |apply Hfail; unfold failed; congruence|].
    exists 0%nat. cbn [fst snd].
    split; [lia|]. split; [intros j Hj; lia|]. split; [lia|].
    split; [lia|]. split; [lia|]. split; [exact Hd|reflexivity].
Qed.

Lemma backoff_double (k : Z) : 0 <= k -> 2 * backoff k = 3 * k * (k + 1).
Proof.
  intros Hk. unfold backoff. symmetry. apply Z.div_exact; [lia|].
  replace (3 * k * (k + 1)) with (3 * (k * (k + 1))) by ring.
  rewrite <- Z.mul_mod_idemp_r by lia.
  replace ((k * (k + 1)) mod 2) with 0; [reflexivity|].
  symmetry. destruct (Z.Even_or_Odd k) as [[x Hx]|[x Hx]].
  - rewrite Hx.
    replace (2 * x * (2 * x + 1)) with ((x * (2 * x + 1)) * 2) by ring.
    apply Z.mod_mul. lia.
  - rewrite Hx.
    replace ((2 * x + 1) * (2 * x + 1 + 1))
      with (((2 * x + 1) * (x + 1)) * 2) by ring.
    apply Z.mod_mul. lia.
Qed.

Lemma connect_loop_first (driver : nat -> Attempt) (n : nat) :
  Z.of_nat n <= max_attempts ->
  exists k : nat,
    (k <= n)%nat
    /\ (forall j, (j < k)%nat -> failed (driver j))
    /\ snd (connect_loop driver n 0 None 0) = backoff (Z.of_nat k) * Second
    /\ match fst (fst (connect_loop driver n 0 None 0)) with
       | Some h =>
           h = k /\ (k < n)%nat /\ driver k = Connects
           /\ snd (fst (connect_loop driver n 0 None 0)) = None
       | None =>
           k = n
           /\ snd (fst (connect_loop driver n 0 None 0))
              = match k with
                | O => None
                | S k' => Some (ErrConnect k')
                end
       end.
Proof.
  intros Hmax.
  destruct (connect_loop_spec driver n 0 None 0 Hmax)
    as (k & Hk & Hf & Hs & Hr).
  exists k. split; [exact Hk|]. split; [intros j Hj; apply Hf; lia|]. split.
  - pose proof (backoff_double (Z.of_nat k) (Nat2Z.is_nonneg k)) as E.
    unfold Second in *. nia.
  - destruct (fst (fst (connect_loop driver n 0 None 0))) as [h|].
    + destruct Hr as (-> & Hlt & Hc & He).
      split; [reflexivity|]. split; [exact Hlt|]. split; [exact Hc|exact He].
    + exact Hr.
Qed.

(** [connectWithBackoff] for a number of attempts up to which no pause
    overflows. The attempts are made in order until one connects, and after
    each failed one the loop sleeps 3 s more than after the one before, also
    after the last. The handle of the first attempt that connects is
    returned, with no error, after 3 k (k + 1) / 2 seconds of sleep for the
    [k] failures before it. When none of the [maxRetries] attempts connects,
    no handle is returned, the error is that of the last attempt, and all
    the pauses were taken. With no attempt allowed, neither a handle nor an
    error is returned. *)
Theorem connectWithBackoff_spec (driver : nat -> Attempt) (maxRetries : Z) :
  maxRetries <= max_attempts ->
  exists k : nat,
    (forall j, (j < k)%nat -> failed (driver j))
    /\ snd (connectWithBackoff driver maxRetries)
       = backoff (Z.of_nat k) * Second
    /\ match fst (fst (connectWithBackoff driver maxRetries)) with
       | Some h =>
           h = k /\ Z.of_nat k < maxRetries /\ driver k = Connects
           /\ snd (fst (connectWithBackoff driver maxRetries)) = None
       | None =>
           Z.of_nat k = Z.max 0 maxRetries
           /\ snd (fst (connectWithBackoff driver maxRetries))
              = match k with
                | O => None
                | S k' => Some (ErrConnect k')
                end
       end.
Proof.
  intros Hmax. unfold connectWithBackoff.
  assert (Hn : Z.of_nat (Z.to_nat maxRetries) <= max_attempts).
  { destruct (Z.le_gt_cases 0 maxRetries) as [H0|H0].
    - now rewrite Z2Nat.id.
    - replace (Z.to_nat maxRetries) with 0%nat by lia.
      vm_compute. discriminate. }
  destruct (connect_loop_first driver (Z.to_nat maxRetries) Hn)
    as (k & Hk & Hf & Hs & Hr).
  exists k. split; [exact Hf|]. split; [exact Hs|].
  destruct (fst (fst (connect_loop driver (Z.to_nat maxRetries) 0 None 0)))
    as [h|].
  - destruct Hr as (-> & Hlt & Hc & He).
    split; [reflexivity|]. split; [lia|]. split; [exact Hc|exact He].
  - destruct Hr as (-> & He). split; [lia|exact He].
Qed.

Lemma connectWithBackoff_spec_witness :
  3 <= max_attempts
  /\ exists k : nat,
       (forall j, (j < k)%nat -> failed (ConnectFixtures.second_try j))
       /\ snd (connectWithBackoff ConnectFixtures.second_try 3)
          = backoff (Z.of_nat k) * Second
       /\ match fst (fst (connectWithBackoff ConnectFixtures.second_try 3)) with
          | Some h =>
              h = k /\ Z.of_nat k < 3
              /\ ConnectFixtures.second_try k = Connects
              /\ snd (fst (connectWithBackoff ConnectFixtures.second_try 3))
                 = None
          | None =>
              Z.of_nat k = Z.max 0 3
              /\ snd (fst (connectWithBackoff ConnectFixtures.second_try 3))
                 = match k with
                   | O => None
                   | S k' => Some (ErrConnect k')
                   end
          end.
Proof.
  assert (H : 3 <= max_attempts) by (vm_compute; discriminate).
  exact (conj H (connectWithBackoff_spec ConnectFixtures.second_try 3 H)).
Defined.

Lemma run_entries_spec (exec_ok : nat -> bool)
    (entries : list (string * option string)) :
  forall executed : list string,
    exists done rest new,
      entries = done ++ rest
      /\ fst (run_entries exec_ok entries executed) = executed ++ new
      /\ scripts_of done new
      /\ (forall n, (List.length executed <= n
                     < List.length (executed ++ new))%nat ->
                    exec_ok n = true)
      /\ stopped_at exec_ok (List.length (executed ++ new)) rest
           (snd (run_entries exec_ok entries executed)).
Proof.
  induction entries as [|[name [fileData|]] entries IH]; intros executed.
  - exists [], [], []. cbn [run_entries fst snd app]. rewrite app_nil_r.
    split; [reflexivity|]. split; [reflexivity|]. split; [reflexivity|].
    split; [intros n Hn; lia|reflexivity].
  - cbn [run_entries]. destruct (exec_ok (List.length executed)) eqn:Hok.
    + destruct (IH (executed ++ [fileData]))
        as (done & rest & new & He & Hx & Hs & Hall & Hstop).
      exists ((name, Some fileData) :: done), rest, (fileData :: new).
      replace (executed ++ fileData :: new)
        with ((executed ++ [fileData]) ++ new)
        by (rewrite <- app_assoc; reflexivity).
      split; [cbn [app]; now rewrite He|]. split; [exact Hx|].
      split; [unfold scripts_of in *; cbn [map snd]; now rewrite Hs|].
      split; [|exact Hstop].
      intros n Hn.
      destruct (Nat.eq_dec n (List.length executed)) as [->|Hne];
        [exact Hok|].
      apply Hall. repeat rewrite length_app in Hn.
      repeat rewrite length_app. cbn [List.length] in Hn |- *. lia.
    + exists [], ((name, Some fileData) :: entries), [].
      cbn [fst snd app]. rewrite app_nil_r.
      split; [reflexivity|]. split; [reflexivity|]. split; [reflexivity|].
      split; [intros n Hn; lia|]. cbn [stopped_at]. split; [exact Hok|reflexivity].
  - exists [], ((name, None) :: entries), [].
    cbn [run_entries fst snd app]. rewrite app_nil_r.
    split; [reflexivity|]. split; [reflexivity|]. split; [reflexivity|].
    split; [intros n Hn; lia|reflexivity].
Qed.

(** [ConnectSqlite], whatever the database and the migration files do. At
    most three attempts to connect are made, with a pause of 3, 6 and 9 s
    after the failed ones. A handle is returned exactly when no error is,
    and it is the one of the first attempt that connected. When all three
    attempts fail, no script is sent and the error is that of the third.
    When one connects and the directory of the migrations cannot be read,
    nothing is executed. Otherwise the scripts are executed in the order of
    the directory, none skipped, up to the first file that cannot be read
    or the first script the database refuses, whose error is returned;
    there is no error exactly when every script was executed. *)
Theorem ConnectSqlite_spec (driver : nat -> Attempt) (files : Migrations)
    (exec_ok : nat -> bool) :
  let db := fst (fst (fst (ConnectSqlite driver files exec_ok))) in
  let executed := snd (fst (fst (ConnectSqlite driver files exec_ok))) in
  let err := snd (fst (ConnectSqlite driver files exec_ok)) in
  let slept := snd (ConnectSqlite driver files exec_ok) in
  exists k : nat,
    (k <= 3)%nat
    /\ (forall j, (j < k)%nat -> failed (driver j))
    /\ slept = backoff (Z.of_nat k) * Second
    /\ (db = None <-> err <> None)
    /\ (forall h, db = Some h -> h = k)
    /\ if (k <? 3)%nat then
         driver k = Connects
         /\ match files with
            | None => executed = [] /\ err = Some ErrReadDir
            | Some entries =>
                exists done rest,
                  entries = done ++ rest
                  /\ scripts_of done executed
                  /\ (forall n, (n < List.length executed)%nat ->
                                exec_ok n = true)
                  /\ stopped_at exec_ok (List.length executed) rest err
            end
       else executed = [] /\ err = Some (ErrConnect 2).
Proof.
  cbv zeta. unfold ConnectSqlite.
  assert (Hmax : Z.of_nat 3 <= max_attempts) by (vm_compute; discriminate).
  destruct (connect_loop_first driver 3 Hmax) as (k & Hk3 & Hf & Hs & Hr).
  unfold connectWithBackoff. change (Z.to_nat 3) with 3%nat.
  destruct (connect_loop driver 3 0 None 0) as [[db err] slept].
  cbn [fst snd] in Hs, Hr.
  exists k. destruct db as [h|].
  - destruct Hr as (-> & Hlt & Hc & ->).
    split; [lia|]. split; [exact Hf|].
    assert (Hk : (k <? 3)%nat = true) by (apply Nat.ltb_lt; lia).
    rewrite Hk.
    destruct files as [entries|].
    + cbn [RunMigrations].
      destruct (run_entries_spec exec_ok entries [])
        as (done & rest & new & He & Hx & Hsc & Hall & Hstop).
      cbn [app] in Hx, Hall, Hstop.
      destruct (run_entries exec_ok entries []) as [executed err].
      cbn [fst snd] in Hx, Hstop. subst new.
      assert (Hmig : exists done rest,
                 entries = done ++ rest
                 /\ scripts_of done executed
                 /\ (forall n, (n < List.length executed)%nat ->
                               exec_ok n = true)
                 /\ stopped_at exec_ok (List.length executed) rest err).
      { exists done, rest. split; [exact He|]. split; [exact Hsc|].
        split; [|exact Hstop]. intros n Hn. apply Hall.
        cbn [List.length]. lia. }
      destruct err as [e|]; cbn [fst snd].
      * split; [exact Hs|]. split; [split; [discriminate|reflexivity]|].
        split; [discriminate|]. split; [exact Hc|exact Hmig].
      * split; [exact Hs|].
        split; [split; [discriminate|intros H; now elim H]|].
        split; [now intros h' [= <-]|]. split; [exact Hc|exact Hmig].
    + cbn [RunMigrations fst snd].
      split; [exact Hs|]. split; [split; [discriminate|reflexivity]|].
      split; [discriminate|]. split; [exact Hc|]. split; reflexivity.
  - destruct Hr as (-> & ->). cbn [fst snd].
    split; [lia|]. split; [exact Hf|]. split; [exact Hs|].
    split; [split; [discriminate|reflexivity]|].
    split; [discriminate|]. cbn [Nat.ltb Nat.leb]. split; reflexivity.
Qed.

End ConnectProperties.

